(** * Robert edge detection plug-in (Edge/Robert.cpp)

    A shallow embedding of the plug-in's kernel [edgeDetection] and of
    [Robert::execute], together with the properties its specification
    states about them.

    - C [int] / [unsigned int] values are integers of [Z] with the 32-bit
      wrap-around written out.
    - C [double] is the primitive binary64 type [float]; the arithmetic of
      the kernel is the IEEE-754 arithmetic of [PrimFloat].
    - Every call the code makes on a host service (progress reporter, abort
      flag, accessors, model services, desktop services) is recorded as an
      [Event]; the list of events of a run is its trace, in execution
      order.
*)

From Stdlib Require Import ZArith Lia List String Bool Floats.
From Stdlib Require Uint63.
Import ListNotations.

Local Open Scope Z_scope.

(* ================================================================= *)
(** ** Machine integers *)

Module MachineInt.

Definition INT_MAX : Z := 2147483647.

(** Value of a C [unsigned int] expression: reduction modulo 2^32. *)
Definition to_uint (z : Z) : Z := z mod 4294967296.

(** Value of a C [int] holding the two's complement pattern of [z]
    (the conversion [unsigned int -> int] of every mainstream ABI, and
    the wrap of an overflowing [int] operation). *)
Definition to_int (z : Z) : Z := (z + 2147483648) mod 4294967296 - 2147483648.

Definition int_add (a b : Z) : Z := to_int (a + b).
Definition int_sub (a b : Z) : Z := to_int (a - b).

(** A count that an [int] parameter receives unchanged. *)
Definition fits_int (z : Z) : Prop := 0 <= z <= INT_MAX.

End MachineInt.
Export MachineInt.

(* ================================================================= *)
(** ** Encodings and sample types *)

(** The encoding tags of the host SDK.  [Robert.cpp] names two of them,
    [INT4SCOMPLEX] and [FLT8COMPLEX]; the others are the integer and
    floating-point encodings the dispatcher instantiates the kernel for. *)
Inductive EncodingType : Type :=
| INT1SBYTE
| INT1UBYTE
| INT2SBYTES
| INT2UBYTES
| INT4SCOMPLEX
| INT4SBYTES
| INT4UBYTES
| FLT4BYTES
| FLT8COMPLEX
| FLT8BYTES.

(** The C++ types the template parameter [T] of [edgeDetection] ranges
    over. *)
Inductive CType : Type :=
| signed_char
| unsigned_char
| signed_short
| unsigned_short
| signed_int
| unsigned_int
| c_float
| c_double.

(** Modelled from the spec: the macro [switchOnEncoding] (header
    switchOnEncoding.h of the host SDK, not among the sources) maps an
    encoding tag to the numeric type the generic operation is instantiated
    for; the two complex encodings select no instantiation. *)
Definition switchOnEncoding (e : EncodingType) : option CType :=
  match e with
  | INT1SBYTE => Some signed_char
  | INT1UBYTE => Some unsigned_char
  | INT2SBYTES => Some signed_short
  | INT2UBYTES => Some unsigned_short
  | INT4SBYTES => Some signed_int
  | INT4UBYTES => Some unsigned_int
  | FLT4BYTES => Some c_float
  | FLT8BYTES => Some c_double
  | INT4SCOMPLEX | FLT8COMPLEX => None
  end.

(** The test of [Robert::execute], line 125. *)
Definition is_complex (e : EncodingType) : bool :=
  match e with
  | INT4SCOMPLEX | FLT8COMPLEX => true
  | _ => false
  end.

Definition is_integer_type (T : CType) : bool :=
  match T with
  | c_float | c_double => false
  | _ => true
  end.

Definition int_min (T : CType) : Z :=
  match T with
  | signed_char => -128
  | signed_short => -32768
  | signed_int => -2147483648
  | _ => 0
  end.

Definition int_max (T : CType) : Z :=
  match T with
  | signed_char => 127
  | unsigned_char => 255
  | signed_short => 32767
  | unsigned_short => 65535
  | signed_int => 2147483647
  | unsigned_int => 4294967295
  | c_float | c_double => 0
  end.

(** A sample as the kernel sees it once the cell has been read at type
    [T]: an integer for the six integer types, a binary64 value for
    [float] and [double] (every binary32 value is a binary64 value). *)
Inductive sample : Type :=
| IntSample (z : Z)
| FloatSample (f : float).

(** The sample is a value of type [T]. *)

(* ================================================================= *)
(** ** C [double] arithmetic *)

Module Double.

(** Conversion of an integer to [double]; exact below 2^53. *)
Definition of_Z (z : Z) : float :=
  if z <? 0 then (- PrimFloat.of_uint63 (Uint63.of_Z (- z)))%float
  else PrimFloat.of_uint63 (Uint63.of_Z z).

(** Truncation toward zero, the value part of a floating-integral
    conversion; [None] for NaN and the infinities. *)
Definition truncate (x : float) : option Z :=
  match Prim2SF x with
  | S754_zero _ => Some 0
  | S754_finite s m e => Some (cond_Zopp s (Z.shiftl (Zpos m) e))
  | S754_infinity _ | S754_nan => None
  end.

(** Rounding to the nearest integer, halves away from zero (C's
    [round]); [None] for NaN and the infinities. *)
Definition round_half_away (x : float) : option Z :=
  match Prim2SF x with
  | S754_zero _ => Some 0
  | S754_finite s m e =>
      Some (cond_Zopp s (Z.shiftl (Z.shiftl (Zpos m) (e + 1) + 1) (-1)))
  | S754_infinity _ | S754_nan => None
  end.

(** Conversion [double -> float]: rounding to binary32, ties to even. *)
Definition to_single (x : float) : float :=
  match Prim2SF x with
  | S754_finite s m e => SF2Prim (binary_round 24 128 s m e)
  | _ => x
  end.

Definition is_finite (x : float) : bool :=
  match Prim2SF x with
  | S754_zero _ | S754_finite _ _ _ => true
  | S754_infinity _ | S754_nan => false
  end.

End Double.

(** The sample is a value of type [T]: an integer in the range of an
    integer type, a binary32 value for [float], any binary64 value for
    [double]. *)
Definition has_type (T : CType) (s : sample) : Prop :=
  match s, T with
  | IntSample z, (c_float | c_double) => False
  | IntSample z, _ => int_min T <= z <= int_max T
  | FloatSample f, c_float => Double.to_single f = f
  | FloatSample f, c_double => True
  | FloatSample f, _ => False
  end.

Definition to_double (s : sample) : float :=
  match s with
  | IntSample z => Double.of_Z z
  | FloatSample f => f
  end.

Definition finite_sample (s : sample) : bool := Double.is_finite (to_double s).

(* ================================================================= *)
(** ** Rasters and accessors *)

Record RasterDataDescriptor : Type := {
  getRowCount : Z;
  getColumnCount : Z;
  getDataType : EncodingType
}.

(** A raster element: its name, its descriptor and its cells, addressed
    by (row, column).  Only cells inside the descriptor's bounds are ever
    consulted. *)
Record RasterElement : Type := {
  getName : string;
  getDataDescriptor : RasterDataDescriptor;
  cells : Z -> Z -> sample
}.

Definition rowsOf (r : RasterElement) : Z := getRowCount (getDataDescriptor r).
Definition columnsOf (r : RasterElement) : Z := getColumnCount (getDataDescriptor r).
Definition encodingOf (r : RasterElement) : EncodingType := getDataType (getDataDescriptor r).

(** The accessor interface addresses pixels with [int] coordinates; a
    raster it can address has dimensions within [0, INT_MAX]. *)
Definition addressable (r : RasterElement) : Prop :=
  fits_int (rowsOf r) /\ fits_int (columnsOf r).

(** The position of a [DataAccessor]. *)
Record DataAccessor : Type := {
  acc_row : Z;
  acc_col : Z
}.

Module Accessor.

(** Modelled from the spec: [DataAccessor] (headers DataAccessor.h and
    DataAccessorImpl.h of the host SDK, not among the sources).  A
    cursor is valid only while positioned inside
    [0,rowCount) x [0,colCount). *)
Definition isValid (d : RasterDataDescriptor) (a : DataAccessor) : bool :=
  (0 <=? acc_row a) && (acc_row a <? getRowCount d) &&
  (0 <=? acc_col a) && (acc_col a <? getColumnCount d).

(** [getDataAccessor]: a fresh accessor stands on the first pixel. *)
Definition getDataAccessor : DataAccessor := {| acc_row := 0; acc_col := 0 |}.

(** [toPixel(row, column)]: random repositioning. *)
Definition toPixel (row col : Z) (_ : DataAccessor) : DataAccessor :=
  {| acc_row := row; acc_col := col |}.

(** [nextColumn()]: one cell to the right. *)
Definition nextColumn (a : DataAccessor) : DataAccessor :=
  {| acc_row := acc_row a; acc_col := acc_col a + 1 |}.

(** [nextRow()]: first cell of the following row. *)
Definition nextRow (a : DataAccessor) : DataAccessor :=
  {| acc_row := acc_row a + 1; acc_col := 0 |}.

(** [*getColumn()] read: the cell under the cursor. *)
Definition load (r : RasterElement) (a : DataAccessor) : sample :=
  cells r (acc_row a) (acc_col a).

(** [*getColumn() = v]: the raster with the cell under the cursor
    replaced. *)
Definition store (r : RasterElement) (a : DataAccessor) (v : sample) : RasterElement :=
  {| getName := getName r;
     getDataDescriptor := getDataDescriptor r;
     cells := fun row col =>
                if (row =? acc_row a) && (col =? acc_col a) then v
                else cells r row col |}.

End Accessor.

(* ================================================================= *)
(** ** Events *)

(** [ReportingLevel] of the progress reporter. *)
Inductive ReportingLevel : Type := NORMAL | ERRORS | ABORT.

(** Result recorded by [pStep->finalize]. *)
Inductive MessageResult : Type := Success | Failure | Abort.

Inductive Event : Type :=
| EvProgress (msg : string) (percent : Z) (level : ReportingLevel)
| EvFinalize (result : MessageResult) (msg : string)
| EvIsAborted (answer : bool)
| EvDestIsValid (answer : bool)
| EvToPixel (row col : Z)
| EvStore (row col : Z) (v : sample)
| EvNextColumn
| EvNextRow
| EvCreateRasterElement (name : string) (rows cols : Z) (e : EncodingType) (created : bool)
| EvCreateWindow (name : string) (created : bool)
| EvSetPrimaryRasterElement (name : string)
| EvCreateLayer (name : string)
| EvSetPlugInArgValue (name : string) (stored : bool).

Definition Trace : Type := list Event.

(** The polls of the abort flag. *)
Definition is_poll (ev : Event) : bool :=
  match ev with EvIsAborted _ => true | _ => false end.

(** The pixel positions the source accessor was moved to, in order. *)
Fixpoint positionsRead (t : Trace) : list (Z * Z) :=
  match t with
  | [] => []
  | EvToPixel r c :: t' => (r, c) :: positionsRead t'
  | _ :: t' => positionsRead t'
  end.

(** The cells written through the destination accessor, in order. *)
Fixpoint cellsWritten (t : Trace) : list (Z * Z) :=
  match t with
  | [] => []
  | EvStore r c _ :: t' => (r, c) :: cellsWritten t'
  | _ :: t' => cellsWritten t'
  end.

(* ================================================================= *)
(** ** The kernel: [edgeDetection<T>] *)

Section Robert.

(** A floating-integral conversion whose truncated value the
    destination type cannot represent has no result defined by the
    language; the value the platform's conversion delivers is a
    parameter of the development. *)
Variable fpint_unrepresentable : CType -> float -> Z.

(** [static_cast<T>(x)] for a [double] [x]. *)
Definition static_cast (T : CType) (x : float) : sample :=
  match T with
  | c_double => FloatSample x
  | c_float => FloatSample (Double.to_single x)
  | _ =>
      match Double.truncate x with
      | Some z =>
          if (int_min T <=? z) && (z <=? int_max T) then IntSample z
          else IntSample (fpint_unrepresentable T x)
      | None => IntSample (fpint_unrepresentable T x)
      end
  end.

(** Lines 59-61: the gradient magnitude, in [double]; every operation
    is rounded on its own (binary64, ties to even), a [T] operand being
    converted to [double] first. *)
Definition magnitude (midVal rightVal downVal lowerRightVal : sample) : float :=
  let gx := (1.0 * to_double midVal + -1.0 * to_double lowerRightVal)%float in
  let gy := (1.0 * to_double rightVal + -1.0 * to_double downVal)%float in
  PrimFloat.sqrt (gx * gx + gy * gy).

(** Lines 42-63 over the four clamped coordinates.  Each [toPixel] is
    followed by [VERIFYNRV(pSrcAcc.isValid())], which leaves the function
    without writing when the accessor is not valid.  The result is the
    trace of repositionings, the accessor as left behind, and the value
    stored through [pData], if any. *)
Definition edgeDetection_body (T : CType) (src : RasterElement) (pSrcAcc : DataAccessor)
    (row col prevCol prevRow nextCol nextRow : Z)
  : Trace * DataAccessor * option sample :=
  let d := getDataDescriptor src in
  let a1 := Accessor.toPixel row nextCol pSrcAcc in
  if negb (Accessor.isValid d a1) then ([EvToPixel row nextCol], a1, None) else
  let rightVal := Accessor.load src a1 in
  let a2 := Accessor.toPixel nextRow col a1 in
  if negb (Accessor.isValid d a2) then
    ([EvToPixel row nextCol; EvToPixel nextRow col], a2, None) else
  let downVal := Accessor.load src a2 in
  let a3 := Accessor.toPixel nextRow nextCol a2 in
  if negb (Accessor.isValid d a3) then
    ([EvToPixel row nextCol; EvToPixel nextRow col; EvToPixel nextRow nextCol], a3, None) else
  let lowerRightVal := Accessor.load src a3 in
  let a4 := Accessor.toPixel row col a3 in
  let t := [EvToPixel row nextCol; EvToPixel nextRow col;
            EvToPixel nextRow nextCol; EvToPixel row col] in
  if negb (Accessor.isValid d a4) then (t, a4, None) else
  let midVal := Accessor.load src a4 in
  (t, a4, Some (static_cast T (magnitude midVal rightVal downVal lowerRightVal))).

(** Lines 34-64. *)
Definition edgeDetection (T : CType) (src : RasterElement) (pSrcAcc : DataAccessor)
    (row col rowSize colSize : Z) : Trace * DataAccessor * option sample :=
  let prevCol := Z.max (int_sub col 1) 0 in
  let prevRow := Z.max (int_sub row 1) 0 in
  let nextCol := Z.min (int_add col 1) (int_sub colSize 1) in
  let nextRow := Z.min (int_add row 1) (int_sub rowSize 1) in
  edgeDetection_body T src pSrcAcc row col prevCol prevRow nextCol nextRow.

(* ----------------------------------------------------------------- *)
(** *** The host *)

(** What the run observes of its environment. *)
Record Host : Type := {
  (** answer of [isAborted()] when polled at the start of row [row] *)
  isAborted : Z -> bool;
  (** whether [RasterUtilities::createRasterElement] delivers an element *)
  elementCreated : bool;
  (** content of a newly created element *)
  freshCells : Z -> Z -> sample;
  (** [isBatch()] *)
  isBatch : bool;
  (** whether [createWindow] delivers a window with a spatial data view *)
  viewCreated : bool
}.

(** Values held by plug-in arguments. *)
Inductive ArgValue : Type :=
| ProgressObject
| RasterObject (r : RasterElement).

(** Modelled from the spec: the argument list of the host
    ([PlugInArgList], header PlugInArgList.h of the host SDK, not among
    the sources): named slots in declaration order, each holding a value
    or NULL.  A value is stored in the slot of the given name; the call
    reports failure and changes nothing when the list declares no such
    slot. *)
Definition PlugInArgList : Type := list (string * option ArgValue).

Definition addArg (name : string) (l : PlugInArgList) : PlugInArgList :=
  l ++ [(name, None)].

Fixpoint getArg (name : string) (l : PlugInArgList) : option (option ArgValue) :=
  match l with
  | [] => None
  | (n, v) :: l' => if String.eqb n name then Some v else getArg name l'
  end.

Fixpoint setPlugInArgValue (name : string) (v : ArgValue) (l : PlugInArgList)
  : bool * PlugInArgList :=
  match l with
  | [] => (false, [])
  | (n, x) :: l' =>
      if String.eqb n name then (true, (n, Some v) :: l')
      else let '(b, l'') := setPlugInArgValue name v l' in (b, (n, x) :: l'')
  end.

(** [getPlugInArgValue<Progress>]: is a progress reporter supplied? *)
Definition getProgress (name : string) (l : PlugInArgList) : bool :=
  match getArg name l with
  | Some (Some ProgressObject) => true
  | _ => false
  end.

(** [getPlugInArgValue<RasterElement>]. *)
Definition getRasterElement (name : string) (l : PlugInArgList) : option RasterElement :=
  match getArg name l with
  | Some (Some (RasterObject r)) => Some r
  | _ => None
  end.

(** [Executable::ProgressArg()] and [Executable::DataElementArg()]. *)
Definition ProgressArg : string := "Progress".
Definition DataElementArg : string := "Data Element".

(** Lines 87-94. *)
Definition getInputSpecification : PlugInArgList :=
  addArg DataElementArg (addArg ProgressArg []).

(** Lines 96-102. *)
Definition getOutputSpecification : PlugInArgList :=
  addArg "Result" [].

(** Modelled from the spec: [RasterUtilities::createRasterElement]
    (header RasterUtilities.h of the host SDK, not among the sources)
    allocates a raster with the row count, column count and encoding it
    is given, or delivers NULL when the backing store cannot be
    created. *)
Definition createRasterElement (h : Host) (name : string) (rows cols : Z)
    (e : EncodingType) : option RasterElement :=
  if elementCreated h then
    Some {| getName := name;
            getDataDescriptor :=
              {| getRowCount := rows; getColumnCount := cols; getDataType := e |};
            cells := freshCells h |}
  else None.

(* ----------------------------------------------------------------- *)
(** *** The scan: lines 155-189 *)

(** The exits of [execute] that report a failure, by the [return false]
    they belong to: lines 109, 121, 133, 149, 179 and 207. *)
Inductive Error : Type :=
| NoArgumentList
| InvalidInput
| UnsupportedEncoding
| AllocationFailed
| AccessorInvalid
| ViewFailed.

(** How a call of [execute] ends: [return true] (line 222), the abort
    exit (line 169), or a failure. *)
Inductive Outcome : Type :=
| Completed
| Aborted
| Failed (why : Error).

(** What the loops carry: the result element and the two accessors. *)
Record ScanState : Type := {
  pResultCube : RasterElement;
  pDestAcc : DataAccessor;
  pSrcAcc : DataAccessor
}.

(** [pProgress->updateProgress], guarded by [pProgress != NULL]. *)
Definition updateProgress (pProgress : bool) (msg : string) (percent : Z)
    (level : ReportingLevel) : Trace :=
  if pProgress then [EvProgress msg percent level] else [].

(** Lines 183-185: one pixel.  The dispatcher instantiates the kernel at
    the type of the encoding; the value the kernel delivers is stored in
    the cell under the destination accessor, which then moves on. *)
Definition pixelStep (pCube : RasterElement) (row col : Z) (st : ScanState)
  : Trace * ScanState :=
  let d := getDataDescriptor pCube in
  match switchOnEncoding (getDataType d) with
  | Some T =>
      let '(t, a, v) :=
        edgeDetection T pCube (pSrcAcc st) (to_int row) (to_int col)
          (to_int (getRowCount d)) (to_int (getColumnCount d)) in
      match v with
      | Some x =>
          (t ++ [EvStore (acc_row (pDestAcc st)) (acc_col (pDestAcc st)) x; EvNextColumn],
           {| pResultCube := Accessor.store (pResultCube st) (pDestAcc st) x;
              pDestAcc := Accessor.nextColumn (pDestAcc st);
              pSrcAcc := a |})
      | None =>
          (t ++ [EvNextColumn],
           {| pResultCube := pResultCube st;
              pDestAcc := Accessor.nextColumn (pDestAcc st);
              pSrcAcc := a |})
      end
  | None =>
      ([EvNextColumn],
       {| pResultCube := pResultCube st;
          pDestAcc := Accessor.nextColumn (pDestAcc st);
          pSrcAcc := pSrcAcc st |})
  end.

(** Lines 181-186: [for (col = ...; col < columnCount; ++col)], with
    [todo] columns left. *)
Fixpoint columnLoop (pCube : RasterElement) (todo : nat) (row col : Z) (st : ScanState)
  : Trace * ScanState :=
  match todo with
  | O => ([], st)
  | S todo' =>
      let '(t, st') := pixelStep pCube row col st in
      let '(t', st'') := columnLoop pCube todo' row (to_uint (col + 1)) st' in
      (t ++ t', st'')
  end.

(** The name set by the constructor, line 70. *)
Definition pluginName : string := "Robert Edge Detection".

(** Lines 155-189: [for (row = ...; row < rowCount; ++row)], with [todo]
    rows left. *)
Fixpoint rowLoop (h : Host) (pProgress : bool) (pCube : RasterElement)
    (todo : nat) (row : Z) (st : ScanState) : Outcome * Trace * ScanState :=
  match todo with
  | O => (Completed, [], st)
  | S todo' =>
      let d := getDataDescriptor pCube in
      let t0 := updateProgress pProgress "Calculating result"
                  (to_int (to_uint (row * 100) / getRowCount d)) NORMAL in
      if isAborted h row then
        let msg := (pluginName ++ " has been aborted.")%string in
        (Aborted,
         t0 ++ [EvIsAborted true; EvFinalize Abort msg] ++ updateProgress pProgress msg 0 ABORT,
         st)
      else if negb (Accessor.isValid (getDataDescriptor (pResultCube st)) (pDestAcc st)) then
        let msg := "Unable to access the cube data."%string in
        (Failed AccessorInvalid,
         t0 ++ [EvIsAborted false; EvDestIsValid false; EvFinalize Failure msg]
            ++ updateProgress pProgress msg 0 ERRORS,
         st)
      else
        let '(t1, st1) :=
          columnLoop pCube (Z.to_nat (getColumnCount d)) row 0 st in
        let st2 := {| pResultCube := pResultCube st1;
                      pDestAcc := Accessor.nextRow (pDestAcc st1);
                      pSrcAcc := pSrcAcc st1 |} in
        let '(o, t2, st3) := rowLoop h pProgress pCube todo' (to_uint (row + 1)) st2 in
        (o, t0 ++ [EvIsAborted false; EvDestIsValid true] ++ t1 ++ [EvNextRow] ++ t2, st3)
  end.

(* ----------------------------------------------------------------- *)
(** *** [Robert::execute]: lines 104-223 *)

(** What a call of [execute] leaves behind. *)
Record Run : Type := {
  (** the [bool] returned *)
  returned : bool;
  (** the exit taken *)
  outcome : Outcome;
  (** the calls on host services, in order *)
  trace : Trace;
  (** the output argument list after the call *)
  outArgList : option PlugInArgList;
  (** the result element left in the data model: [pResultCube] after
      [release()]; an element still owned by the [ModelResource] when
      the function returns is destroyed with it *)
  resultElement : option RasterElement
}.

Definition resultSuffix : string := "_Edge_Detection_Result".

(** The element [createRasterElement] is asked for, line 139. *)
Definition resultName (pCube : RasterElement) : string :=
  (getName pCube ++ resultSuffix)%string.

(** Lines 151-153: the state the scan starts from. *)
Definition initialState (cube : RasterElement) : ScanState :=
  {| pResultCube := cube;
     pDestAcc := Accessor.getDataAccessor;
     pSrcAcc := Accessor.getDataAccessor |}.

(** Lines 191-222: after the scan.  [tc] is the trace up to the scan and
    [scan] what the row loop delivered. *)
Definition conclude (h : Host) (pProgress : bool) (outArgs : PlugInArgList) (tc : Trace)
    (scan : Outcome * Trace * ScanState) : Run :=
  let '(o, ts, st') := scan in
  match o with
  | Completed =>
      let name := getName (pResultCube st') in
      let tw := if isBatch h then []
                else if viewCreated h
                     then [EvCreateWindow name true; EvSetPrimaryRasterElement name;
                           EvCreateLayer name]
                     else [EvCreateWindow name false] in
      if negb (isBatch h) && negb (viewCreated h) then
        let msg := "Unable to create view."%string in
        {| returned := false; outcome := Failed ViewFailed;
           trace := tc ++ ts ++ tw ++ [EvFinalize Failure msg]
                       ++ updateProgress pProgress msg 0 ERRORS;
           outArgList := Some outArgs; resultElement := None |}
      else
        let '(stored, outArgs') :=
          setPlugInArgValue "Robert_Edge_Result" (RasterObject (pResultCube st')) outArgs in
        {| returned := true; outcome := Completed;
           trace := tc ++ ts ++ tw
                       ++ updateProgress pProgress "Edge Detection is complete." 100 NORMAL
                       ++ [EvSetPlugInArgValue "Robert_Edge_Result" stored;
                           EvFinalize Success ""];
           outArgList := Some outArgs';
           resultElement := Some (pResultCube st') |}
  | _ =>
      {| returned := false; outcome := o; trace := tc ++ ts;
         outArgList := Some outArgs; resultElement := None |}
  end.

(** Lines 104-189.  Every raster element of the model has a descriptor,
    so [VERIFY(pDesc != NULL)] (line 124) always passes. *)
Definition execute (h : Host) (pInArgList pOutArgList : option PlugInArgList) : Run :=
  match pInArgList, pOutArgList with
  | Some inArgs, Some outArgs =>
      let pProgress := getProgress ProgressArg inArgs in
      match getRasterElement DataElementArg inArgs with
      | None =>
          let msg := "A raster cube must be specified."%string in
          {| returned := false; outcome := Failed InvalidInput;
             trace := [EvFinalize Failure msg] ++ updateProgress pProgress msg 0 ERRORS;
             outArgList := pOutArgList; resultElement := None |}
      | Some pCube =>
          let pDesc := getDataDescriptor pCube in
          if is_complex (getDataType pDesc) then
            let msg := "Edge detection cannot be performed on complex types."%string in
            {| returned := false; outcome := Failed UnsupportedEncoding;
               trace := [EvFinalize Failure msg] ++ updateProgress pProgress msg 0 ERRORS;
               outArgList := pOutArgList; resultElement := None |}
          else
            let tc := [EvCreateRasterElement (resultName pCube) (getRowCount pDesc)
                         (getColumnCount pDesc) (getDataType pDesc) (elementCreated h)] in
            match createRasterElement h (resultName pCube) (getRowCount pDesc)
                    (getColumnCount pDesc) (getDataType pDesc) with
            | None =>
                let msg := "A raster cube could not be created."%string in
                {| returned := false; outcome := Failed AllocationFailed;
                   trace := tc ++ [EvFinalize Failure msg]
                               ++ updateProgress pProgress msg 0 ERRORS;
                   outArgList := pOutArgList; resultElement := None |}
            | Some cube =>
                conclude h pProgress outArgs tc
                  (rowLoop h pProgress pCube (Z.to_nat (getRowCount pDesc)) 0
                     (initialState cube))
            end
      end
  | _, _ =>
      {| returned := false; outcome := Failed NoArgumentList; trace := [];
         outArgList := pOutArgList; resultElement := None |}
  end.

End Robert.

(* ================================================================= *)
(** ** The scan in closed form *)

(** The clamped "next" coordinates of lines 38-39, on exact integers. *)
Definition nextIndex (i size : Z) : Z := Z.min (i + 1) (size - 1).

Section Properties.

Variable fpcast : CType -> float -> Z.

(** The value the kernel computes for pixel (row, col) of [src]. *)
Definition kernelAt (T : CType) (src : RasterElement) (row col : Z) : sample :=
  let nc := nextIndex col (columnsOf src) in
  let nr := nextIndex row (rowsOf src) in
  static_cast fpcast T
    (magnitude (cells src row col) (cells src row nc) (cells src nr col) (cells src nr nc)).

(** The repositionings of the source accessor for pixel (row, col). *)
Definition readsAt (src : RasterElement) (row col : Z) : Trace :=
  let nc := nextIndex col (columnsOf src) in
  let nr := nextIndex row (rowsOf src) in
  [EvToPixel row nc; EvToPixel nr col; EvToPixel nr nc; EvToPixel row col].

Definition inBounds (src : RasterElement) (p : Z * Z) : Prop :=
  0 <= fst p < rowsOf src /\ 0 <= snd p < columnsOf src.

End Properties.

(** Zero at sample type [T]. *)
Definition zeroSample (T : CType) : sample :=
  if is_integer_type T then IntSample 0 else FloatSample 0%float.

(** [n] consecutive integers from [lo]. *)
Fixpoint zseq (lo : Z) (n : nat) : list Z :=
  match n with
  | O => []
  | S n' => lo :: zseq (lo + 1) n'
  end.

(** The cells of [n] whole rows from row [lo], in row-major order. *)
Definition cellsOfRows (cols : Z) (lo : Z) (n : nat) : list (Z * Z) :=
  flat_map (fun r => map (fun c => (r, c)) (zseq 0 (Z.to_nat cols))) (zseq lo n).

(** The element a successful [createRasterElement] delivers for [pCube]. *)
Definition freshElement (h : Host) (pCube : RasterElement) : RasterElement :=
  {| getName := resultName pCube;
     getDataDescriptor :=
       {| getRowCount := rowsOf pCube; getColumnCount := columnsOf pCube;
          getDataType := encodingOf pCube |};
     cells := freshCells h |}.

(** The scan as [execute] starts it for the input element [pCube]. *)
Definition scanOf (fpcast : CType -> float -> Z) (h : Host) (inArgs : PlugInArgList)
    (pCube : RasterElement) : Outcome * Trace * ScanState :=
  rowLoop fpcast h (getProgress ProgressArg inArgs) pCube (Z.to_nat (rowsOf pCube)) 0
    (initialState (freshElement h pCube)).

(** The creation event of a run on [pCube]. *)
Definition creationTrace (h : Host) (pCube : RasterElement) : Trace :=
  [EvCreateRasterElement (resultName pCube) (rowsOf pCube) (columnsOf pCube)
     (encodingOf pCube) (elementCreated h)].

(** The events of one pixel: four repositionings, the store, the step of
    the destination accessor. *)
Definition pixelTrace (fpcast : CType -> float -> Z) (T : CType) (src : RasterElement)
    (row col : Z) : Trace :=
  readsAt src row col ++ [EvStore row col (kernelAt fpcast T src row col); EvNextColumn].

(** The events of [n] pixels of row [row], from column [lo]. *)
Definition columnsTrace (fpcast : CType -> float -> Z) (T : CType) (src : RasterElement)
    (row lo : Z) (n : nat) : Trace :=
  flat_map (pixelTrace fpcast T src row) (zseq lo n).

(** The percentage of line 159, an [unsigned int] expression passed to an
    [int] parameter. *)
Definition percentDone (row rows : Z) : Z := to_int (to_uint (row * 100) / rows).

(** The events of a row that is scanned. *)
Definition rowTrace (fpcast : CType -> float -> Z) (pProgress : bool) (T : CType)
    (src : RasterElement) (row : Z) : Trace :=
  updateProgress pProgress "Calculating result" (percentDone row (rowsOf src)) NORMAL
  ++ [EvIsAborted false; EvDestIsValid true]
  ++ columnsTrace fpcast T src row 0 (Z.to_nat (columnsOf src))
  ++ [EvNextRow].

(** The events of [n] scanned rows from row [lo]. *)
Definition rowsTrace (fpcast : CType -> float -> Z) (pProgress : bool) (T : CType)
    (src : RasterElement) (lo : Z) (n : nat) : Trace :=
  flat_map (rowTrace fpcast pProgress T src) (zseq lo n).

(** The events of a row at whose start the abort flag is found set. *)
Definition abortTrace (pProgress : bool) (src : RasterElement) (row : Z) : Trace :=
  updateProgress pProgress "Calculating result" (percentDone row (rowsOf src)) NORMAL
  ++ [EvIsAborted true; EvFinalize Abort (pluginName ++ " has been aborted.")%string]
  ++ updateProgress pProgress (pluginName ++ " has been aborted.")%string 0 ABORT.

(** The number of rows scanned before a poll finds the abort flag set,
    among [todo] rows from [row]. *)
Fixpoint rowsDone (h : Host) (row : Z) (todo : nat) : nat :=
  match todo with
  | O => O
  | S todo' => if isAborted h row then O else S (rowsDone h (row + 1) todo')
  end.

(** What the column loop has done to a scan state: the destination
    accessor stands past the row, the descriptor and the name of the
    result are untouched, the cells of the row from [col] on hold the
    kernel's values and every other cell is unchanged. *)
Definition columnsDone (fpcast : CType -> float -> Z) (pCube : RasterElement) (T : CType)
    (row col : Z) (st st' : ScanState) : Prop :=
  pDestAcc st' = {| acc_row := row; acc_col := columnsOf pCube |}
  /\ getDataDescriptor (pResultCube st') = getDataDescriptor (pResultCube st)
  /\ getName (pResultCube st') = getName (pResultCube st)
  /\ (forall r c, r = row -> col <= c < columnsOf pCube ->
        cells (pResultCube st') r c = kernelAt fpcast T pCube r c)
  /\ (forall r c, ~ (r = row /\ col <= c < columnsOf pCube) ->
        cells (pResultCube st') r c = cells (pResultCube st) r c).

(** What the row loop has done to a scan state after [k] whole rows from
    [row]. *)
Definition rowsScanned (fpcast : CType -> float -> Z) (pCube : RasterElement) (T : CType)
    (row : Z) (k : nat) (st st' : ScanState) : Prop :=
  pDestAcc st' = {| acc_row := row + Z.of_nat k; acc_col := 0 |}
  /\ getDataDescriptor (pResultCube st') = getDataDescriptor (pResultCube st)
  /\ getName (pResultCube st') = getName (pResultCube st)
  /\ (forall r c, row <= r < row + Z.of_nat k -> 0 <= c < columnsOf pCube ->
        cells (pResultCube st') r c = kernelAt fpcast T pCube r c)
  /\ (forall r c, ~ (row <= r < row + Z.of_nat k /\ 0 <= c < columnsOf pCube) ->
        cells (pResultCube st') r c = cells (pResultCube st) r c).

(** The parts of a scan state a pixel leaves alone: descriptor and name of
    the result element. *)
Definition sameElementHeader (st st' : ScanState) : Prop :=
  getDataDescriptor (pResultCube st') = getDataDescriptor (pResultCube st)
  /\ getName (pResultCube st') = getName (pResultCube st).

(** The order of the three steps at the start of a row as the
    specification words it: cancellation check, then validity check, and
    only then the progress report. *)
Definition spec_row_order (t : Trace) : bool :=
  match t with
  | EvIsAborted true :: _ => true
  | EvIsAborted false :: EvDestIsValid false :: _ => true
  | EvIsAborted false :: EvDestIsValid true :: EvProgress _ _ _ :: _ => true
  | _ => false
  end.

(** The order of the three steps at the start of a row as the code has
    it: progress report, then cancellation check, then validity check. *)
Definition code_row_order (t : Trace) : bool :=
  match t with
  | EvProgress _ _ _ :: EvIsAborted true :: _ => true
  | EvProgress _ _ _ :: EvIsAborted false :: EvDestIsValid _ :: _ => true
  | _ => false
  end.

(** The output value as the specification words it, for an integer
    sample type: [round(sqrt(gx^2 + gy^2))], the integer nearest to the
    magnitude. *)
Definition spec_rounded_magnitude (center right down lowerRight : sample) : option Z :=
  Double.round_half_away (magnitude center right down lowerRight).

(* ================================================================= *)
(** ** Checks over the 8-bit sample range *)

(** [1.0 * a + -1.0 * b] is the [double] of [a - b]. *)
Definition diff_exact (a b : Z) : bool :=
  PrimFloat.Leibniz.eqb (1.0 * Double.of_Z a + -1.0 * Double.of_Z b)%float
    (Double.of_Z (a - b)).

(** [g * g] in [double] is the [double] of the integer square. *)
Definition square_exact (g : Z) : bool :=
  PrimFloat.Leibniz.eqb (Double.of_Z g * Double.of_Z g)%float (Double.of_Z (g * g)).

(** The truncated [double] square root of [u + v] is the integer square
    root. *)
Definition norm_exact (u v : Z) : bool :=
  match Double.truncate (PrimFloat.sqrt (Double.of_Z u + Double.of_Z v)) with
  | Some z => z =? Z.sqrt (u + v)
  | None => false
  end.

(** The squares of [0 .. n-1]. *)
Definition squares (n : nat) : list Z := map (fun g => g * g) (zseq 0 n).

(* ================================================================= *)
(** ** Example inputs *)

(** A platform whose unrepresentable conversions deliver zero. *)
Definition examplePlatform : CType -> float -> Z := fun _ _ => 0.

(** The 2x2 raster [[10, 20], [30, 40]], row-major. *)
Definition exampleCells (row col : Z) : sample :=
  IntSample (nth (Z.to_nat col) (nth (Z.to_nat row) [[10; 20]; [30; 40]] []) 0).

Definition exampleRaster (e : EncodingType) : RasterElement :=
  {| getName := "scene";
     getDataDescriptor := {| getRowCount := 2; getColumnCount := 2; getDataType := e |};
     cells := exampleCells |}.

(** A 1x1 raster of doubles holding [v]. *)
Definition singletonRaster (v : float) : RasterElement :=
  {| getName := "dot";
     getDataDescriptor := {| getRowCount := 1; getColumnCount := 1; getDataType := FLT8BYTES |};
     cells := fun _ _ => FloatSample v |}.

(** A batch host that never raises the abort flag. *)
Definition quietHost : Host :=
  {| isAborted := fun _ => false;
     elementCreated := true;
     freshCells := fun _ _ => IntSample 0;
     isBatch := true;
     viewCreated := false |}.

(** A batch host whose abort flag is set from row [k] on. *)
Definition abortingHost (k : Z) : Host :=
  {| isAborted := fun row => k <=? row;
     elementCreated := true;
     freshCells := fun _ _ => IntSample 0;
     isBatch := true;
     viewCreated := false |}.

(** An input argument list with a progress reporter and the element. *)
Definition exampleArgs (r : RasterElement) : PlugInArgList :=
  [(ProgressArg, Some ProgressObject); (DataElementArg, Some (RasterObject r))].

Definition exampleRun (h : Host) (r : RasterElement) : Run :=
  execute examplePlatform h (Some (exampleArgs r)) (Some getOutputSpecification).

(** The cells of a 2x2 element, row-major. *)
Definition cells2x2 (o : option RasterElement) : option (list (list sample)) :=
  match o with
  | Some r => Some [[cells r 0 0; cells r 0 1]; [cells r 1 0; cells r 1 1]]
  | None => None
  end.

(* ================================================================= *)
(** ** Exits and their reports *)

(** The message each failure exit of [execute] reports (lines 115, 127,
    143, 173 and 201); the exit of line 109 reports nothing. *)
Definition failureMessage (e : Error) : string :=
  match e with
  | NoArgumentList => ""
  | InvalidInput => "A raster cube must be specified."
  | UnsupportedEncoding => "Edge detection cannot be performed on complex types."
  | AllocationFailed => "A raster cube could not be created."
  | AccessorInvalid => "Unable to access the cube data."
  | ViewFailed => "Unable to create view."
  end.

(** The message of the abort exit, line 163. *)
Definition abortMessage : string := (pluginName ++ " has been aborted.")%string.

(** What an exit other than the completed one reports: the step is
    finalized, then the progress reporter is told. *)
Definition exitReport (pProgress : bool) (o : Outcome) : Trace :=
  match o with
  | Completed => []
  | Aborted => EvFinalize Abort abortMessage :: updateProgress pProgress abortMessage 0 ABORT
  | Failed NoArgumentList => []
  | Failed e =>
      EvFinalize Failure (failureMessage e)
        :: updateProgress pProgress (failureMessage e) 0 ERRORS
  end.

(** Whether the caller supplied a progress reporter. *)
Definition reporterOf (pInArgList : option PlugInArgList) : bool :=
  match pInArgList with
  | Some inArgs => getProgress ProgressArg inArgs
  | None => false
  end.

(** Events that may precede the report of an exit: no finalization, no
    error or abort report, no store into the output argument list. *)
Definition body_event (ev : Event) : bool :=
  match ev with
  | EvFinalize _ _ => false
  | EvProgress _ _ NORMAL => true
  | EvProgress _ _ _ => false
  | EvSetPlugInArgValue _ _ => false
  | _ => true
  end.

(** Events of the scan of one pixel. *)
Definition pixel_event (ev : Event) : bool :=
  match ev with
  | EvToPixel _ _ | EvStore _ _ _ | EvNextColumn => true
  | _ => false
  end.

(** Calls on the desktop services. *)
Definition is_desktop (ev : Event) : bool :=
  match ev with
  | EvCreateWindow _ _ | EvSetPrimaryRasterElement _ | EvCreateLayer _ => true
  | _ => false
  end.

(** Progress reports. *)
Definition is_progress (ev : Event) : bool :=
  match ev with EvProgress _ _ _ => true | _ => false end.

(** Every event but a progress report. *)
Definition not_progress (ev : Event) : bool := negb (is_progress ev).

(** The input argument list as a caller fills it: the list of
    [getInputSpecification] with the element stored under
    [DataElementArg] and, when there is one, the progress reporter under
    [ProgressArg]. *)
Definition suppliedArgs (withProgress : bool) (r : RasterElement) : PlugInArgList :=
  let l := if withProgress
           then snd (setPlugInArgValue ProgressArg ProgressObject getInputSpecification)
           else getInputSpecification in
  snd (setPlugInArgValue DataElementArg (RasterObject r) l).

(** The first row whose percentage of line 159 overflows [unsigned int]:
    the least [row] with [row * 100 >= 2^32]. *)
Definition wrapRow : Z := 42949673.

(** A raster of [rows] x [cols] cells all holding [v]. *)
Definition flatRaster (e : EncodingType) (rows cols : Z) (v : sample) : RasterElement :=
  {| getName := "flat";
     getDataDescriptor := {| getRowCount := rows; getColumnCount := cols; getDataType := e |};
     cells := fun _ _ => v |}.

(** A host in interactive mode that never raises the abort flag. *)
Definition interactiveHost (view : bool) : Host :=
  {| isAborted := fun _ => false;
     elementCreated := true;
     freshCells := fun _ _ => IntSample 0;
     isBatch := false;
     viewCreated := view |}.

(** The abort flag is clear at the poll of every row of [pCube]. *)
Definition neverAborted (h : Host) (pCube : RasterElement) : Prop :=
  forall k, 0 <= k < rowsOf pCube -> isAborted h k = false.

(** The destination accessor can stand on a cell whenever it is checked:
    the raster has a column, or no row at all. *)
Definition scannable (pCube : RasterElement) : Prop :=
  0 < columnsOf pCube \/ rowsOf pCube = 0.

(* ================================================================= *)
(** ** Machine integer facts *)

Lemma to_int_small z : -2147483648 <= z <= INT_MAX -> to_int z = z.
Proof.
  unfold to_int, INT_MAX. intros H.
  rewrite Z.mod_small by lia. lia.
Qed.

Lemma to_int_fits z : fits_int z -> to_int z = z.
Proof. unfold fits_int. intros H. apply to_int_small. lia. Qed.

Lemma to_uint_small z : 0 <= z < 4294967296 -> to_uint z = z.
Proof. unfold to_uint. intros H. now apply Z.mod_small. Qed.

(** Inside an addressable raster the [int] arithmetic of lines 38-39
    neither wraps nor leaves the raster. *)
Lemma next_clamped i size :
  fits_int size -> 0 <= i < size ->
  Z.min (int_add (to_int i) 1) (int_sub (to_int size) 1) = nextIndex i size.
Proof.
  unfold fits_int, INT_MAX, int_add, int_sub, nextIndex. intros Hs Hi.
  rewrite (to_int_small i) by (unfold INT_MAX; lia).
  rewrite (to_int_small size) by (unfold INT_MAX; lia).
  rewrite !to_int_small by (unfold INT_MAX; lia).
  reflexivity.
Qed.

Lemma nextIndex_bounds i size : 0 <= i < size -> i <= nextIndex i size < size.
Proof. unfold nextIndex. lia. Qed.

Lemma nextIndex_interior i size : i < size - 1 -> nextIndex i size = i + 1.
Proof. unfold nextIndex. lia. Qed.

Lemma nextIndex_last size : nextIndex (size - 1) size = size - 1.
Proof. unfold nextIndex. lia. Qed.

Lemma isValid_inside d row col a :
  0 <= row < getRowCount d -> 0 <= col < getColumnCount d ->
  Accessor.isValid d (Accessor.toPixel row col a) = true.
Proof.
  intros Hr Hc. unfold Accessor.isValid, Accessor.toPixel. simpl.
  repeat (apply andb_true_intro; split); lia.
Qed.

Lemma isValid_at d row col :
  0 <= row < getRowCount d -> 0 <= col < getColumnCount d ->
  Accessor.isValid d {| acc_row := row; acc_col := col |} = true.
Proof. intros Hr Hc. exact (isValid_inside d row col Accessor.getDataAccessor Hr Hc). Qed.

Lemma zseq_length lo n : List.length (zseq lo n) = n.
Proof. revert lo. induction n as [|n IH]; intros lo; simpl; [reflexivity | now rewrite IH]. Qed.

Lemma zseq_In lo n z : In z (zseq lo n) <-> lo <= z < lo + Z.of_nat n.
Proof.
  revert lo. induction n as [|n IH]; intros lo.
  - simpl. lia.
  - cbn [zseq In]. rewrite IH. lia.
Qed.

Lemma zseq_snoc lo n : zseq lo (S n) = zseq lo n ++ [lo + Z.of_nat n].
Proof.
  revert lo. induction n as [|n IH]; intros lo.
  - simpl. now rewrite Z.add_0_r.
  - change (zseq lo (S (S n))) with (lo :: zseq (lo + 1) (S n)).
    rewrite IH.
    replace (lo + Z.of_nat (S n)) with (lo + 1 + Z.of_nat n) by lia.
    reflexivity.
Qed.


(* ================================================================= *)
(** ** The kernel on a pixel inside the raster *)

Section KernelFacts.

Variable fpcast : CType -> float -> Z.
Variable T : CType.
Variable src : RasterElement.
Hypothesis src_addressable : addressable src.

(** For a pixel inside an addressable raster every [VERIFYNRV] passes: the
    accessor visits the four clamped positions, ends on the pixel itself,
    and the cast magnitude is delivered. *)
Lemma edgeDetection_inside a row col :
  0 <= row < rowsOf src -> 0 <= col < columnsOf src ->
  edgeDetection fpcast T src a (to_int row) (to_int col)
    (to_int (rowsOf src)) (to_int (columnsOf src))
  = (readsAt src row col, {| acc_row := row; acc_col := col |},
     Some (kernelAt fpcast T src row col)).
Proof.
  intros Hr Hc. destruct src_addressable as [Ar Ac].
  unfold edgeDetection.
  rewrite (next_clamped col _ Ac Hc), (next_clamped row _ Ar Hr).
  assert (Er : to_int row = row) by (apply to_int_small; unfold fits_int, INT_MAX in *; lia).
  assert (Ec : to_int col = col) by (apply to_int_small; unfold fits_int, INT_MAX in *; lia).
  rewrite Er, Ec.
  pose proof (nextIndex_bounds row _ Hr) as Br.
  pose proof (nextIndex_bounds col _ Hc) as Bc.
  unfold rowsOf, columnsOf in *.
  unfold edgeDetection_body.
  rewrite !isValid_inside by lia.
  reflexivity.
Qed.

End KernelFacts.

(* ================================================================= *)
(** ** The loops *)

Lemma rowsDone_le h row todo : (rowsDone h row todo <= todo)%nat.
Proof.
  revert row. induction todo as [|n IH]; intros row; simpl.
  - lia.
  - destruct (isAborted h row); [lia | specialize (IH (row + 1)); lia].
Qed.

(** Rows before the first abort were polled with the flag clear. *)
Lemma rowsDone_clear h row todo i :
  row <= i < row + Z.of_nat (rowsDone h row todo) -> isAborted h i = false.
Proof.
  revert row. induction todo as [|n IH]; intros row Hi; simpl in Hi.
  - lia.
  - destruct (isAborted h row) eqn:E; [simpl in Hi; lia |].
    destruct (Z.eq_dec i row) as [->|Hne]; [exact E |].
    apply (IH (row + 1)). lia.
Qed.

(** The scan stops short exactly at a row whose poll finds the flag set. *)
Lemma rowsDone_stop h row todo :
  (rowsDone h row todo < todo)%nat ->
  isAborted h (row + Z.of_nat (rowsDone h row todo)) = true.
Proof.
  revert row. induction todo as [|n IH]; intros row Hlt; simpl in *.
  - lia.
  - destruct (isAborted h row) eqn:E.
    + now rewrite Z.add_0_r.
    + replace (row + Z.of_nat (S (rowsDone h (row + 1) n)))
        with (row + 1 + Z.of_nat (rowsDone h (row + 1) n)) by lia.
      apply IH. lia.
Qed.

Section ScanFacts.

Variable fpcast : CType -> float -> Z.
Variable h : Host.
Variable pProgress : bool.
Variable pCube : RasterElement.
Variable T : CType.
Hypothesis cube_addressable : addressable pCube.
Hypothesis cube_type : switchOnEncoding (encodingOf pCube) = Some T.

Lemma pixelStep_inside row col st :
  0 <= row < rowsOf pCube -> 0 <= col < columnsOf pCube ->
  pixelStep fpcast pCube row col st
  = (readsAt pCube row col
       ++ [EvStore (acc_row (pDestAcc st)) (acc_col (pDestAcc st))
             (kernelAt fpcast T pCube row col); EvNextColumn],
     {| pResultCube := Accessor.store (pResultCube st) (pDestAcc st)
                         (kernelAt fpcast T pCube row col);
        pDestAcc := Accessor.nextColumn (pDestAcc st);
        pSrcAcc := {| acc_row := row; acc_col := col |} |}).
Proof.
  intros Hr Hc. unfold pixelStep.
  unfold encodingOf in cube_type. rewrite cube_type.
  change (getRowCount (getDataDescriptor pCube)) with (rowsOf pCube).
  change (getColumnCount (getDataDescriptor pCube)) with (columnsOf pCube).
  rewrite (edgeDetection_inside fpcast T pCube cube_addressable _ row col Hr Hc).
  reflexivity.
Qed.

Lemma columnLoop_spec row n : forall col st,
  0 <= row < rowsOf pCube -> 0 <= col ->
  col + Z.of_nat n = columnsOf pCube ->
  pDestAcc st = {| acc_row := row; acc_col := col |} ->
  fst (columnLoop fpcast pCube n row col st) = columnsTrace fpcast T pCube row col n
  /\ columnsDone fpcast pCube T row col st (snd (columnLoop fpcast pCube n row col st)).
Proof.
  induction n as [|n IH]; intros col st Hr Hc Hn Hd.
  - simpl. split; [reflexivity |].
    unfold columnsDone. rewrite Hd.
    repeat split; try reflexivity; try (f_equal; lia); intros; lia.
  - cbn [columnLoop].
    assert (Hcol : 0 <= col < columnsOf pCube) by lia.
    rewrite (pixelStep_inside row col st Hr Hcol).
    destruct cube_addressable as [_ Ac]. unfold fits_int, INT_MAX in Ac.
    rewrite to_uint_small by lia.
    set (st1 := {| pResultCube := _; pDestAcc := _; pSrcAcc := _ |}).
    specialize (IH (col + 1) st1 Hr ltac:(lia) ltac:(lia)).
    assert (Hd1 : pDestAcc st1 = {| acc_row := row; acc_col := col + 1 |}).
    { subst st1. cbn [pDestAcc]. unfold Accessor.nextColumn. now rewrite Hd. }
    specialize (IH Hd1).
    destruct (columnLoop fpcast pCube n row (col + 1) st1) as [t' st''].
    cbn [fst snd] in *. destruct IH as [Ht (Ha & Hdesc & Hname & Hin & Hout)].
    split.
    + rewrite Ht, Hd. unfold columnsTrace. cbn [zseq flat_map acc_row acc_col].
      unfold pixelTrace. reflexivity.
    + unfold columnsDone. repeat split.
      * exact Ha.
      * rewrite Hdesc. reflexivity.
      * rewrite Hname. reflexivity.
      * intros r c Hrr Hcc.
        destruct (Z.eq_dec c col) as [->|Hne].
        -- rewrite Hout by lia. subst st1. cbn [pResultCube Accessor.store cells].
           rewrite Hd. cbn [acc_row acc_col]. subst r.
           now rewrite !Z.eqb_refl.
        -- apply Hin; [exact Hrr | lia].
      * intros r c Hnot.
        rewrite Hout by lia. subst st1. cbn [pResultCube Accessor.store cells].
        rewrite Hd. cbn [acc_row acc_col].
        destruct (Z.eqb_spec r row) as [->|]; [|reflexivity].
        destruct (Z.eqb_spec c col) as [->|]; [|reflexivity].
        exfalso. apply Hnot. lia.
Qed.

(** The row loop in closed form, for a raster with at least one column:
    it scans the rows before the first poll that finds the abort flag
    set, and either stops there or completes. *)
Lemma rowLoop_spec todo : forall row st,
  0 <= row -> row + Z.of_nat todo = rowsOf pCube -> 0 < columnsOf pCube ->
  pDestAcc st = {| acc_row := row; acc_col := 0 |} ->
  getDataDescriptor (pResultCube st) = getDataDescriptor pCube ->
  let k := rowsDone h row todo in
  let r := rowLoop fpcast h pProgress pCube todo row st in
  fst (fst r) = (if (k <? todo)%nat then Aborted else Completed)
  /\ snd (fst r) = rowsTrace fpcast pProgress T pCube row k
                     ++ (if (k <? todo)%nat then abortTrace pProgress pCube (row + Z.of_nat k)
                         else [])
  /\ rowsScanned fpcast pCube T row k st (snd r).
Proof.
  induction todo as [|n IH]; intros row st Hrow Hn Hcols Hd Hdesc.
  - cbn. repeat split; try reflexivity.
    + rewrite Hd. f_equal. lia.
    + intros; lia.
  - cbn [rowLoop rowsDone].
    destruct (isAborted h row) eqn:Ea.
    + cbn [fst snd]. split; [reflexivity |]. split.
      * cbn [rowsTrace zseq flat_map app Nat.ltb Nat.leb].
        unfold abortTrace, percentDone, rowsOf. rewrite Z.add_0_r. reflexivity.
      * unfold rowsScanned. rewrite Hd. cbn [Z.of_nat].
        repeat split; try reflexivity; try (f_equal; lia); intros; lia.
    + assert (Hv : Accessor.isValid (getDataDescriptor (pResultCube st)) (pDestAcc st) = true).
      { rewrite Hdesc, Hd. apply isValid_at; unfold rowsOf, columnsOf in *; lia. }
      rewrite Hv. cbn [negb].
      change (getColumnCount (getDataDescriptor pCube)) with (columnsOf pCube).
      assert (Hrr : 0 <= row < rowsOf pCube) by lia.
      destruct (columnLoop_spec row (Z.to_nat (columnsOf pCube)) 0 st Hrr ltac:(lia)
                  ltac:(lia) Hd) as [Ht1 (Ha1 & Hdesc1 & Hname1 & Hin1 & Hout1)].
      destruct (columnLoop fpcast pCube (Z.to_nat (columnsOf pCube)) row 0 st) as [t1 st1].
      cbn [fst snd] in *.
      destruct cube_addressable as [Ar _]. unfold fits_int, INT_MAX in Ar.
      rewrite to_uint_small by lia.
      set (st2 := {| pResultCube := _; pDestAcc := _; pSrcAcc := _ |}).
      assert (Hd2 : pDestAcc st2 = {| acc_row := row + 1; acc_col := 0 |}).
      { subst st2. cbn [pDestAcc]. unfold Accessor.nextRow. now rewrite Ha1. }
      assert (Hdesc2 : getDataDescriptor (pResultCube st2) = getDataDescriptor pCube).
      { subst st2. cbn [pResultCube]. now rewrite Hdesc1. }
      specialize (IH (row + 1) st2 ltac:(lia) ltac:(lia) Hcols Hd2 Hdesc2).
      cbn zeta in IH.
      destruct (rowLoop fpcast h pProgress pCube n (row + 1) st2) as [[o t2] st3].
      cbn [fst snd] in *. destruct IH as [Ho (Ht2 & Hs)].
      change (S (rowsDone h (row + 1) n) <? S n)%nat
        with (rowsDone h (row + 1) n <? n)%nat.
      split; [exact Ho |]. split.
      * rewrite Ht2, Ht1.
        replace (row + Z.of_nat (S (rowsDone h (row + 1) n)))
          with (row + 1 + Z.of_nat (rowsDone h (row + 1) n)) by lia.
        change (rowsTrace fpcast pProgress T pCube row (S (rowsDone h (row + 1) n)))
          with (rowTrace fpcast pProgress T pCube row
                  ++ rowsTrace fpcast pProgress T pCube (row + 1) (rowsDone h (row + 1) n)).
        unfold rowTrace, percentDone, rowsOf.
        rewrite <- !app_assoc. reflexivity.
      * destruct Hs as (Ha3 & Hdesc3 & Hname3 & Hin3 & Hout3).
        unfold rowsScanned. repeat split.
        -- rewrite Ha3. f_equal. lia.
        -- rewrite Hdesc3. subst st2. cbn [pResultCube]. exact Hdesc1.
        -- rewrite Hname3. subst st2. cbn [pResultCube]. exact Hname1.
        -- intros r c Hr Hc.
           destruct (Z.eq_dec r row) as [->|Hne].
           ++ rewrite Hout3 by lia. subst st2. cbn [pResultCube].
              apply Hin1; [reflexivity | lia].
           ++ apply Hin3; lia.
        -- intros r c Hnot.
           rewrite Hout3 by lia. subst st2. cbn [pResultCube].
           apply Hout1. lia.
Qed.

(** Whatever the raster, the row loop ends in one of three ways. *)
Lemma rowLoop_outcome todo : forall row st,
  let o := fst (fst (rowLoop fpcast h pProgress pCube todo row st)) in
  o = Completed \/ o = Aborted \/ o = Failed AccessorInvalid.
Proof.
  induction todo as [|n IH]; intros row st; cbn [rowLoop].
  - cbn. auto.
  - destruct (isAborted h row); [cbn; auto |].
    destruct (negb _); [cbn; auto |].
    destruct (columnLoop _ _ _ _ _ _) as [t1 st1].
    specialize (IH (to_uint (row + 1))
      {| pResultCube := pResultCube st1; pDestAcc := Accessor.nextRow (pDestAcc st1);
         pSrcAcc := pSrcAcc st1 |}).
    destruct (rowLoop _ _ _ _ _ _ _) as [[o t2] st3]. exact IH.
Qed.

End ScanFacts.

(* ================================================================= *)
(** ** What the loops never touch *)

Section Frame.

Variable fpcast : CType -> float -> Z.
Variable h : Host.
Variable pProgress : bool.
Variable pCube : RasterElement.

Lemma pixelStep_frame row col st :
  sameElementHeader st (snd (pixelStep fpcast pCube row col st))
  /\ pDestAcc (snd (pixelStep fpcast pCube row col st)) = Accessor.nextColumn (pDestAcc st).
Proof.
  unfold pixelStep, sameElementHeader.
  destruct (switchOnEncoding _) as [T|]; [|cbn; auto].
  destruct (edgeDetection _ _ _ _ _ _ _ _) as [[t a] [v|]]; cbn; auto.
Qed.

Lemma columnLoop_frame row n : forall col st,
  sameElementHeader st (snd (columnLoop fpcast pCube n row col st))
  /\ pDestAcc (snd (columnLoop fpcast pCube n row col st))
     = {| acc_row := acc_row (pDestAcc st); acc_col := acc_col (pDestAcc st) + Z.of_nat n |}.
Proof.
  induction n as [|n IH]; intros col st.
  - cbn. unfold sameElementHeader. repeat split.
    destruct (pDestAcc st) as [r c]. cbn. f_equal. lia.
  - cbn [columnLoop].
    pose proof (pixelStep_frame row col st) as [[Hd Hn] Ha].
    destruct (pixelStep fpcast pCube row col st) as [t st1]. cbn [snd] in *.
    specialize (IH (to_uint (col + 1)) st1).
    destruct (columnLoop fpcast pCube n row (to_uint (col + 1)) st1) as [t' st2].
    cbn [snd] in *. destruct IH as [[Hd' Hn'] Ha'].
    unfold sameElementHeader. repeat split.
    + now rewrite Hd'.
    + now rewrite Hn'.
    + rewrite Ha', Ha. unfold Accessor.nextColumn. cbn. f_equal. lia.
Qed.

Lemma rowLoop_frame todo : forall row st,
  sameElementHeader st (snd (rowLoop fpcast h pProgress pCube todo row st)).
Proof.
  induction todo as [|n IH]; intros row st; cbn [rowLoop].
  - cbn. split; reflexivity.
  - destruct (isAborted h row); [cbn; split; reflexivity |].
    destruct (negb _); [cbn; split; reflexivity |].
    pose proof (columnLoop_frame row (Z.to_nat (getColumnCount (getDataDescriptor pCube))) 0 st)
      as [[Hd Hn] _].
    destruct (columnLoop _ _ _ _ _ _) as [t1 st1]. cbn [snd] in *.
    match goal with |- context [rowLoop _ _ _ _ n ?r ?s] => specialize (IH r s) end.
    destruct (rowLoop _ _ _ _ _ _ _) as [[o t2] st3].
    unfold sameElementHeader in *. cbn [snd pResultCube] in *.
    destruct IH as [Hd' Hn']. split; congruence.
Qed.

(** With the abort flag never set and at least one column, the row loop
    completes: the destination accessor is on the first cell of a row of
    the result whenever its validity is checked. *)
Lemma rowLoop_completes todo : forall row st,
  (forall r, isAborted h r = false) ->
  0 < getColumnCount (getDataDescriptor (pResultCube st)) ->
  0 <= acc_row (pDestAcc st) -> acc_col (pDestAcc st) = 0 ->
  acc_row (pDestAcc st) + Z.of_nat todo = getRowCount (getDataDescriptor (pResultCube st)) ->
  fst (fst (rowLoop fpcast h pProgress pCube todo row st)) = Completed.
Proof.
  induction todo as [|n IH]; intros row st Hna Hc Hr0 Hc0 Hrows; cbn [rowLoop].
  - reflexivity.
  - rewrite Hna.
    assert (Hv : Accessor.isValid (getDataDescriptor (pResultCube st)) (pDestAcc st) = true).
    { unfold Accessor.isValid. rewrite Hc0.
      repeat (apply andb_true_intro; split); lia. }
    rewrite Hv. cbn [negb].
    pose proof (columnLoop_frame row (Z.to_nat (getColumnCount (getDataDescriptor pCube))) 0 st)
      as [[Hd Hn] Ha].
    destruct (columnLoop _ _ _ _ _ _) as [t1 st1]. cbn [snd] in *.
    match goal with |- context [rowLoop _ _ _ _ n ?r ?s] => specialize (IH r s Hna) end.
    assert (Hrow1 : acc_row (Accessor.nextRow (pDestAcc st1)) = acc_row (pDestAcc st) + 1).
    { rewrite Ha. reflexivity. }
    cbn [pResultCube pDestAcc] in IH.
    assert (IH' := IH ltac:(rewrite Hd; exact Hc) ltac:(rewrite Hrow1; lia) eq_refl
                     ltac:(rewrite Hrow1, Hd; lia)).
    destruct (rowLoop _ _ _ _ _ _ _) as [[o t2] st3]. exact IH'.
Qed.

(** With no row there is nothing to scan. *)
Lemma rowLoop_no_row row st :
  rowLoop fpcast h pProgress pCube O row st = (Completed, [], st).
Proof. reflexivity. Qed.

End Frame.

(* ================================================================= *)
(** ** [execute] around the scan *)

Section ExecuteFacts.

Variable fpcast : CType -> float -> Z.
Variable h : Host.

(** With an input element of a supported encoding and the result element
    created, [execute] is the scan followed by the conclusion. *)
Lemma execute_scanned inArgs outArgs pCube :
  getRasterElement DataElementArg inArgs = Some pCube ->
  is_complex (encodingOf pCube) = false ->
  elementCreated h = true ->
  execute fpcast h (Some inArgs) (Some outArgs)
  = conclude h (getProgress ProgressArg inArgs) outArgs (creationTrace h pCube)
      (scanOf fpcast h inArgs pCube).
Proof.
  intros Hin Hc Hcr. unfold execute, creationTrace, createRasterElement.
  unfold encodingOf in Hc. rewrite Hin, Hc, Hcr.
  reflexivity.
Qed.

Lemma complex_not_dispatched e : is_complex e = true <-> switchOnEncoding e = None.
Proof. destruct e; cbn; split; intros H; congruence. Qed.

Lemma supported_dispatched e : is_complex e = false -> exists T, switchOnEncoding e = Some T.
Proof. destruct e; cbn; intros H; try discriminate; eauto. Qed.

(** The outcome of the conclusion. *)
Lemma conclude_outcome pProgress outArgs tc o ts st :
  outcome (conclude h pProgress outArgs tc (o, ts, st))
  = match o with
    | Completed => if negb (isBatch h) && negb (viewCreated h) then Failed ViewFailed
                   else Completed
    | _ => o
    end.
Proof.
  unfold conclude. destruct o; try reflexivity.
  destruct (negb (isBatch h) && negb (viewCreated h)); [reflexivity |].
  destruct (setPlugInArgValue _ _ _). reflexivity.
Qed.

(** A completed run, read backwards: the input element was there, of a
    supported encoding, the result element was created, the scan completed
    and the view, when asked for, was created. *)
Lemma execute_Completed_inv pIn pOut :
  outcome (execute fpcast h pIn pOut) = Completed ->
  exists inArgs outArgs pCube,
    pIn = Some inArgs /\ pOut = Some outArgs
    /\ getRasterElement DataElementArg inArgs = Some pCube
    /\ is_complex (encodingOf pCube) = false
    /\ elementCreated h = true
    /\ fst (fst (scanOf fpcast h inArgs pCube)) = Completed
    /\ resultElement (execute fpcast h pIn pOut)
       = Some (pResultCube (snd (scanOf fpcast h inArgs pCube)))
    /\ returned (execute fpcast h pIn pOut) = true
    /\ outArgList (execute fpcast h pIn pOut)
       = Some (snd (setPlugInArgValue "Robert_Edge_Result"
                      (RasterObject (pResultCube (snd (scanOf fpcast h inArgs pCube))))
                      outArgs)).
Proof.
  intros Ho.
  destruct pIn as [inArgs|]; [|discriminate Ho].
  destruct pOut as [outArgs|]; [|discriminate Ho].
  destruct (getRasterElement DataElementArg inArgs) as [pCube|] eqn:Hin;
    [|unfold execute in Ho; rewrite Hin in Ho; discriminate Ho].
  destruct (is_complex (encodingOf pCube)) eqn:Hc;
    [unfold execute, encodingOf in *; rewrite Hin, Hc in Ho; discriminate Ho |].
  destruct (elementCreated h) eqn:Hcr;
    [|unfold execute, encodingOf, createRasterElement in *;
      rewrite Hin, Hc, Hcr in Ho; discriminate Ho].
  exists inArgs, outArgs, pCube.
  rewrite (execute_scanned inArgs outArgs pCube Hin Hc Hcr) in *.
  destruct (scanOf fpcast h inArgs pCube) as [[o ts] st] eqn:Hs.
  rewrite conclude_outcome in Ho. cbn [fst snd].
  destruct o; try discriminate Ho.
  unfold conclude.
  destruct (negb (isBatch h) && negb (viewCreated h)); [discriminate Ho |].
  destruct (setPlugInArgValue _ _ _) as [stored outArgs'].
  cbn [returned outcome trace outArgList resultElement fst snd].
  repeat split; solve [reflexivity | assumption].
Qed.

End ExecuteFacts.

(* ================================================================= *)
(** ** Reading traces *)

Lemma positionsRead_app t1 t2 :
  positionsRead (t1 ++ t2) = positionsRead t1 ++ positionsRead t2.
Proof.
  induction t1 as [|ev t1 IH]; [reflexivity |].
  destruct ev; cbn; rewrite ?IH; reflexivity.
Qed.

Lemma cellsWritten_app t1 t2 :
  cellsWritten (t1 ++ t2) = cellsWritten t1 ++ cellsWritten t2.
Proof.
  induction t1 as [|ev t1 IH]; [reflexivity |].
  destruct ev; cbn; rewrite ?IH; reflexivity.
Qed.

Lemma updateProgress_silent p msg pct lvl :
  positionsRead (updateProgress p msg pct lvl) = []
  /\ cellsWritten (updateProgress p msg pct lvl) = []
  /\ filter is_poll (updateProgress p msg pct lvl) = [].
Proof. destruct p; cbn; auto. Qed.

Lemma returned_conclude h p outArgs tc scan :
  returned (conclude h p outArgs tc scan) = true
  <-> outcome (conclude h p outArgs tc scan) = Completed.
Proof.
  destruct scan as [[o ts] st]. unfold conclude.
  destruct o; cbn; try (split; discriminate).
  destruct (negb (isBatch h) && negb (viewCreated h)); cbn; [split; discriminate |].
  destruct (setPlugInArgValue _ _ _). cbn. split; reflexivity.
Qed.

(** [execute] returns [true] exactly on the completed exit. *)
Lemma returned_iff_Completed fpcast h pIn pOut :
  returned (execute fpcast h pIn pOut) = true
  <-> outcome (execute fpcast h pIn pOut) = Completed.
Proof.
  unfold execute.
  destruct pIn as [inArgs|]; [|cbn; split; discriminate].
  destruct pOut as [outArgs|]; [|cbn; split; discriminate].
  destruct (getRasterElement DataElementArg inArgs) as [pCube|]; [|cbn; split; discriminate].
  destruct (is_complex _); [cbn; split; discriminate |].
  destruct (createRasterElement _ _ _ _ _); [|cbn; split; discriminate].
  apply returned_conclude.
Qed.

Lemma conclude_trace_prefix h p outArgs tc scan :
  exists rest, trace (conclude h p outArgs tc scan) = tc ++ rest.
Proof.
  destruct scan as [[o ts] st]. unfold conclude.
  destruct o; cbn; try (eexists; reflexivity).
  destruct (negb (isBatch h) && negb (viewCreated h)); cbn; [eexists; reflexivity |].
  destruct (setPlugInArgValue _ _ _). cbn. eexists; reflexivity.
Qed.

(* ================================================================= *)
(** ** Properties of [Robert::execute] *)

(** C4.  With an input element present, [execute] leaves by the
    unsupported-encoding exit exactly when the encoding is one of the two
    complex encodings; in that case the trace holds the failure report
    only: no result element is created, the source accessor is never
    moved and no cell is written.  For every other encoding, when the
    result element is created, the abort flag is never found set, the
    destination accessor can stand on a cell (the raster has a column, or
    no row at all) and the view, when one is asked for, is created, the
    run completes and returns [true]. *)
Theorem unsupported_encoding_rejected fpcast h inArgs outArgs pCube :
  getRasterElement DataElementArg inArgs = Some pCube ->
  let run := execute fpcast h (Some inArgs) (Some outArgs) in
  let msg := "Edge detection cannot be performed on complex types."%string in
  (outcome run = Failed UnsupportedEncoding <-> is_complex (encodingOf pCube) = true)
  /\ (is_complex (encodingOf pCube) = true ->
        trace run = EvFinalize Failure msg
                      :: updateProgress (getProgress ProgressArg inArgs) msg 0 ERRORS
        /\ positionsRead (trace run) = [] /\ cellsWritten (trace run) = []
        /\ resultElement run = None /\ returned run = false)
  /\ (is_complex (encodingOf pCube) = false ->
        elementCreated h = true ->
        (forall row, isAborted h row = false) ->
        0 < columnsOf pCube \/ rowsOf pCube <= 0 ->
        isBatch h = true \/ viewCreated h = true ->
        outcome run = Completed /\ returned run = true).
Proof.
  intros Hin run msg. subst run. split; [|split].
  - split.
    + intros Ho. destruct (is_complex (encodingOf pCube)) eqn:Hc; [reflexivity |].
      exfalso. unfold execute in Ho. unfold encodingOf in Hc. rewrite Hin, Hc in Ho.
      destruct (createRasterElement _ _ _ _ _) as [cube|]; [|discriminate Ho].
      pose proof (rowLoop_outcome fpcast h (getProgress ProgressArg inArgs) pCube
                    (Z.to_nat (getRowCount (getDataDescriptor pCube))) 0 (initialState cube)) as Hsc.
      destruct (rowLoop _ _ _ _ _ _ _) as [[o ts] st].
      rewrite conclude_outcome in Ho. cbn [fst] in Hsc.
      destruct Hsc as [-> | [-> | ->]]; try discriminate Ho.
      destruct (negb (isBatch h) && negb (viewCreated h)); discriminate Ho.
    + intros Hc. unfold execute. unfold encodingOf in Hc. rewrite Hin, Hc. reflexivity.
  - intros Hc. unfold execute. unfold encodingOf in Hc. rewrite Hin, Hc.
    cbn [trace resultElement returned app].
    destruct (updateProgress_silent (getProgress ProgressArg inArgs) msg 0 ERRORS)
      as (Hp & Hw & _).
    repeat split; try reflexivity; cbn; assumption.
  - intros Hc Hcr Hna Hshape Hview.
    assert (Ho : outcome (execute fpcast h (Some inArgs) (Some outArgs)) = Completed).
    { rewrite (execute_scanned fpcast h inArgs outArgs pCube Hin Hc Hcr).
      assert (Hs : fst (fst (scanOf fpcast h inArgs pCube)) = Completed).
      { unfold scanOf.
        destruct (Z_le_gt_dec (rowsOf pCube) 0) as [Hz|Hpos].
        - replace (Z.to_nat (rowsOf pCube)) with O by lia. reflexivity.
        - apply rowLoop_completes; cbn; solve [assumption | lia]. }
      destruct (scanOf fpcast h inArgs pCube) as [[o ts] st]. cbn [fst] in Hs. subst o.
      rewrite conclude_outcome.
      destruct Hview as [-> | ->]; [reflexivity |].
      now rewrite andb_false_r. }
    split; [exact Ho | now apply returned_iff_Completed].
Qed.

(** C5.  On every completed run the result element was asked of
    [createRasterElement] with the row count, column count and encoding
    of the input element and with the input's name followed by
    "_Edge_Detection_Result"; the element the run leaves behind still has
    exactly that geometry, encoding and name. *)
Theorem geometry_preserved fpcast h pIn pOut :
  outcome (execute fpcast h pIn pOut) = Completed ->
  exists inArgs pCube out rest,
    pIn = Some inArgs
    /\ getRasterElement DataElementArg inArgs = Some pCube
    /\ trace (execute fpcast h pIn pOut)
       = EvCreateRasterElement (getName pCube ++ "_Edge_Detection_Result")
           (rowsOf pCube) (columnsOf pCube) (encodingOf pCube) true :: rest
    /\ resultElement (execute fpcast h pIn pOut) = Some out
    /\ rowsOf out = rowsOf pCube
    /\ columnsOf out = columnsOf pCube
    /\ encodingOf out = encodingOf pCube
    /\ getName out = (getName pCube ++ "_Edge_Detection_Result")%string.
Proof.
  intros Ho.
  destruct (execute_Completed_inv fpcast h pIn pOut Ho)
    as (inArgs & outArgs & pCube & -> & -> & Hin & Hc & Hcr & Hs & Hres & _).
  pose proof (rowLoop_frame fpcast h (getProgress ProgressArg inArgs) pCube
                (Z.to_nat (rowsOf pCube)) 0 (initialState (freshElement h pCube))) as [Hd Hn].
  fold (scanOf fpcast h inArgs pCube) in Hd, Hn.
  destruct (conclude_trace_prefix h (getProgress ProgressArg inArgs) outArgs
              (creationTrace h pCube) (scanOf fpcast h inArgs pCube)) as [rest Ht].
  exists inArgs, pCube, (pResultCube (snd (scanOf fpcast h inArgs pCube))), rest.
  repeat split; try assumption.
  - rewrite (execute_scanned fpcast h inArgs outArgs pCube Hin Hc Hcr), Ht.
    unfold creationTrace. rewrite Hcr. reflexivity.
  - unfold rowsOf at 1. rewrite Hd. reflexivity.
  - unfold columnsOf at 1. rewrite Hd. reflexivity.
  - unfold encodingOf at 1. rewrite Hd. reflexivity.
Qed.

(** C7, as the code has it.  At the start of every row the progress
    report comes first (when a reporter is supplied), with the percentage
    of line 159; the abort flag is polled next, and a set flag ends the
    run as aborted without any validity check; only with the flag clear is
    the destination accessor checked, and an invalid accessor ends the run
    as failed before any pixel of the row is touched. *)
Theorem row_start_order fpcast h pProgress pCube todo row st :
  let r := rowLoop fpcast h pProgress pCube (S todo) row st in
  let report :=
    updateProgress pProgress "Calculating result" (percentDone row (rowsOf pCube)) NORMAL in
  let valid := Accessor.isValid (getDataDescriptor (pResultCube st)) (pDestAcc st) in
  let aborted := (pluginName ++ " has been aborted.")%string in
  let failed := "Unable to access the cube data."%string in
  (isAborted h row = true ->
     fst (fst r) = Aborted
     /\ snd (fst r) = report ++ [EvIsAborted true; EvFinalize Abort aborted]
                        ++ updateProgress pProgress aborted 0 ABORT)
  /\ (isAborted h row = false -> valid = false ->
        fst (fst r) = Failed AccessorInvalid
        /\ snd (fst r) = report ++ [EvIsAborted false; EvDestIsValid false;
                                    EvFinalize Failure failed]
                           ++ updateProgress pProgress failed 0 ERRORS)
  /\ (isAborted h row = false -> valid = true ->
        exists rest,
          snd (fst r) = report ++ EvIsAborted false :: EvDestIsValid true :: rest)
  /\ (pProgress = true -> code_row_order (snd (fst r)) = true)
  /\ (0 <= row * 100 < 4294967296 -> 0 < rowsOf pCube -> row < rowsOf pCube ->
        percentDone row (rowsOf pCube) = row * 100 / rowsOf pCube).
Proof.
  cbn zeta. cbn [rowLoop].
  change (to_int (to_uint (row * 100) / getRowCount (getDataDescriptor pCube)))
    with (percentDone row (rowsOf pCube)).
  split; [|split; [|split; [|split]]].
  - intros Ha. rewrite Ha. split; reflexivity.
  - intros Ha Hv. rewrite Ha, Hv. split; reflexivity.
  - intros Ha Hv. rewrite Ha, Hv. cbn [negb].
    destruct (columnLoop _ _ _ _ _ _) as [t1 st1].
    destruct (rowLoop _ _ _ _ _ _ _) as [[o t2] st3].
    cbn [fst snd]. eexists. reflexivity.
  - intros ->. destruct (isAborted h row); [reflexivity |].
    destruct (negb _); [reflexivity |].
    destruct (columnLoop _ _ _ _ _ _) as [t1 st1].
    destruct (rowLoop _ _ _ _ _ _ _) as [[o t2] st3].
    reflexivity.
  - intros Hp Hrows Hr. unfold percentDone.
    rewrite to_uint_small by lia.
    apply to_int_small. unfold INT_MAX.
    assert (0 <= row * 100 / rowsOf pCube) by (apply Z.div_pos; lia).
    assert (row * 100 / rowsOf pCube < 100).
    { apply Z.div_lt_upper_bound; lia. }
    lia.
Qed.

(* ================================================================= *)
(** ** The cells written and the polls made by a scan *)

Section TraceFacts.

Variable fpcast : CType -> float -> Z.
Variable pProgress : bool.
Variable T : CType.
Variable src : RasterElement.

Lemma cellsWritten_columns row n : forall lo,
  cellsWritten (columnsTrace fpcast T src row lo n) = map (fun c => (row, c)) (zseq lo n).
Proof.
  induction n as [|n IH]; intros lo; [reflexivity |].
  unfold columnsTrace in *. cbn [zseq flat_map map].
  rewrite cellsWritten_app, IH. reflexivity.
Qed.

Lemma polls_columns row n : forall lo,
  filter is_poll (columnsTrace fpcast T src row lo n) = [].
Proof.
  induction n as [|n IH]; intros lo; [reflexivity |].
  unfold columnsTrace in *. cbn [zseq flat_map].
  rewrite filter_app, IH. reflexivity.
Qed.

Lemma cellsWritten_row row :
  cellsWritten (rowTrace fpcast pProgress T src row)
  = map (fun c => (row, c)) (zseq 0 (Z.to_nat (columnsOf src))).
Proof.
  unfold rowTrace. rewrite !cellsWritten_app, cellsWritten_columns.
  destruct (updateProgress_silent pProgress "Calculating result"
              (percentDone row (rowsOf src)) NORMAL) as (_ & -> & _).
  cbn. now rewrite app_nil_r.
Qed.

Lemma polls_row row :
  filter is_poll (rowTrace fpcast pProgress T src row) = [EvIsAborted false].
Proof.
  unfold rowTrace. rewrite !filter_app, polls_columns.
  destruct (updateProgress_silent pProgress "Calculating result"
              (percentDone row (rowsOf src)) NORMAL) as (_ & _ & ->).
  reflexivity.
Qed.

Lemma cellsWritten_rows n : forall lo,
  cellsWritten (rowsTrace fpcast pProgress T src lo n) = cellsOfRows (columnsOf src) lo n.
Proof.
  induction n as [|n IH]; intros lo; [reflexivity |].
  unfold rowsTrace, cellsOfRows in *. cbn [zseq flat_map].
  rewrite cellsWritten_app, IH. fold (rowTrace fpcast pProgress T src lo).
  now rewrite cellsWritten_row.
Qed.

Lemma polls_rows n : forall lo,
  filter is_poll (rowsTrace fpcast pProgress T src lo n) = repeat (EvIsAborted false) n.
Proof.
  induction n as [|n IH]; intros lo; [reflexivity |].
  unfold rowsTrace in *. cbn [zseq flat_map repeat].
  rewrite filter_app, IH, polls_row. reflexivity.
Qed.

Lemma abortTrace_quiet row :
  cellsWritten (abortTrace pProgress src row) = []
  /\ filter is_poll (abortTrace pProgress src row) = [EvIsAborted true].
Proof.
  unfold abortTrace. rewrite !cellsWritten_app, !filter_app.
  destruct (updateProgress_silent pProgress "Calculating result"
              (percentDone row (rowsOf src)) NORMAL) as (_ & -> & ->).
  destruct (updateProgress_silent pProgress (pluginName ++ " has been aborted.")%string
              0 ABORT) as (_ & -> & ->).
  split; reflexivity.
Qed.

End TraceFacts.

Lemma cellsOfRows_In cols lo n r c :
  In (r, c) (cellsOfRows cols lo n) -> lo <= r < lo + Z.of_nat n /\ 0 <= c < cols.
Proof.
  unfold cellsOfRows. rewrite in_flat_map. intros (r' & Hr & Hin).
  rewrite in_map_iff in Hin. destruct Hin as (c' & Heq & Hc).
  injection Heq as <- <-.
  apply zseq_In in Hr. apply zseq_In in Hc. split; lia.
Qed.

(* ================================================================= *)
(** ** Completed and aborted runs in closed form *)

Section RunFacts.

Variable fpcast : CType -> float -> Z.
Variable h : Host.
Variable inArgs : PlugInArgList.
Variable pCube : RasterElement.
Variable T : CType.
Hypothesis input_given : getRasterElement DataElementArg inArgs = Some pCube.
Hypothesis input_type : switchOnEncoding (encodingOf pCube) = Some T.
Hypothesis input_addressable : addressable pCube.

Lemma input_supported : is_complex (encodingOf pCube) = false.
Proof.
  destruct (is_complex (encodingOf pCube)) eqn:Hc; [|reflexivity].
  apply complex_not_dispatched in Hc. congruence.
Qed.

Lemma freshElement_descriptor :
  getDataDescriptor (freshElement h pCube) = getDataDescriptor pCube.
Proof. destruct pCube as [n [r c e] cs]. reflexivity. Qed.

(** The scan of an input with at least one column, in closed form. *)
Lemma scanOf_spec :
  0 < columnsOf pCube ->
  let todo := Z.to_nat (rowsOf pCube) in
  let k := rowsDone h 0 todo in
  let r := scanOf fpcast h inArgs pCube in
  fst (fst r) = (if (k <? todo)%nat then Aborted else Completed)
  /\ snd (fst r)
     = rowsTrace fpcast (getProgress ProgressArg inArgs) T pCube 0 k
       ++ (if (k <? todo)%nat
           then abortTrace (getProgress ProgressArg inArgs) pCube (Z.of_nat k) else [])
  /\ rowsScanned fpcast pCube T 0 k (initialState (freshElement h pCube)) (snd r).
Proof.
  intros Hcols. destruct input_addressable as [Ar Ac]. unfold fits_int in Ar.
  exact (rowLoop_spec fpcast h (getProgress ProgressArg inArgs) pCube T
           input_addressable input_type (Z.to_nat (rowsOf pCube)) 0
           (initialState (freshElement h pCube)) ltac:(lia) ltac:(lia) Hcols
           eq_refl freshElement_descriptor).
Qed.

(** Every cell of the element a completed run leaves behind holds the
    kernel's value for that pixel. *)
Lemma completed_cells pOut out row col :
  outcome (execute fpcast h (Some inArgs) pOut) = Completed ->
  resultElement (execute fpcast h (Some inArgs) pOut) = Some out ->
  0 <= row < rowsOf pCube -> 0 <= col < columnsOf pCube ->
  cells out row col = kernelAt fpcast T pCube row col.
Proof.
  intros Ho Hres Hr Hc.
  destruct (execute_Completed_inv fpcast h _ _ Ho)
    as (inArgs' & outArgs & pCube' & Hi & -> & Hin & _ & _ & Hs & Hres' & _).
  injection Hi as <-. rewrite input_given in Hin. injection Hin as <-.
  rewrite Hres' in Hres. injection Hres as <-.
  destruct (scanOf_spec ltac:(lia)) as (Hout & _ & (_ & _ & _ & Hcells & _)).
  rewrite Hs in Hout.
  pose proof (rowsDone_le h 0 (Z.to_nat (rowsOf pCube))) as Hle.
  destruct (Nat.ltb_spec (rowsDone h 0 (Z.to_nat (rowsOf pCube))) (Z.to_nat (rowsOf pCube)))
    as [Hlt|Hge]; [discriminate Hout |].
  apply Hcells; lia.
Qed.

End RunFacts.

(* ================================================================= *)
(** ** Cancellation *)

(** C6.  Take a run that reaches the scan (an input element of a
    supported encoding, addressable and with at least one column, and the
    result element created).  If the abort flag is found set at the poll
    of row [k], the run ends aborted and returns [false], and no cell of
    a row [>= k] is written.  The flag is polled once per row: the polls
    are [j] clear ones followed by the set one, for the first row [j <= k]
    with the flag set, and the cells written are exactly those of the [j]
    whole rows before it, each once, in row-major order. *)
Theorem abort_stops_scan fpcast h inArgs outArgs pCube k :
  getRasterElement DataElementArg inArgs = Some pCube ->
  is_complex (encodingOf pCube) = false ->
  elementCreated h = true ->
  addressable pCube ->
  0 < columnsOf pCube ->
  0 <= k < rowsOf pCube ->
  isAborted h k = true ->
  let run := execute fpcast h (Some inArgs) (Some outArgs) in
  outcome run = Aborted /\ returned run = false
  /\ (forall r c, In (r, c) (cellsWritten (trace run)) -> r < k)
  /\ exists j : nat,
       Z.of_nat j <= k /\ isAborted h (Z.of_nat j) = true
       /\ (forall i, 0 <= i < Z.of_nat j -> isAborted h i = false)
       /\ filter is_poll (trace run) = repeat (EvIsAborted false) j ++ [EvIsAborted true]
       /\ cellsWritten (trace run) = cellsOfRows (columnsOf pCube) 0 j.
Proof.
  intros Hin Hc Hcr Haddr Hcols Hk Hab run.
  destruct (supported_dispatched _ Hc) as [T HT].
  pose proof (scanOf_spec fpcast h inArgs pCube T Hin HT Haddr Hcols) as Hspec.
  cbn zeta in Hspec.
  set (todo := Z.to_nat (rowsOf pCube)) in *.
  set (j := rowsDone h 0 todo) in *.
  assert (Hjk : Z.of_nat j <= k).
  { destruct (Z_le_gt_dec (Z.of_nat j) k) as [Hle|Hgt]; [exact Hle | exfalso].
    assert (isAborted h k = false) by (apply (rowsDone_clear h 0 todo); fold j; lia).
    congruence. }
  assert (Hlt : (j < todo)%nat) by (subst todo; lia).
  assert (Hstop : isAborted h (Z.of_nat j) = true).
  { pose proof (rowsDone_stop h 0 todo Hlt) as Hs. exact Hs. }
  assert (Hclear : forall i, 0 <= i < Z.of_nat j -> isAborted h i = false).
  { intros i Hi. apply (rowsDone_clear h 0 todo). fold j. lia. }
  apply Nat.ltb_lt in Hlt. rewrite Hlt in Hspec.
  destruct Hspec as (Ho & Ht & _).
  subst run. rewrite (execute_scanned fpcast h inArgs outArgs pCube Hin Hc Hcr).
  destruct (scanOf fpcast h inArgs pCube) as [[o ts] st]. cbn [fst snd] in Ho, Ht.
  subst o. unfold conclude. cbn [outcome returned trace].
  assert (Hw : cellsWritten (creationTrace h pCube ++ ts) = cellsOfRows (columnsOf pCube) 0 j).
  { rewrite cellsWritten_app, Ht, cellsWritten_app, cellsWritten_rows.
    destruct (abortTrace_quiet (getProgress ProgressArg inArgs) pCube (Z.of_nat j)) as [-> _].
    cbn. now rewrite app_nil_r. }
  repeat split.
  - intros r c Hrc. rewrite Hw in Hrc. apply cellsOfRows_In in Hrc. lia.
  - exists j. repeat split; try assumption.
    rewrite filter_app, Ht, filter_app, polls_rows.
    destruct (abortTrace_quiet (getProgress ProgressArg inArgs) pCube (Z.of_nat j)) as [_ ->].
    reflexivity.
Qed.

(* ================================================================= *)
(** ** The kernel's footprint *)

(** C3.  For a pixel inside an addressable raster every position the
    kernel moves the source accessor to lies inside the raster.  For a
    pixel of the last column the "right" and "lower-right" samples are
    read at column [colCount-1] itself; for a pixel of the last row the
    "down" and "lower-right" samples are read at row [rowCount-1]. *)
Theorem boundary_reads_clamped fpcast T src a row col :
  addressable src ->
  0 <= row < rowsOf src -> 0 <= col < columnsOf src ->
  let r := edgeDetection fpcast T src a (to_int row) (to_int col)
             (to_int (rowsOf src)) (to_int (columnsOf src)) in
  let nr := nextIndex row (rowsOf src) in
  let nc := nextIndex col (columnsOf src) in
  let lastCol := columnsOf src - 1 in
  let lastRow := rowsOf src - 1 in
  Forall (inBounds src) (positionsRead (fst (fst r)))
  /\ (col = lastCol ->
        positionsRead (fst (fst r)) = [(row, lastCol); (nr, col); (nr, lastCol); (row, col)]
        /\ snd r = Some (static_cast fpcast T
                           (magnitude (cells src row col) (cells src row lastCol)
                              (cells src nr col) (cells src nr lastCol))))
  /\ (row = lastRow ->
        positionsRead (fst (fst r)) = [(row, nc); (lastRow, col); (lastRow, nc); (row, col)]
        /\ snd r = Some (static_cast fpcast T
                           (magnitude (cells src row col) (cells src row nc)
                              (cells src lastRow col) (cells src lastRow nc)))).
Proof.
  intros Ha Hr Hc. cbn zeta.
  rewrite (edgeDetection_inside fpcast T src Ha a row col Hr Hc).
  cbn [fst snd]. unfold readsAt, kernelAt. cbn [positionsRead].
  pose proof (nextIndex_bounds row _ Hr) as Br.
  pose proof (nextIndex_bounds col _ Hc) as Bc.
  split; [|split].
  - repeat constructor; cbn [fst snd]; lia.
  - intros ->. rewrite nextIndex_last. split; reflexivity.
  - intros ->. rewrite nextIndex_last. split; reflexivity.
Qed.

(** C8.  For a pixel inside an addressable raster the kernel moves the
    source accessor to exactly four positions: (row, nextCol),
    (nextRow, col), (nextRow, nextCol) and (row, col), with
    [nextCol = min(col+1, colCount-1)] and [nextRow = min(row+1,
    rowCount-1)]; none of them lies above or left of the pixel.  The value
    delivered is the same for any raster of the same geometry that agrees
    on these four cells, and the body of the kernel does not depend on
    [prevCol] and [prevRow]. *)
Theorem kernel_footprint fpcast T src a row col :
  addressable src ->
  0 <= row < rowsOf src -> 0 <= col < columnsOf src ->
  let nr := Z.min (row + 1) (rowsOf src - 1) in
  let nc := Z.min (col + 1) (columnsOf src - 1) in
  let run s b := edgeDetection fpcast T s b (to_int row) (to_int col)
                   (to_int (rowsOf s)) (to_int (columnsOf s)) in
  positionsRead (fst (fst (run src a))) = [(row, nc); (nr, col); (nr, nc); (row, col)]
  /\ (forall p, In p (positionsRead (fst (fst (run src a)))) -> row <= fst p /\ col <= snd p)
  /\ (forall src' a',
        getDataDescriptor src' = getDataDescriptor src ->
        cells src' row col = cells src row col ->
        cells src' row nc = cells src row nc ->
        cells src' nr col = cells src nr col ->
        cells src' nr nc = cells src nr nc ->
        snd (run src' a') = snd (run src a))
  /\ (forall prevCol prevRow prevCol' prevRow',
        edgeDetection_body fpcast T src a row col prevCol prevRow nc nr
        = edgeDetection_body fpcast T src a row col prevCol' prevRow' nc nr).
Proof.
  intros Ha Hr Hc. cbv beta zeta.
  rewrite (edgeDetection_inside fpcast T src Ha a row col Hr Hc).
  cbn [fst snd]. unfold readsAt. cbn [positionsRead].
  fold (nextIndex row (rowsOf src)). fold (nextIndex col (columnsOf src)).
  pose proof (nextIndex_bounds row _ Hr) as Br.
  pose proof (nextIndex_bounds col _ Hc) as Bc.
  split; [reflexivity |]. split; [|split].
  - intros p [<- | [<- | [<- | [<- | []]]]]; cbn [fst snd]; lia.
  - intros src' a' Hd E1 E2 E3 E4.
    assert (Ha' : addressable src').
    { unfold addressable, rowsOf, columnsOf in *. now rewrite Hd. }
    assert (Hrows : rowsOf src' = rowsOf src) by (unfold rowsOf; now rewrite Hd).
    assert (Hcols : columnsOf src' = columnsOf src) by (unfold columnsOf; now rewrite Hd).
    rewrite (edgeDetection_inside fpcast T src' Ha' a' row col) by lia.
    cbn [snd]. unfold kernelAt. rewrite Hrows, Hcols, E1, E2, E3, E4. reflexivity.
  - reflexivity.
Qed.

(* ================================================================= *)
(** ** The values of a completed run *)

(** C1, as the code has it.  On a completed run over an addressable
    raster of a supported encoding, the sample stored for a pixel strictly
    inside the raster is [static_cast<T>(sqrt(gx*gx + gy*gy))], computed
    in [double] from the unclamped neighbours at (row,col), (row,col+1),
    (row+1,col) and (row+1,col+1): for an integer sample type the
    magnitude is truncated toward zero, not rounded. *)
Theorem interior_pixel_value fpcast h inArgs pOut pCube T row col :
  getRasterElement DataElementArg inArgs = Some pCube ->
  switchOnEncoding (encodingOf pCube) = Some T ->
  addressable pCube ->
  outcome (execute fpcast h (Some inArgs) pOut) = Completed ->
  0 <= row < rowsOf pCube - 1 -> 0 <= col < columnsOf pCube - 1 ->
  option_map (fun out => cells out row col)
    (resultElement (execute fpcast h (Some inArgs) pOut))
  = Some (static_cast fpcast T
            (magnitude (cells pCube row col) (cells pCube row (col + 1))
               (cells pCube (row + 1) col) (cells pCube (row + 1) (col + 1))))
  /\ (forall x z, is_integer_type T = true ->
        Double.truncate x = Some z -> int_min T <= z <= int_max T ->
        static_cast fpcast T x = IntSample z).
Proof.
  intros Hin HT Ha Ho Hr Hc. split.
  - destruct (execute_Completed_inv fpcast h _ _ Ho) as (ia & oa & pc & _ & _ & _ & _ & _ & _ & Hres & _).
    rewrite Hres. cbn [option_map]. f_equal.
    rewrite (completed_cells fpcast h inArgs pCube T Hin HT Ha pOut _ row col Ho Hres)
      by lia.
    unfold kernelAt. rewrite !nextIndex_interior by lia. reflexivity.
  - intros x z Hint Hx Hz. unfold static_cast. rewrite Hx.
    destruct T; try discriminate Hint;
      (replace ((int_min _ <=? z) && (z <=? int_max _)) with true; [reflexivity |];
       symmetry; apply andb_true_intro; split; apply Z.leb_le; lia).
Qed.

(* ================================================================= *)
(** ** The output argument *)

(** C9, what the code does instead.  The output specification declares
    the single argument "Result"; a completed run stores the result
    element under "Robert_Edge_Result", a name the list does not declare,
    so the store is refused and the declared argument stays NULL. *)
Theorem result_stored_under_undeclared_name fpcast h pIn :
  outcome (execute fpcast h pIn (Some getOutputSpecification)) = Completed ->
  outArgList (execute fpcast h pIn (Some getOutputSpecification))
  = Some getOutputSpecification
  /\ getArg "Result" getOutputSpecification = Some None
  /\ getArg "Robert_Edge_Result" getOutputSpecification = None
  /\ In (EvSetPlugInArgValue "Robert_Edge_Result" false)
       (trace (execute fpcast h pIn (Some getOutputSpecification))).
Proof.
  intros Ho.
  destruct (execute_Completed_inv fpcast h _ _ Ho)
    as (inArgs & outArgs & pCube & -> & Hout & Hin & Hc & Hcr & Hs & _ & _ & Hargs).
  injection Hout as <-.
  split; [rewrite Hargs; reflexivity |].
  split; [reflexivity |]. split; [reflexivity |].
  rewrite (execute_scanned fpcast h inArgs _ pCube Hin Hc Hcr) in *.
  destruct (scanOf fpcast h inArgs pCube) as [[o ts] st]. cbn [fst] in Hs. subst o.
  rewrite conclude_outcome in Ho. unfold conclude.
  destruct (negb (isBatch h) && negb (viewCreated h)); [discriminate Ho |].
  cbn [setPlugInArgValue getOutputSpecification addArg app String.eqb Ascii.eqb Bool.eqb trace].
  rewrite !in_app_iff. do 4 right. left. reflexivity.
Qed.

(* ================================================================= *)
(** ** Facts of binary64 arithmetic *)

Module DoubleFacts.

Lemma digits2_size p : digits2_pos p = Pos.size p.
Proof. induction p; simpl; congruence. Qed.

Lemma digits_iter_xO p k : digits2_pos (Pos.iter xO p k) = (digits2_pos p + k)%positive.
Proof.
  induction k using Pos.peano_ind.
  - cbn. lia.
  - rewrite Pos.iter_succ. cbn [digits2_pos]. rewrite IHk. lia.
Qed.

Lemma digits_bound p : Zpos p < 2 ^ 53 -> Zpos (digits2_pos p) <= 53.
Proof.
  intros H. rewrite digits2_size.
  pose proof (Pos.size_le p) as Hle.
  assert (Hz : 2 ^ Zpos (Pos.size p) <= 2 * Zpos p).
  { rewrite <- Pos2Z.inj_pow. change (2 * Zpos p) with (Zpos p~0). lia. }
  destruct (Z_le_gt_dec (Zpos (Pos.size p)) 53) as [|Hgt]; [assumption | exfalso].
  assert (2 ^ 54 <= 2 ^ Zpos (Pos.size p)) by (apply Z.pow_le_mono_r; lia).
  change (2 ^ 54) with (2 * 2 ^ 53) in *. lia.
Qed.

(** Rounding leaves a canonical mantissa and exponent as they are. *)
Lemma round_canonical s m e :
  bounded prec emax m e = true ->
  binary_round_aux prec emax s (Zpos m) e loc_Exact = S754_finite s m e.
Proof.
  unfold bounded, canonical_mantissa. intros H.
  apply andb_prop in H. destruct H as [Hc Hb].
  apply Z.eqb_eq in Hc.
  unfold binary_round_aux, shr_fexp. cbn [Zdigits2 shr_record_of_loc].
  rewrite Hc, Z.sub_diag. cbn [shr shr_m loc_of_shr_record round_nearest_even].
  cbn [Zdigits2]. rewrite Hc, Z.sub_diag. cbn [shr shr_m]. rewrite Hb. reflexivity.
Qed.

(** The product with the mantissa of 1.0 (2^52, exponent -52) rounds back
    to the canonical operand: 52 zero bits are shifted out. *)
Lemma times_unit_exact s m e :
  bounded prec emax m e = true ->
  binary_round_aux prec emax s (Zpos (4503599627370496 * m)) (-52 + e) loc_Exact
  = S754_finite s m e.
Proof.
  unfold bounded, canonical_mantissa. intros H.
  apply andb_prop in H. destruct H as [Hc Hb].
  apply Z.eqb_eq in Hc.
  unfold binary_round_aux, shr_fexp. cbn [Zdigits2 shr_record_of_loc].
  cbn [Pos.mul]. cbn [digits2_pos].
  rewrite !Pos2Z.inj_succ.
  match goal with |- context [fexp prec emax ?a] =>
    replace a with (Zpos (digits2_pos m) + e) by lia end.
  rewrite Hc. replace (e - (-52 + e)) with 52 by lia.
  cbn [shr iter_pos shr_1 orb shr_m loc_of_shr_record round_nearest_even].
  cbn [Zdigits2].
  replace (-52 + e + 52) with e by lia.
  rewrite Hc, Z.sub_diag. cbn [shr shr_m]. rewrite Hb. reflexivity.
Qed.

(** [1.0 * d + -1.0 * d] is [+0] for every finite [d]. *)
Lemma difference_with_itself d :
  Double.is_finite d = true -> (1.0 * d + -1.0 * d)%float = 0%float.
Proof.
  unfold Double.is_finite. intros Hf.
  apply Prim2SF_inj.
  rewrite add_spec, !mul_spec.
  pose proof (Prim2SF_valid d) as Hv.
  change (Prim2SF 1) with (S754_finite false 4503599627370496 (-52)).
  change (Prim2SF (-1)) with (S754_finite true 4503599627370496 (-52)).
  change (Prim2SF 0) with (S754_zero false).
  destruct (Prim2SF d) as [s | s | | s m e]; try discriminate Hf.
  - destruct s; reflexivity.
  - cbn [valid_binary] in Hv.
    unfold SF64mul, SFmul.
    rewrite !times_unit_exact by exact Hv.
    unfold SF64add, SFadd. rewrite Z.min_id.
    unfold shl_align. rewrite Z.sub_diag. cbn [fst].
    destruct s; cbn [xorb cond_Zopp]; rewrite ?Z.add_opp_diag_l, ?Z.add_opp_diag_r;
      reflexivity.
Qed.

(** It is NaN when [d] is NaN or an infinity. *)
Lemma difference_not_finite d :
  Double.is_finite d = false -> (1.0 * d + -1.0 * d)%float = nan.
Proof.
  unfold Double.is_finite. intros Hf.
  apply Prim2SF_inj.
  rewrite add_spec, !mul_spec.
  change (Prim2SF 1) with (S754_finite false 4503599627370496 (-52)).
  change (Prim2SF (-1)) with (S754_finite true 4503599627370496 (-52)).
  change (Prim2SF nan) with S754_nan.
  destruct (Prim2SF d) as [s | s | | s m e]; try discriminate Hf.
  - destruct s; reflexivity.
  - reflexivity.
Qed.

(** An integer below 2^53 in magnitude converts to a finite [double]. *)
Lemma normalize_small_finite p s :
  Zpos p < 2 ^ 53 ->
  exists m e, binary_round prec emax s p 0 = S754_finite s m e.
Proof.
  intros Hp. pose proof (digits_bound p Hp) as Hd.
  unfold binary_round.
  assert (Hf : fexp prec emax (Zpos (digits2_pos p) + 0) = Zpos (digits2_pos p) - 53).
  { unfold fexp, SpecFloat.emin, prec, emax. lia. }
  rewrite Hf. unfold shl_align.
  destruct (Zpos (digits2_pos p) - 53 - 0) as [|q|q] eqn:Hq; try lia.
  - exists p, 0. apply round_canonical.
    unfold bounded, canonical_mantissa. rewrite Hf.
    apply andb_true_intro. split; [apply Z.eqb_eq; lia | reflexivity].
  - exists (Pos.iter xO p q), (Zpos (digits2_pos p) - 53). apply round_canonical.
    unfold bounded, canonical_mantissa. rewrite digits_iter_xO.
    apply andb_true_intro. split.
    + apply Z.eqb_eq. unfold fexp, SpecFloat.emin, prec, emax. lia.
    + apply Z.leb_le. unfold prec, emax. lia.
Qed.

Lemma of_Z_finite z : - 2 ^ 53 < z < 2 ^ 53 -> Double.is_finite (Double.of_Z z) = true.
Proof.
  intros Hz. unfold Double.is_finite, Double.of_Z.
  assert (Huint : forall n, 0 <= n < 2 ^ 53 ->
            exists x, Prim2SF (of_uint63 (Uint63.of_Z n)) = x /\
              match x with S754_zero _ | S754_finite _ _ _ => True | _ => False end).
  { intros n Hn. rewrite of_uint63_spec, Uint63.of_Z_spec.
    rewrite Z.mod_small
      by (change Uint63Axioms.wB with (2 ^ 63); split; [lia |];
          apply Z.lt_trans with (2 ^ 53); [lia | reflexivity]).
    destruct n as [|p|p]; try lia.
    - eexists; split; [reflexivity | exact I].
    - cbn [binary_normalize].
      destruct (normalize_small_finite p false ltac:(lia)) as (m & e & ->).
      eexists; split; [reflexivity | exact I]. }
  destruct (Z.ltb_spec z 0).
  - rewrite opp_spec. destruct (Huint (- z) ltac:(lia)) as (x & -> & Hx).
    destruct x; cbn; try contradiction; reflexivity.
  - destruct (Huint z ltac:(lia)) as (x & -> & Hx).
    destruct x; cbn; try contradiction; reflexivity.
Qed.

End DoubleFacts.

(** Every value of an integer sample type is finite as a [double]. *)
Lemma integer_sample_finite T s :
  is_integer_type T = true -> has_type T s -> finite_sample s = true.
Proof.
  intros Hint Ht. destruct s as [z|f].
  - unfold finite_sample, to_double.
    apply DoubleFacts.of_Z_finite.
    change (2 ^ 53) with 9007199254740992.
    destruct T; cbn in Ht; try contradiction; lia.
  - destruct T; cbn in Ht; try contradiction; discriminate Hint.
Qed.

(** The magnitude of four equal finite samples is [+0]. *)
Lemma magnitude_flat s :
  finite_sample s = true -> magnitude s s s s = 0%float.
Proof.
  intros Hf. unfold magnitude.
  rewrite (DoubleFacts.difference_with_itself _ Hf). reflexivity.
Qed.

(** The magnitude of four equal samples that are not finite is NaN. *)
Lemma magnitude_flat_nan s :
  finite_sample s = false -> magnitude s s s s = nan.
Proof.
  intros Hf. unfold magnitude.
  rewrite (DoubleFacts.difference_not_finite _ Hf). reflexivity.
Qed.

Lemma static_cast_zero fpcast T : static_cast fpcast T 0%float = zeroSample T.
Proof. destruct T; reflexivity. Qed.

(* ================================================================= *)
(** ** The kernel on 8-bit samples *)

(** Differences of two 8-bit samples (signed or unsigned) are exact. *)
Lemma diff_checks :
  forallb (fun a => forallb (diff_exact a) (zseq (-128) 384)) (zseq (-128) 384) = true.
Proof. vm_compute. reflexivity. Qed.

(** So are the squares of such differences. *)
Lemma square_checks : forallb square_exact (zseq (-383) 767) = true.
Proof. vm_compute. reflexivity. Qed.

(** And the truncated root of a sum of two such squares is the integer
    square root. *)
Lemma norm_checks :
  forallb (fun u => forallb (norm_exact u) (squares 384)) (squares 384) = true.
Proof. vm_compute. reflexivity. Qed.

(** X5.  For [signed char] and [unsigned char] samples the truncated magnitude
    is the integer square root of [gx^2 + gy^2], and that is what is
    stored whenever the sample type can hold it. *)
Theorem byte_kernel_is_integer_sqrt fpcast T center right down lowerRight :
  T = signed_char \/ T = unsigned_char ->
  has_type T (IntSample center) -> has_type T (IntSample right) ->
  has_type T (IntSample down) -> has_type T (IntSample lowerRight) ->
  let gx := center - lowerRight in
  let gy := right - down in
  let m := magnitude (IntSample center) (IntSample right) (IntSample down)
             (IntSample lowerRight) in
  Double.truncate m = Some (Z.sqrt (gx * gx + gy * gy))
  /\ (Z.sqrt (gx * gx + gy * gy) <= int_max T ->
        static_cast fpcast T m = IntSample (Z.sqrt (gx * gx + gy * gy))).
Proof.
  intros HT Ha Hb Hc Hd gx gy m.
  assert (Hr : forall x, has_type T (IntSample x) -> -128 <= x < -128 + Z.of_nat 384).
  { intros x Hx. destruct HT as [-> | ->]; cbn in Hx; lia. }
  apply Hr in Ha, Hb, Hc, Hd.
  pose proof diff_checks as Hdiff. pose proof square_checks as Hsq.
  pose proof norm_checks as Hn.
  rewrite forallb_forall in Hdiff, Hsq, Hn.
  assert (Dx : forall x y,
            -128 <= x < -128 + Z.of_nat 384 -> -128 <= y < -128 + Z.of_nat 384 ->
            (1.0 * Double.of_Z x + -1.0 * Double.of_Z y)%float = Double.of_Z (x - y)).
  { intros x y Hx Hy. specialize (Hdiff x (proj2 (zseq_In _ _ _) Hx)).
    rewrite forallb_forall in Hdiff. specialize (Hdiff y (proj2 (zseq_In _ _ _) Hy)).
    now apply FloatAxioms.Leibniz.eqb_spec in Hdiff. }
  assert (Sx : forall g, -383 <= g <= 383 ->
            (Double.of_Z g * Double.of_Z g)%float = Double.of_Z (g * g)).
  { intros g Hg. specialize (Hsq g (proj2 (zseq_In (-383) 767 g) ltac:(lia))).
    now apply FloatAxioms.Leibniz.eqb_spec in Hsq. }
  assert (Qx : forall g, -383 <= g <= 383 -> In (g * g) (squares 384)).
  { intros g Hg. unfold squares. apply in_map_iff. exists (Z.abs g).
    split; [apply Z.abs_square |]. apply (zseq_In 0 384). lia. }
  assert (Ht : Double.truncate m = Some (Z.sqrt (gx * gx + gy * gy))).
  { subst m gx gy. unfold magnitude, to_double.
    rewrite (Dx center lowerRight Ha Hd), (Dx right down Hb Hc).
    rewrite !Sx by lia.
    specialize (Hn _ (Qx (center - lowerRight) ltac:(lia))). rewrite forallb_forall in Hn.
    specialize (Hn _ (Qx (right - down) ltac:(lia))). unfold norm_exact in Hn.
    destruct (Double.truncate _) as [z|]; [|discriminate Hn].
    apply Z.eqb_eq in Hn. now subst z. }
  split; [exact Ht |].
  intros Hmax. unfold static_cast. rewrite Ht.
  pose proof (Z.sqrt_nonneg (gx * gx + gy * gy)) as Hnn.
  destruct HT as [-> | ->]; cbn [int_min int_max] in *;
    (replace ((_ <=? _) && (_ <=? _)) with true; [reflexivity |];
     symmetry; apply andb_true_intro; split; apply Z.leb_le; lia).
Qed.

(* ================================================================= *)
(** ** The bottom-right corner *)

(** C10, as the code has it.  On a completed run over a non-empty
    addressable raster of a supported encoding, all four clamped reads for
    the bottom-right pixel hit that pixel; when its sample is finite (as
    every value of an integer sample type is, and every floating-point
    value other than NaN and the infinities) the sample stored there is
    zero, the cast of [+0.0]. *)
Theorem corner_is_zero fpcast h inArgs pOut pCube T :
  getRasterElement DataElementArg inArgs = Some pCube ->
  switchOnEncoding (encodingOf pCube) = Some T ->
  addressable pCube ->
  outcome (execute fpcast h (Some inArgs) pOut) = Completed ->
  0 < rowsOf pCube -> 0 < columnsOf pCube ->
  let lastRow := rowsOf pCube - 1 in
  let lastCol := columnsOf pCube - 1 in
  (is_integer_type T = true /\ has_type T (cells pCube lastRow lastCol))
  \/ finite_sample (cells pCube lastRow lastCol) = true ->
  readsAt pCube lastRow lastCol
  = [EvToPixel lastRow lastCol; EvToPixel lastRow lastCol;
     EvToPixel lastRow lastCol; EvToPixel lastRow lastCol]
  /\ option_map (fun out => cells out lastRow lastCol)
       (resultElement (execute fpcast h (Some inArgs) pOut))
     = Some (zeroSample T)
  /\ zeroSample T = static_cast fpcast T 0%float.
Proof.
  intros Hin HT Ha Ho Hrows Hcols lastRow lastCol Hfin.
  assert (Hf : finite_sample (cells pCube lastRow lastCol) = true).
  { destruct Hfin as [[Hint Hty] | Hf]; [|exact Hf].
    exact (integer_sample_finite T _ Hint Hty). }
  split; [|split].
  - unfold readsAt. subst lastRow lastCol. rewrite !nextIndex_last. reflexivity.
  - destruct (execute_Completed_inv fpcast h _ _ Ho)
      as (ia & oa & pc & _ & _ & _ & _ & _ & _ & Hres & _).
    rewrite Hres. cbn [option_map]. f_equal.
    rewrite (completed_cells fpcast h inArgs pCube T Hin HT Ha pOut _ lastRow lastCol Ho Hres)
      by (subst lastRow lastCol; lia).
    unfold kernelAt. subst lastRow lastCol. rewrite !nextIndex_last.
    rewrite (magnitude_flat _ Hf). apply static_cast_zero.
  - symmetry. apply static_cast_zero.
Qed.

(* ================================================================= *)
(** ** The 2x2 example *)

(** C2, as the code has it.  Every completed run on the 2x2 raster
    [[10, 20], [30, 40]] of an integer encoding leaves the result
    [[31, 28], [14, 0]]: the magnitude 31.62 of pixel (0,0) is truncated,
    and pixel (1,0), whose right neighbour is 40, has magnitude 14.14. *)
Theorem example_output fpcast h pOut e T :
  switchOnEncoding e = Some T ->
  is_integer_type T = true ->
  outcome (execute fpcast h (Some (exampleArgs (exampleRaster e))) pOut) = Completed ->
  cells2x2 (resultElement (execute fpcast h (Some (exampleArgs (exampleRaster e))) pOut))
  = Some [[IntSample 31; IntSample 28]; [IntSample 14; IntSample 0]].
Proof.
  intros HT Hint Ho.
  assert (Hin : getRasterElement DataElementArg (exampleArgs (exampleRaster e))
                = Some (exampleRaster e)) by reflexivity.
  assert (Ha : addressable (exampleRaster e)).
  { unfold addressable, fits_int, INT_MAX. cbn. lia. }
  destruct (execute_Completed_inv fpcast h _ _ Ho)
    as (ia & oa & pc & _ & _ & _ & _ & _ & _ & Hres & _).
  rewrite Hres. cbn [cells2x2].
  rewrite !(completed_cells fpcast h _ (exampleRaster e) T Hin HT Ha pOut _ _ _ Ho Hres)
    by (cbn; lia).
  destruct e; cbn in HT; try discriminate HT; injection HT as <-;
    try discriminate Hint; vm_compute; reflexivity.
Qed.

(* ================================================================= *)
(** ** Whole runs *)

Section WholeRun.

Variable fpcast : CType -> float -> Z.
Variable h : Host.

Lemma positionsRead_columns pCube T row n : forall lo,
  0 <= row < rowsOf pCube -> 0 <= lo -> lo + Z.of_nat n <= columnsOf pCube ->
  Forall (inBounds pCube) (positionsRead (columnsTrace fpcast T pCube row lo n)).
Proof.
  induction n as [|n IH]; intros lo Hr Hlo Hn; [constructor |].
  unfold columnsTrace in *. cbn [zseq flat_map].
  rewrite positionsRead_app. apply Forall_app. split.
  - unfold pixelTrace, readsAt. cbn [positionsRead app].
    pose proof (nextIndex_bounds row (rowsOf pCube) Hr) as Br.
    pose proof (nextIndex_bounds lo (columnsOf pCube) ltac:(lia)) as Bc.
    repeat constructor; cbn [fst snd]; lia.
  - apply IH; lia.
Qed.

Lemma positionsRead_rows pProgress pCube T n : forall lo,
  0 <= lo -> lo + Z.of_nat n <= rowsOf pCube -> 0 <= columnsOf pCube ->
  Forall (inBounds pCube) (positionsRead (rowsTrace fpcast pProgress T pCube lo n)).
Proof.
  induction n as [|n IH]; intros lo Hlo Hn Hc; [constructor |].
  unfold rowsTrace in *. cbn [zseq flat_map].
  rewrite positionsRead_app. apply Forall_app. split; [|apply IH; lia].
  unfold rowTrace. rewrite !positionsRead_app.
  destruct (updateProgress_silent pProgress "Calculating result"
              (percentDone lo (rowsOf pCube)) NORMAL) as (-> & _).
  cbn [app positionsRead]. rewrite app_nil_r.
  apply positionsRead_columns; lia.
Qed.

(** In a result element without a column the row loop touches no pixel. *)
Lemma rowLoop_no_column pProgress pCube todo row st :
  getColumnCount (getDataDescriptor (pResultCube st)) <= 0 ->
  let r := rowLoop fpcast h pProgress pCube todo row st in
  positionsRead (snd (fst r)) = [] /\ cellsWritten (snd (fst r)) = []
  /\ (fst (fst r) = Completed -> todo = O).
Proof.
  intros Hc. destruct todo as [|n]; [cbn; auto |].
  cbn [rowLoop].
  destruct (updateProgress_silent pProgress "Calculating result"
              (to_int (to_uint (row * 100) / getRowCount (getDataDescriptor pCube))) NORMAL)
    as (Hp & Hw & _).
  destruct (isAborted h row).
  - cbn [fst snd]. rewrite !positionsRead_app, !cellsWritten_app, Hp, Hw.
    destruct (updateProgress_silent pProgress (pluginName ++ " has been aborted.")%string
                0 ABORT) as (-> & -> & _).
    repeat split; try reflexivity. discriminate.
  - assert (Hv : Accessor.isValid (getDataDescriptor (pResultCube st)) (pDestAcc st) = false).
    { unfold Accessor.isValid.
      destruct (Z.ltb_spec (acc_col (pDestAcc st))
                  (getColumnCount (getDataDescriptor (pResultCube st)))) as [Hlt|Hge].
      - destruct (Z.leb_spec 0 (acc_col (pDestAcc st))); [lia |].
        now rewrite andb_false_r.
      - now rewrite andb_false_r. }
    rewrite Hv. cbn [negb fst snd].
    rewrite !positionsRead_app, !cellsWritten_app, Hp, Hw.
    destruct (updateProgress_silent pProgress "Unable to access the cube data." 0 ERRORS)
      as (-> & -> & _).
    repeat split; try reflexivity. discriminate.
Qed.

(** The conclusion adds no repositioning and no store. *)
Lemma conclude_quiet pProgress outArgs tc scan :
  positionsRead (trace (conclude h pProgress outArgs tc scan))
  = positionsRead tc ++ positionsRead (snd (fst scan))
  /\ cellsWritten (trace (conclude h pProgress outArgs tc scan))
     = cellsWritten tc ++ cellsWritten (snd (fst scan)).
Proof.
  destruct scan as [[o ts] st]. unfold conclude. cbn [fst snd].
  destruct o; cbn [trace]; rewrite ?positionsRead_app, ?cellsWritten_app; auto.
  destruct (negb (isBatch h) && negb (viewCreated h)).
  - cbn [trace]. rewrite !positionsRead_app, !cellsWritten_app.
    destruct (updateProgress_silent pProgress "Unable to create view." 0 ERRORS)
      as (-> & -> & _).
    destruct (isBatch h), (viewCreated h); cbn; rewrite ?app_nil_r; auto.
  - destruct (setPlugInArgValue _ _ _) as [stored outArgs'].
    cbn [trace]. rewrite !positionsRead_app, !cellsWritten_app.
    destruct (updateProgress_silent pProgress "Edge Detection is complete." 100 NORMAL)
      as (-> & -> & _).
    destruct (isBatch h), (viewCreated h); cbn; rewrite ?app_nil_r; auto.
Qed.

Lemma cellsOfRows_no_column cols lo n : cols <= 0 -> cellsOfRows cols lo n = [].
Proof.
  intros Hc. unfold cellsOfRows. replace (Z.to_nat cols) with O by lia.
  revert lo. induction n as [|n IH]; intros lo; [reflexivity |].
  cbn [zseq flat_map map app]. apply IH.
Qed.

(** X1.  Whatever its outcome, a run on an addressable raster moves the source
    accessor to positions inside the raster only. *)
Theorem run_reads_in_bounds inArgs pOut pCube :
  getRasterElement DataElementArg inArgs = Some pCube ->
  addressable pCube ->
  Forall (inBounds pCube) (positionsRead (trace (execute fpcast h (Some inArgs) pOut))).
Proof.
  intros Hin Ha.
  destruct pOut as [outArgs|]; [|constructor].
  destruct (is_complex (encodingOf pCube)) eqn:Hc.
  { unfold execute. unfold encodingOf in Hc. rewrite Hin, Hc. cbn [trace app positionsRead].
    destruct (updateProgress_silent (getProgress ProgressArg inArgs)
                "Edge detection cannot be performed on complex types." 0 ERRORS) as (-> & _).
    constructor. }
  destruct (elementCreated h) eqn:Hcr.
  2:{ unfold execute, createRasterElement. unfold encodingOf in Hc. rewrite Hin, Hc, Hcr.
      cbn [trace app positionsRead].
      destruct (updateProgress_silent (getProgress ProgressArg inArgs)
                  "A raster cube could not be created." 0 ERRORS) as (-> & _).
      constructor. }
  rewrite (execute_scanned fpcast h inArgs outArgs pCube Hin Hc Hcr).
  destruct (conclude_quiet (getProgress ProgressArg inArgs) outArgs (creationTrace h pCube)
              (scanOf fpcast h inArgs pCube)) as [-> _].
  cbn [creationTrace positionsRead app].
  destruct (supported_dispatched _ Hc) as [T HT].
  destruct (Z_lt_le_dec 0 (columnsOf pCube)) as [Hpos|Hzero].
  - destruct (scanOf_spec fpcast h inArgs pCube T Hin HT Ha Hpos) as (_ & -> & _).
    rewrite positionsRead_app. apply Forall_app. split.
    + pose proof (rowsDone_le h 0 (Z.to_nat (rowsOf pCube))) as Hle.
      destruct Ha as [Ar _]. unfold fits_int in Ar.
      apply positionsRead_rows; lia.
    + destruct (_ <? _)%nat; [|constructor].
      unfold abortTrace. rewrite !positionsRead_app.
      destruct (updateProgress_silent (getProgress ProgressArg inArgs) "Calculating result"
                  (percentDone (Z.of_nat (rowsDone h 0 (Z.to_nat (rowsOf pCube)))) (rowsOf pCube))
                  NORMAL) as (-> & _).
      destruct (updateProgress_silent (getProgress ProgressArg inArgs)
                  (pluginName ++ " has been aborted.")%string 0 ABORT) as (-> & _).
      constructor.
  - unfold scanOf.
    destruct (rowLoop_no_column (getProgress ProgressArg inArgs) pCube
                (Z.to_nat (rowsOf pCube)) 0 (initialState (freshElement h pCube)) Hzero)
      as (-> & _).
    constructor.
Qed.

(** X2.  A completed run writes every cell of the result exactly once, in
    row-major order: the destination accessor stays in step with the loop
    counters. *)
Theorem completed_run_writes_each_cell_once inArgs pOut pCube :
  getRasterElement DataElementArg inArgs = Some pCube ->
  addressable pCube ->
  outcome (execute fpcast h (Some inArgs) pOut) = Completed ->
  cellsWritten (trace (execute fpcast h (Some inArgs) pOut))
  = cellsOfRows (columnsOf pCube) 0 (Z.to_nat (rowsOf pCube)).
Proof.
  intros Hin Ha Ho.
  destruct (execute_Completed_inv fpcast h _ _ Ho)
    as (ia & outArgs & pc & Hi & -> & Hin' & Hc & Hcr & Hs & _).
  injection Hi as <-. rewrite Hin in Hin'. injection Hin' as <-.
  rewrite (execute_scanned fpcast h inArgs outArgs pCube Hin Hc Hcr).
  destruct (conclude_quiet (getProgress ProgressArg inArgs) outArgs (creationTrace h pCube)
              (scanOf fpcast h inArgs pCube)) as [_ ->].
  cbn [creationTrace cellsWritten app].
  destruct (supported_dispatched _ Hc) as [T HT].
  destruct (Z_lt_le_dec 0 (columnsOf pCube)) as [Hpos|Hzero].
  - destruct (scanOf_spec fpcast h inArgs pCube T Hin HT Ha Hpos) as (Hout & -> & _).
    rewrite Hs in Hout.
    pose proof (rowsDone_le h 0 (Z.to_nat (rowsOf pCube))) as Hle.
    destruct (Nat.ltb_spec (rowsDone h 0 (Z.to_nat (rowsOf pCube))) (Z.to_nat (rowsOf pCube)))
      as [Hlt|Hge]; [discriminate Hout |].
    rewrite app_nil_r, cellsWritten_rows.
    f_equal. lia.
  - rewrite cellsOfRows_no_column by exact Hzero.
    unfold scanOf.
    destruct (rowLoop_no_column (getProgress ProgressArg inArgs) pCube
                (Z.to_nat (rowsOf pCube)) 0 (initialState (freshElement h pCube)) Hzero)
      as (_ & -> & _).
    reflexivity.
Qed.

(** X3.  On a completed run every pixel of the result, boundary pixels
    included, holds [static_cast<T>] of the magnitude computed from the
    samples at (row,col), (row,nextCol), (nextRow,col), (nextRow,nextCol)
    with [nextCol = min(col+1, colCount-1)] and [nextRow = min(row+1,
    rowCount-1)]. *)
Theorem every_pixel_value inArgs pOut pCube T row col :
  getRasterElement DataElementArg inArgs = Some pCube ->
  switchOnEncoding (encodingOf pCube) = Some T ->
  addressable pCube ->
  outcome (execute fpcast h (Some inArgs) pOut) = Completed ->
  0 <= row < rowsOf pCube -> 0 <= col < columnsOf pCube ->
  let nr := Z.min (row + 1) (rowsOf pCube - 1) in
  let nc := Z.min (col + 1) (columnsOf pCube - 1) in
  option_map (fun out => cells out row col)
    (resultElement (execute fpcast h (Some inArgs) pOut))
  = Some (static_cast fpcast T
            (magnitude (cells pCube row col) (cells pCube row nc)
               (cells pCube nr col) (cells pCube nr nc))).
Proof.
  intros Hin HT Ha Ho Hr Hc nr nc.
  destruct (execute_Completed_inv fpcast h _ _ Ho)
    as (ia & oa & pc & _ & _ & _ & _ & _ & _ & Hres & _).
  rewrite Hres. cbn [option_map]. f_equal.
  exact (completed_cells fpcast h inArgs pCube T Hin HT Ha pOut _ row col Ho Hres Hr Hc).
Qed.

(** X4.  [execute] returns [true] on the completed exit and on no other. *)
Theorem returns_true_iff_completed pIn pOut :
  returned (execute fpcast h pIn pOut) = true
  <-> outcome (execute fpcast h pIn pOut) = Completed.
Proof. apply returned_iff_Completed. Qed.

End WholeRun.

(* ================================================================= *)
(** ** Where the specification's wording and the code part *)

(** C1 as worded fails: for the interior pixel (0,0) of the 2x2 example
    the code stores 31, the truncation of 31.62, while
    [round(sqrt(gx^2 + gy^2))] is 32. *)
Lemma interior_pixel_not_rounded :
  outcome (exampleRun quietHost (exampleRaster INT4SBYTES)) = Completed
  /\ option_map (fun out => cells out 0 0)
       (resultElement (exampleRun quietHost (exampleRaster INT4SBYTES)))
     = Some (IntSample 31)
  /\ spec_rounded_magnitude (exampleCells 0 0) (exampleCells 0 1)
       (exampleCells 1 0) (exampleCells 1 1)
     = Some 32.
Proof. repeat split; vm_compute; reflexivity. Qed.

(** C2 as worded fails: the completed run on the 2x2 example does not
    produce [[32, 28], [0, 0]]. *)
Lemma example_output_not_as_worded :
  outcome (exampleRun quietHost (exampleRaster INT4SBYTES)) = Completed
  /\ cells2x2 (resultElement (exampleRun quietHost (exampleRaster INT4SBYTES)))
     <> Some [[IntSample 32; IntSample 28]; [IntSample 0; IntSample 0]].
Proof.
  split; [vm_compute; reflexivity |].
  vm_compute. intros H. discriminate H.
Qed.

(** C7 as worded fails: with the abort flag set before the first row, the
    scan still reports the progress of row 0 before it polls the flag. *)
Lemma progress_precedes_poll :
  snd (fst (scanOf examplePlatform (abortingHost 0)
              (exampleArgs (exampleRaster INT4SBYTES)) (exampleRaster INT4SBYTES)))
  = [EvProgress "Calculating result" 0 NORMAL;
     EvIsAborted true;
     EvFinalize Abort "Robert Edge Detection has been aborted.";
     EvProgress "Robert Edge Detection has been aborted." 0 ABORT]
  /\ spec_row_order
       (snd (fst (scanOf examplePlatform (abortingHost 0)
                    (exampleArgs (exampleRaster INT4SBYTES)) (exampleRaster INT4SBYTES))))
     = false.
Proof. split; vm_compute; reflexivity. Qed.

(** C10 as worded fails: on a 1x1 raster of doubles holding +infinity (or
    NaN) the run completes and the corner sample is NaN, not zero. *)
Lemma corner_not_zero_when_not_finite :
  outcome (exampleRun quietHost (singletonRaster infinity)) = Completed
  /\ option_map (fun out => cells out 0 0)
       (resultElement (exampleRun quietHost (singletonRaster infinity)))
     = Some (FloatSample nan)
  /\ option_map (fun out => cells out 0 0)
       (resultElement (exampleRun quietHost (singletonRaster nan)))
     = Some (FloatSample nan)
  /\ FloatSample nan <> zeroSample c_double.
Proof.
  split; [vm_compute; reflexivity |].
  split; [vm_compute; reflexivity |].
  split; [vm_compute; reflexivity |].
  intros H.
  apply (f_equal (fun s => match s with
                           | FloatSample f => PrimFloat.is_nan f
                           | IntSample _ => false
                           end)) in H.
  vm_compute in H. discriminate H.
Qed.

(* ================================================================= *)
(** ** The theorems at concrete inputs *)

Lemma exampleRaster_addressable e : addressable (exampleRaster e).
Proof. unfold addressable, fits_int, INT_MAX. cbn. lia. Qed.

Lemma interior_pixel_value_witness :
  option_map (fun out => cells out 0 0)
    (resultElement (exampleRun quietHost (exampleRaster INT2UBYTES)))
  = Some (static_cast examplePlatform unsigned_short
            (magnitude (IntSample 10) (IntSample 20) (IntSample 30) (IntSample 40))).
Proof.
  refine (proj1 (interior_pixel_value examplePlatform quietHost
                   (exampleArgs (exampleRaster INT2UBYTES)) (Some getOutputSpecification)
                   (exampleRaster INT2UBYTES) unsigned_short 0 0
                   eq_refl eq_refl _ _ _ _)).
  - unfold addressable, fits_int, INT_MAX. cbn. lia.
  - vm_compute. reflexivity.
  - cbn. lia.
  - cbn. lia.
Defined.

Lemma example_output_witness :
  cells2x2 (resultElement (exampleRun quietHost (exampleRaster INT1UBYTE)))
  = Some [[IntSample 31; IntSample 28]; [IntSample 14; IntSample 0]].
Proof.
  refine (example_output examplePlatform quietHost (Some getOutputSpecification)
            INT1UBYTE unsigned_char eq_refl eq_refl _).
  vm_compute. reflexivity.
Defined.

Lemma boundary_reads_clamped_witness :
  positionsRead
    (fst (fst (edgeDetection examplePlatform signed_int (exampleRaster INT4SBYTES)
                 Accessor.getDataAccessor (to_int 0) (to_int 1) (to_int 2) (to_int 2))))
  = [(0, 1); (1, 1); (1, 1); (0, 1)].
Proof.
  refine (proj1 (proj1 (proj2 (boundary_reads_clamped examplePlatform signed_int
                                 (exampleRaster INT4SBYTES) Accessor.getDataAccessor 0 1
                                 _ _ _)) eq_refl)).
  - unfold addressable, fits_int, INT_MAX. cbn. lia.
  - cbn. lia.
  - cbn. lia.
Defined.

Lemma unsupported_encoding_rejected_witness :
  outcome (exampleRun quietHost (exampleRaster FLT8COMPLEX)) = Failed UnsupportedEncoding
  /\ outcome (exampleRun quietHost (exampleRaster FLT8BYTES)) = Completed.
Proof.
  split.
  - refine (proj2 (proj1 (unsupported_encoding_rejected examplePlatform quietHost
                            (exampleArgs (exampleRaster FLT8COMPLEX)) getOutputSpecification
                            (exampleRaster FLT8COMPLEX) eq_refl)) eq_refl).
  - refine (proj1 (proj2 (proj2 (unsupported_encoding_rejected examplePlatform quietHost
                            (exampleArgs (exampleRaster FLT8BYTES)) getOutputSpecification
                            (exampleRaster FLT8BYTES) eq_refl))
                     eq_refl eq_refl (fun _ => eq_refl) _ (or_introl eq_refl))).
    left. cbn. lia.
Defined.

Lemma geometry_preserved_witness :
  exists inArgs pCube out rest,
    Some (exampleArgs (exampleRaster INT1SBYTE)) = Some inArgs
    /\ getRasterElement DataElementArg inArgs = Some pCube
    /\ trace (exampleRun quietHost (exampleRaster INT1SBYTE))
       = EvCreateRasterElement (getName pCube ++ "_Edge_Detection_Result")
           (rowsOf pCube) (columnsOf pCube) (encodingOf pCube) true :: rest
    /\ resultElement (exampleRun quietHost (exampleRaster INT1SBYTE)) = Some out
    /\ rowsOf out = rowsOf pCube
    /\ columnsOf out = columnsOf pCube
    /\ encodingOf out = encodingOf pCube
    /\ getName out = (getName pCube ++ "_Edge_Detection_Result")%string.
Proof.
  refine (geometry_preserved examplePlatform quietHost
            (Some (exampleArgs (exampleRaster INT1SBYTE))) (Some getOutputSpecification) _).
  vm_compute. reflexivity.
Defined.

Lemma abort_stops_scan_witness :
  outcome (exampleRun (abortingHost 1) (exampleRaster INT4UBYTES)) = Aborted
  /\ forall r c,
       In (r, c) (cellsWritten (trace (exampleRun (abortingHost 1) (exampleRaster INT4UBYTES))))
       -> r < 1.
Proof.
  pose proof (abort_stops_scan examplePlatform (abortingHost 1)
                (exampleArgs (exampleRaster INT4UBYTES)) getOutputSpecification
                (exampleRaster INT4UBYTES) 1 eq_refl eq_refl eq_refl
                (exampleRaster_addressable INT4UBYTES)) as H.
  assert (Hc : 0 < columnsOf (exampleRaster INT4UBYTES)) by (cbn; lia).
  assert (Hk : 0 <= 1 < rowsOf (exampleRaster INT4UBYTES)) by (cbn; lia).
  specialize (H Hc Hk eq_refl).
  exact (conj (proj1 H) (proj1 (proj2 (proj2 H)))).
Defined.

Lemma kernel_footprint_witness :
  positionsRead
    (fst (fst (edgeDetection examplePlatform signed_int (exampleRaster INT4SBYTES)
                 Accessor.getDataAccessor (to_int 1) (to_int 0) (to_int 2) (to_int 2))))
  = [(1, 1); (1, 0); (1, 1); (1, 0)].
Proof.
  refine (proj1 (kernel_footprint examplePlatform signed_int (exampleRaster INT4SBYTES)
                   Accessor.getDataAccessor 1 0 _ _ _)).
  - unfold addressable, fits_int, INT_MAX. cbn. lia.
  - cbn. lia.
  - cbn. lia.
Defined.

Lemma result_stored_under_undeclared_name_witness :
  outArgList (exampleRun quietHost (exampleRaster INT4SBYTES))
  = Some [("Result"%string, None)].
Proof.
  refine (proj1 (result_stored_under_undeclared_name examplePlatform quietHost
                   (Some (exampleArgs (exampleRaster INT4SBYTES))) _)).
  vm_compute. reflexivity.
Defined.

Lemma corner_is_zero_witness :
  option_map (fun out => cells out 1 1)
    (resultElement (exampleRun quietHost (exampleRaster INT2SBYTES)))
  = Some (IntSample 0).
Proof.
  refine (proj1 (proj2 (corner_is_zero examplePlatform quietHost
                          (exampleArgs (exampleRaster INT2SBYTES)) (Some getOutputSpecification)
                          (exampleRaster INT2SBYTES) signed_short
                          eq_refl eq_refl _ _ _ _ _))).
  - unfold addressable, fits_int, INT_MAX. cbn. lia.
  - vm_compute. reflexivity.
  - cbn. lia.
  - cbn. lia.
  - left. split; [reflexivity |]. vm_compute. intuition discriminate.
Defined.

Lemma run_reads_in_bounds_witness :
  Forall (inBounds (exampleRaster INT4SBYTES))
    (positionsRead (trace (exampleRun (abortingHost 1) (exampleRaster INT4SBYTES)))).
Proof.
  exact (run_reads_in_bounds examplePlatform (abortingHost 1)
           (exampleArgs (exampleRaster INT4SBYTES)) (Some getOutputSpecification)
           (exampleRaster INT4SBYTES) eq_refl (exampleRaster_addressable INT4SBYTES)).
Defined.

Lemma completed_run_writes_each_cell_once_witness :
  cellsWritten (trace (exampleRun quietHost (exampleRaster INT4SBYTES)))
  = [(0, 0); (0, 1); (1, 0); (1, 1)].
Proof.
  refine (completed_run_writes_each_cell_once examplePlatform quietHost
            (exampleArgs (exampleRaster INT4SBYTES)) (Some getOutputSpecification)
            (exampleRaster INT4SBYTES) eq_refl (exampleRaster_addressable INT4SBYTES) _).
  vm_compute. reflexivity.
Defined.

Lemma every_pixel_value_witness :
  option_map (fun out => cells out 1 0)
    (resultElement (exampleRun quietHost (exampleRaster INT4SBYTES)))
  = Some (static_cast examplePlatform signed_int
            (magnitude (IntSample 30) (IntSample 40) (IntSample 30) (IntSample 40))).
Proof.
  refine (every_pixel_value examplePlatform quietHost
            (exampleArgs (exampleRaster INT4SBYTES)) (Some getOutputSpecification)
            (exampleRaster INT4SBYTES) signed_int 1 0 eq_refl eq_refl
            (exampleRaster_addressable INT4SBYTES) _ _ _).
  - vm_compute. reflexivity.
  - cbn. lia.
  - cbn. lia.
Defined.

Lemma byte_kernel_is_integer_sqrt_witness :
  Double.truncate (magnitude (IntSample 10) (IntSample 20) (IntSample 30) (IntSample 40))
  = Some 31.
Proof.
  refine (proj1 (byte_kernel_is_integer_sqrt examplePlatform unsigned_char 10 20 30 40
                   (or_intror eq_refl) _ _ _ _)); cbn; lia.
Defined.

(* ================================================================= *)
(** ** The events of the scan *)

Lemma filter_none {A} (f : A -> bool) (l : list A) :
  Forall (fun x => f x = false) l -> filter f l = [].
Proof.
  induction 1 as [|x l Hx _ IH]; [reflexivity |]. cbn. now rewrite Hx.
Qed.

Section ScanEvents.

Variable fpcast : CType -> float -> Z.
Variable h : Host.
Variable pProgress : bool.
Variable pCube : RasterElement.

Lemma edgeDetection_events T a row col rowSize colSize :
  Forall (fun ev => pixel_event ev = true)
    (fst (fst (edgeDetection fpcast T pCube a row col rowSize colSize))).
Proof.
  unfold edgeDetection, edgeDetection_body.
  repeat (destruct (negb _); [cbn [fst]; repeat constructor |]).
  cbn [fst]. repeat constructor.
Qed.

Lemma pixelStep_events row col st :
  Forall (fun ev => pixel_event ev = true) (fst (pixelStep fpcast pCube row col st)).
Proof.
  unfold pixelStep. destruct (switchOnEncoding _) as [T|]; [|repeat constructor].
  pose proof (edgeDetection_events T (pSrcAcc st) (to_int row) (to_int col)
                (to_int (getRowCount (getDataDescriptor pCube)))
                (to_int (getColumnCount (getDataDescriptor pCube)))) as He.
  destruct (edgeDetection _ _ _ _ _ _ _ _) as [[t a] [v|]]; cbn [fst] in *;
    apply Forall_app; split; try assumption; repeat constructor.
Qed.

Lemma columnLoop_events row n : forall col st,
  Forall (fun ev => pixel_event ev = true) (fst (columnLoop fpcast pCube n row col st)).
Proof.
  induction n as [|n IH]; intros col st; [constructor |].
  cbn [columnLoop].
  pose proof (pixelStep_events row col st) as Hp.
  destruct (pixelStep fpcast pCube row col st) as [t st1].
  specialize (IH (to_uint (col + 1)) st1).
  destruct (columnLoop fpcast pCube n row (to_uint (col + 1)) st1) as [t' st2].
  cbn [fst] in *. apply Forall_app. split; assumption.
Qed.

Lemma pixel_is_body ev : pixel_event ev = true -> body_event ev = true /\ is_desktop ev = false
  /\ is_progress ev = false /\ is_poll ev = false.
Proof. destruct ev; cbn; intros H; try discriminate H; auto. Qed.

Lemma updateProgress_normal msg pct :
  Forall (fun ev => body_event ev = true /\ is_desktop ev = false)
    (updateProgress pProgress msg pct NORMAL).
Proof. destruct pProgress; repeat constructor. Qed.

(** The trace of the row loop is a body followed by the report of its
    exit. *)
Lemma rowLoop_exit todo : forall row st,
  let r := rowLoop fpcast h pProgress pCube todo row st in
  exists body,
    Forall (fun ev => body_event ev = true /\ is_desktop ev = false) body
    /\ snd (fst r) = body ++ exitReport pProgress (fst (fst r)).
Proof.
  induction todo as [|n IH]; intros row st; cbn zeta; cbn [rowLoop].
  - exists []. split; [constructor | reflexivity].
  - set (t0 := updateProgress pProgress "Calculating result" _ NORMAL).
    assert (H0 : Forall (fun ev => body_event ev = true /\ is_desktop ev = false) t0)
      by apply updateProgress_normal.
    destruct (isAborted h row).
    + exists (t0 ++ [EvIsAborted true]). cbn [fst snd]. split.
      * apply Forall_app. split; [exact H0 | repeat constructor].
      * rewrite <- app_assoc. reflexivity.
    + destruct (negb _).
      * exists (t0 ++ [EvIsAborted false; EvDestIsValid false]). cbn [fst snd]. split.
        -- apply Forall_app. split; [exact H0 | repeat constructor].
        -- rewrite <- app_assoc. reflexivity.
      * pose proof (columnLoop_events row (Z.to_nat (getColumnCount (getDataDescriptor pCube)))
                      0 st) as Hc.
        destruct (columnLoop _ _ _ _ _ _) as [t1 st1]. cbn [fst] in Hc.
        match goal with |- context [rowLoop _ _ _ _ n ?r ?s] => specialize (IH r s) end.
        cbn zeta in IH.
        destruct (rowLoop _ _ _ _ _ _ _) as [[o t2] st3]. cbn [fst snd] in *.
        destruct IH as (body & Hb & ->).
        exists (t0 ++ [EvIsAborted false; EvDestIsValid true] ++ t1 ++ [EvNextRow] ++ body).
        split.
        -- repeat (apply Forall_app; split); try assumption; try (repeat constructor).
           eapply Forall_impl; [|exact Hc]. intros ev Hev.
           destruct (pixel_is_body ev Hev) as (? & ? & _). auto.
        -- rewrite <- !app_assoc. reflexivity.
Qed.

End ScanEvents.

(* ================================================================= *)
(** ** How [execute] leaves *)

Section Exits.

Variable fpcast : CType -> float -> Z.
Variable h : Host.

Lemma updateProgress_body p msg pct :
  Forall (fun ev => body_event ev = true) (updateProgress p msg pct NORMAL).
Proof. destruct p; repeat constructor. Qed.

Lemma body_weaken (l : Trace) :
  Forall (fun ev => body_event ev = true /\ is_desktop ev = false) l ->
  Forall (fun ev => body_event ev = true) l.
Proof. apply Forall_impl. intros ev [H _]. exact H. Qed.

(** The trace of the conclusion, from a scan trace that is a body
    followed by the report of the scan's exit. *)
Lemma conclude_exit p outArgs tc o body st :
  Forall (fun ev => body_event ev = true) tc ->
  Forall (fun ev => body_event ev = true) body ->
  let run := conclude h p outArgs tc (o, body ++ exitReport p o, st) in
  exists body',
    Forall (fun ev => body_event ev = true) body'
    /\ match outcome run with
       | Completed =>
           exists stored,
             trace run = body' ++ updateProgress p "Edge Detection is complete." 100 NORMAL
                           ++ [EvSetPlugInArgValue "Robert_Edge_Result" stored;
                               EvFinalize Success ""]
       | o' => trace run = body' ++ exitReport p o'
       end.
Proof.
  intros Htc Hb. cbn zeta. unfold conclude.
  destruct o as [| | e].
  - cbn [exitReport]. rewrite app_nil_r.
    set (tw := if isBatch h then [] else _).
    assert (Hw : Forall (fun ev => body_event ev = true) tw).
    { subst tw. destruct (isBatch h); [constructor |].
      destruct (viewCreated h); repeat constructor. }
    destruct (negb (isBatch h) && negb (viewCreated h)).
    + cbn [outcome trace]. exists (tc ++ body ++ tw). split.
      * repeat (apply Forall_app; split); assumption.
      * rewrite <- !app_assoc. reflexivity.
    + destruct (setPlugInArgValue _ _ _) as [stored outArgs'].
      cbn [outcome trace]. exists (tc ++ body ++ tw). split.
      * repeat (apply Forall_app; split); assumption.
      * exists stored. rewrite <- !app_assoc. reflexivity.
  - cbn [outcome trace]. exists (tc ++ body). split.
    + apply Forall_app. split; assumption.
    + rewrite <- app_assoc. reflexivity.
  - cbn [outcome trace]. exists (tc ++ body). split.
    + apply Forall_app. split; assumption.
    + rewrite <- app_assoc. reflexivity.
Qed.

(** X6.  Every call of [execute] ends with the report of its exit, and
    nothing of the kind happens before: the step is finalized exactly
    once, as a failure with the message of the failing check, as an abort,
    or as a success after the 100% report and the store into the output
    list; the progress reporter, if any, is told the same message with
    level [ERRORS] or [ABORT].  Only the exit for missing argument lists
    reports nothing at all. *)
Theorem exit_report pIn pOut :
  let run := execute fpcast h pIn pOut in
  let p := reporterOf pIn in
  exists body,
    Forall (fun ev => body_event ev = true) body
    /\ match outcome run with
       | Completed =>
           exists stored,
             trace run = body ++ updateProgress p "Edge Detection is complete." 100 NORMAL
                           ++ [EvSetPlugInArgValue "Robert_Edge_Result" stored;
                               EvFinalize Success ""]
       | o => trace run = body ++ exitReport p o
       end.
Proof.
  cbn zeta. unfold execute.
  destruct pIn as [inArgs|]; [|exists []; split; [constructor | reflexivity]].
  destruct pOut as [outArgs|]; [|exists []; split; [constructor | reflexivity]].
  cbn [reporterOf].
  destruct (getRasterElement DataElementArg inArgs) as [pCube|];
    [|exists []; split; [constructor | reflexivity]].
  destruct (is_complex _); [exists []; split; [constructor | reflexivity] |].
  destruct (createRasterElement _ _ _ _ _) as [cube|].
  - destruct (rowLoop_exit fpcast h (getProgress ProgressArg inArgs) pCube
                (Z.to_nat (getRowCount (getDataDescriptor pCube))) 0 (initialState cube))
      as (body & Hb & Ht).
    destruct (rowLoop _ _ _ _ _ _ _) as [[o ts] st]. cbn [fst snd] in Ht. subst ts.
    apply conclude_exit; [repeat constructor | now apply body_weaken].
  - eexists. split; cycle 1; [reflexivity | repeat constructor].
Qed.

(** X7.  An exit other than the completed one leaves nothing behind: [false]
    is returned, the result element is gone and the output argument list
    is the one passed in.  The completed exit leaves the result element. *)
Theorem failure_leaves_nothing pIn pOut :
  let run := execute fpcast h pIn pOut in
  (outcome run <> Completed ->
     returned run = false /\ resultElement run = None /\ outArgList run = pOut)
  /\ (outcome run = Completed -> exists out, resultElement run = Some out).
Proof.
  cbn zeta. split.
  - intros Hne. unfold execute in *.
    destruct pIn as [inArgs|]; [|cbn; auto].
    destruct pOut as [outArgs|]; [|cbn; auto].
    destruct (getRasterElement DataElementArg inArgs) as [pCube|]; [|cbn; auto].
    destruct (is_complex _); [cbn; auto |].
    destruct (createRasterElement _ _ _ _ _) as [cube|]; [|cbn; auto].
    destruct (rowLoop _ _ _ _ _ _ _) as [[o ts] st].
    unfold conclude in *. destruct o; try (cbn; auto).
    destruct (negb (isBatch h) && negb (viewCreated h)); [cbn; auto |].
    destruct (setPlugInArgValue _ _ _). cbn in Hne. congruence.
  - intros Ho.
    destruct (execute_Completed_inv fpcast h pIn pOut Ho)
      as (ia & oa & pc & _ & _ & _ & _ & _ & _ & Hres & _).
    eexists. exact Hres.
Qed.

(** X8.  The desktop services are called only by an interactive run whose
    scan completed: a batch run, an aborted run and a run that fails
    before or during the scan never ask for a window; a completed
    interactive run creates the window named after the result element,
    makes the element the primary one and creates its layer, in this
    order; when no view is delivered the run fails after the one
    [createWindow] call. *)
Theorem desktop_only_after_scan inArgs pOut pCube :
  getRasterElement DataElementArg inArgs = Some pCube ->
  let run := execute fpcast h (Some inArgs) pOut in
  let name := (getName pCube ++ "_Edge_Detection_Result")%string in
  filter is_desktop (trace run)
  = if isBatch h then []
    else match outcome run with
         | Completed =>
             [EvCreateWindow name true; EvSetPrimaryRasterElement name; EvCreateLayer name]
         | Failed ViewFailed => [EvCreateWindow name false]
         | _ => []
         end.
Proof.
  intros Hin. cbn zeta. unfold execute. rewrite Hin.
  destruct pOut as [outArgs|]; [|cbn; now destruct (isBatch h)].
  destruct (is_complex _).
  { cbn [trace outcome]. rewrite filter_app. cbn.
    destruct (getProgress ProgressArg inArgs); cbn; now destruct (isBatch h). }
  unfold createRasterElement. destruct (elementCreated h).
  2:{ cbn [trace outcome]. rewrite !filter_app. cbn.
      destruct (getProgress ProgressArg inArgs); cbn; now destruct (isBatch h). }
  set (cube := {| getName := _; getDataDescriptor := _; cells := _ |}).
  destruct (rowLoop_exit fpcast h (getProgress ProgressArg inArgs) pCube
              (Z.to_nat (getRowCount (getDataDescriptor pCube))) 0 (initialState cube))
    as (body & Hb & Ht).
  pose proof (rowLoop_frame fpcast h (getProgress ProgressArg inArgs) pCube
                (Z.to_nat (getRowCount (getDataDescriptor pCube))) 0 (initialState cube))
    as [_ Hn].
  pose proof (rowLoop_outcome fpcast h (getProgress ProgressArg inArgs) pCube
                (Z.to_nat (getRowCount (getDataDescriptor pCube))) 0 (initialState cube)) as Ho.
  cbn zeta in Ho.
  destruct (rowLoop _ _ _ _ _ _ _) as [[o ts] st]. cbn [fst snd] in Ht, Hn, Ho. subst ts.
  assert (Hbody : filter is_desktop body = []).
  { apply filter_none. eapply Forall_impl; [|exact Hb]. intros ev [_ H]. exact H. }
  assert (Hp : forall msg pct lvl,
            filter is_desktop (updateProgress (getProgress ProgressArg inArgs) msg pct lvl) = []).
  { intros. destruct (getProgress ProgressArg inArgs); reflexivity. }
  unfold conclude. rewrite Hn. cbn [initialState pResultCube getName cube resultName resultSuffix].
  destruct o as [| | e].
  - cbn [exitReport]. rewrite app_nil_r.
    destruct (isBatch h), (viewCreated h); cbn [negb andb];
      try destruct (setPlugInArgValue _ _ _) as [stored outArgs'];
      cbn [trace outcome]; rewrite !filter_app, Hbody, ?Hp; reflexivity.
  - cbn [trace outcome exitReport]. rewrite !filter_app, Hbody. cbn. rewrite Hp.
    now destruct (isBatch h).
  - cbn [trace outcome]. rewrite !filter_app, Hbody.
    assert (He : filter is_desktop (exitReport (getProgress ProgressArg inArgs) (Failed e)) = []).
    { destruct e; cbn; rewrite ?Hp; reflexivity. }
    rewrite He. cbn.
    destruct Ho as [Ho | [Ho | Ho]]; try discriminate Ho. injection Ho as ->.
    now destruct (isBatch h).
Qed.

End Exits.

(* ================================================================= *)
(** ** The outcome in terms of the inputs *)

Lemma rowsDone_full h row todo :
  rowsDone h row todo = todo <->
  (forall i, row <= i < row + Z.of_nat todo -> isAborted h i = false).
Proof.
  split.
  - intros Hk i Hi. apply (rowsDone_clear h row todo). rewrite Hk. exact Hi.
  - revert row. induction todo as [|n IH]; intros row Hc; [reflexivity |].
    cbn [rowsDone]. rewrite (Hc row) by lia. f_equal.
    apply IH. intros i Hi. apply Hc. lia.
Qed.

Section Outcomes.

Variable fpcast : CType -> float -> Z.
Variable h : Host.
Variable inArgs : PlugInArgList.
Variable pCube : RasterElement.
Hypothesis input_given : getRasterElement DataElementArg inArgs = Some pCube.
Hypothesis input_supported : is_complex (encodingOf pCube) = false.
Hypothesis input_addressable : addressable pCube.

(** The exit of the scan in terms of the raster and the abort flag. *)
Lemma scan_outcome :
  let so := fst (fst (scanOf fpcast h inArgs pCube)) in
  (so = Completed \/ so = Aborted \/ so = Failed AccessorInvalid)
  /\ (so = Aborted <->
        exists k, 0 <= k < rowsOf pCube /\ isAborted h k = true
                  /\ (0 < columnsOf pCube \/ k = 0))
  /\ (so = Failed AccessorInvalid <->
        0 < rowsOf pCube /\ columnsOf pCube = 0 /\ isAborted h 0 = false)
  /\ (so = Completed <-> neverAborted h pCube /\ scannable pCube).
Proof.
  cbn zeta. split; [apply rowLoop_outcome |].
  destruct input_addressable as [Ar Ac]. unfold fits_int in Ar, Ac.
  destruct (supported_dispatched _ input_supported) as [T HT].
  unfold neverAborted, scannable.
  destruct (Z_lt_le_dec 0 (columnsOf pCube)) as [Hpos|Hzero].
  - destruct (scanOf_spec fpcast h inArgs pCube T input_given HT input_addressable Hpos)
      as (Ho & _).
    rewrite Ho. clear Ho.
    set (todo := Z.to_nat (rowsOf pCube)).
    pose proof (rowsDone_le h 0 todo) as Hle.
    pose proof (rowsDone_full h 0 todo) as Hfull.
    destruct (Nat.ltb_spec (rowsDone h 0 todo) todo) as [Hlt|Hge].
    + pose proof (rowsDone_stop h 0 todo Hlt) as Hstop. cbn [Z.add] in Hstop.
      assert (Hin : 0 <= Z.of_nat (rowsDone h 0 todo) < rowsOf pCube) by (subst todo; lia).
      split; [|split].
      * split; [|reflexivity]. intros _. eexists. repeat split; try exact Hstop; try lia.
      * split; [discriminate | lia].
      * split; [discriminate |]. intros [Hc _].
        rewrite (Hc _ Hin) in Hstop. discriminate Hstop.
    + assert (Hk : rowsDone h 0 todo = todo) by lia.
      pose proof (proj1 Hfull Hk) as Hclear.
      split; [|split].
      * split; [discriminate |]. intros (k & Hkr & Hka & _).
        rewrite (Hclear k) in Hka by (subst todo; lia). discriminate Hka.
      * split; [discriminate | lia].
      * split; [|reflexivity]. intros _. split; [|left; exact Hpos].
        intros k Hkr. apply Hclear. subst todo. lia.
  - assert (Hc0 : columnsOf pCube = 0) by lia.
    unfold scanOf. destruct (Z.to_nat (rowsOf pCube)) as [|n] eqn:Hn.
    + cbn [rowLoop fst].
      split; [|split].
      * split; [discriminate |]. intros (k & Hkr & _). lia.
      * split; [discriminate | lia].
      * split; [|reflexivity]. intros _. split; [intros k Hk; lia | right; lia].
    + cbn [rowLoop].
      destruct (isAborted h 0) eqn:Ha.
      * cbn [fst]. split; [|split].
        -- split; [|reflexivity]. intros _. exists 0. repeat split; try lia; auto.
        -- split; [discriminate |]. intros (_ & _ & H). discriminate H.
        -- split; [discriminate |]. intros [Hc _]. rewrite Hc in Ha by lia. discriminate Ha.
      * assert (Hv : Accessor.isValid
                       (getDataDescriptor (pResultCube (initialState (freshElement h pCube))))
                       (pDestAcc (initialState (freshElement h pCube))) = false).
        { unfold Accessor.isValid, initialState, freshElement, Accessor.getDataAccessor.
          cbn [pResultCube pDestAcc getDataDescriptor getColumnCount acc_col].
          rewrite Hc0. now rewrite andb_false_r. }
        rewrite Hv. cbn [negb fst]. split; [|split].
        -- split; [discriminate |]. intros (k & Hkr & Hka & [Hp | ->]); [lia |].
           rewrite Ha in Hka. discriminate Hka.
        -- split; [|reflexivity]. intros _. repeat split; try lia.
        -- split; [discriminate |]. intros [_ [Hp | Hr]]; lia.
Qed.

End Outcomes.

(** X9.  For a run that reaches the scan (input element of a supported
    encoding, addressable, result element created) the exit is decided by
    the abort flag, the shape of the raster and the view: it is aborted
    exactly when the flag is found set at the poll of some row (of the
    first row when the raster has no column); it fails on the destination
    accessor exactly when the raster has a row but no column and the
    first poll finds the flag clear; it completes exactly when the flag is
    clear at every row, the raster has a column or no row, and the run is
    a batch run or the view is created; and it fails on the view exactly
    when the scan went through and an interactive run gets no view. *)
Theorem outcome_of_run fpcast h inArgs outArgs pCube :
  getRasterElement DataElementArg inArgs = Some pCube ->
  is_complex (encodingOf pCube) = false ->
  elementCreated h = true ->
  addressable pCube ->
  let run := execute fpcast h (Some inArgs) (Some outArgs) in
  (outcome run = Aborted <->
     exists k, 0 <= k < rowsOf pCube /\ isAborted h k = true
               /\ (0 < columnsOf pCube \/ k = 0))
  /\ (outcome run = Failed AccessorInvalid <->
        0 < rowsOf pCube /\ columnsOf pCube = 0 /\ isAborted h 0 = false)
  /\ (outcome run = Completed <->
        neverAborted h pCube /\ scannable pCube
        /\ (isBatch h = true \/ viewCreated h = true))
  /\ (outcome run = Failed ViewFailed <->
        neverAborted h pCube /\ scannable pCube
        /\ isBatch h = false /\ viewCreated h = false).
Proof.
  intros Hin Hc Hcr Ha. cbn zeta.
  rewrite (execute_scanned fpcast h inArgs outArgs pCube Hin Hc Hcr).
  destruct (scan_outcome fpcast h inArgs pCube Hin Hc Ha) as (Hso & HA & HF & HC).
  destruct (scanOf fpcast h inArgs pCube) as [[so ts] st]. cbn [fst] in *.
  rewrite conclude_outcome.
  destruct Hso as [-> | [-> | ->]].
  - assert (Hcl : neverAborted h pCube /\ scannable pCube) by (now apply HC).
    destruct Hcl as [Hn Hs].
    assert (HnA : ~ exists k, 0 <= k < rowsOf pCube /\ isAborted h k = true
                              /\ (0 < columnsOf pCube \/ k = 0)).
    { intros H. apply HA in H. discriminate H. }
    assert (HnF : ~ (0 < rowsOf pCube /\ columnsOf pCube = 0 /\ isAborted h 0 = false)).
    { intros H. apply HF in H. discriminate H. }
    destruct (isBatch h), (viewCreated h); cbn [negb andb];
      (split; [split; [discriminate | intros H; exfalso; exact (HnA H)] |]);
      (split; [split; [discriminate | intros H; exfalso; exact (HnF H)] |]);
      split; split; try discriminate; try reflexivity; try tauto;
      intros (_ & _ & H); try (destruct H as [H | H]; discriminate H);
      try (destruct H as [H1 H2]; discriminate).
  - split; [exact HA |]. split; [exact HF |].
    split; (split; [discriminate |]); intros (Hn & Hs & _);
      assert (Hx : Aborted = Completed) by (apply HC; auto); discriminate Hx.
  - split; [exact HA |]. split; [exact HF |].
    split; (split; [discriminate |]); intros (Hn & Hs & _);
      assert (Hx : Failed AccessorInvalid = Completed) by (apply HC; auto);
      discriminate Hx.
Qed.

(** X10.  The exits taken before the scan: missing argument lists, no element
    under [DataElementArg], a complex encoding, no result element.  Each
    is taken exactly under its condition, and none of them polls the
    abort flag, moves the source accessor or writes a cell. *)
Theorem early_exits fpcast h pIn pOut :
  let run := execute fpcast h pIn pOut in
  (outcome run = Failed NoArgumentList <-> pIn = None \/ pOut = None)
  /\ (outcome run = Failed InvalidInput <->
        exists inArgs outArgs,
          pIn = Some inArgs /\ pOut = Some outArgs
          /\ getRasterElement DataElementArg inArgs = None)
  /\ (outcome run = Failed AllocationFailed <->
        exists inArgs outArgs pCube,
          pIn = Some inArgs /\ pOut = Some outArgs
          /\ getRasterElement DataElementArg inArgs = Some pCube
          /\ is_complex (encodingOf pCube) = false /\ elementCreated h = false)
  /\ (outcome run = Failed NoArgumentList \/ outcome run = Failed InvalidInput
      \/ outcome run = Failed UnsupportedEncoding \/ outcome run = Failed AllocationFailed ->
        filter is_poll (trace run) = [] /\ positionsRead (trace run) = []
        /\ cellsWritten (trace run) = []).
Proof.
  cbn zeta. unfold execute.
  destruct pIn as [inArgs|].
  2:{ cbn [outcome trace].
      split; [split; auto |].
      split; [split; [discriminate | intros (ia & oa & Hi & _); discriminate Hi] |].
      split; [split; [discriminate | intros (ia & oa & pc & Hi & _); discriminate Hi] |].
      intros _. cbn. auto. }
  destruct pOut as [outArgs|].
  2:{ cbn [outcome trace].
      split; [split; auto |].
      split; [split; [discriminate | intros (ia & oa & _ & Hi & _); discriminate Hi] |].
      split; [split; [discriminate | intros (ia & oa & pc & _ & Hi & _); discriminate Hi] |].
      intros _. cbn. auto. }
  destruct (getRasterElement DataElementArg inArgs) as [pCube|] eqn:Hin.
  2:{ cbn [outcome trace].
      destruct (updateProgress_silent (getProgress ProgressArg inArgs)
                  "A raster cube must be specified." 0 ERRORS) as (Hp & Hw & Hq).
      split; [split; [discriminate | intros [H | H]; discriminate H] |].
      split; [split; [intros _; exists inArgs, outArgs; auto | reflexivity] |].
      split; [split; [discriminate |] |].
      - intros (ia & oa & pc & Hi & _ & Hg & _). injection Hi as <-. congruence.
      - intros _. cbn. rewrite Hp, Hw, Hq. auto. }
  destruct (is_complex (getDataType (getDataDescriptor pCube))) eqn:Hc.
  { cbn [outcome trace].
    destruct (updateProgress_silent (getProgress ProgressArg inArgs)
                "Edge detection cannot be performed on complex types." 0 ERRORS)
      as (Hp & Hw & Hq).
    split; [split; [discriminate | intros [H | H]; discriminate H] |].
    split; [split; [discriminate |] |].
    { intros (ia & oa & Hi & _ & Hg). injection Hi as <-. congruence. }
    split; [split; [discriminate |] |].
    - intros (ia & oa & pc & Hi & _ & Hg & Hc' & _). injection Hi as <-.
      rewrite Hin in Hg. injection Hg as <-. unfold encodingOf in Hc'. congruence.
    - intros _. cbn. rewrite Hp, Hw, Hq. auto. }
  unfold createRasterElement. destruct (elementCreated h) eqn:Hcr.
  - set (cube := {| getName := _; getDataDescriptor := _; cells := _ |}).
    pose proof (rowLoop_outcome fpcast h (getProgress ProgressArg inArgs) pCube
                  (Z.to_nat (getRowCount (getDataDescriptor pCube))) 0 (initialState cube)) as Ho.
    cbn zeta in Ho.
    destruct (rowLoop _ _ _ _ _ _ _) as [[o ts] st]. cbn [fst] in Ho.
    rewrite conclude_outcome.
    assert (Hout : forall e, e <> ViewFailed -> e <> AccessorInvalid ->
              match o with
              | Completed => if negb (isBatch h) && negb (viewCreated h)
                             then Failed ViewFailed else Completed
              | _ => o
              end <> Failed e).
    { intros e H1 H2. destruct Ho as [-> | [-> | ->]]; try discriminate.
      - destruct (negb (isBatch h) && negb (viewCreated h)); [|discriminate].
        intros H. injection H as <-. now apply H1.
      - intros H. injection H as <-. now apply H2. }
    split; [split; [intros H; exfalso; revert H; apply Hout; discriminate
                   | intros [H | H]; discriminate H] |].
    split; [split; [intros H; exfalso; revert H; apply Hout; discriminate |] |].
    { intros (ia & oa & Hi & _ & Hg). injection Hi as <-. congruence. }
    split; [split; [intros H; exfalso; revert H; apply Hout; discriminate |] |].
    + intros (ia & oa & pc & Hi & _ & _ & _ & H). discriminate H.
    + intros [H | [H | [H | H]]]; exfalso; revert H; apply Hout; discriminate.
  - cbn [outcome trace].
    destruct (updateProgress_silent (getProgress ProgressArg inArgs)
                "A raster cube could not be created." 0 ERRORS) as (Hp & Hw & Hq).
    split; [split; [discriminate | intros [H | H]; discriminate H] |].
    split; [split; [discriminate |] |].
    { intros (ia & oa & Hi & _ & Hg). injection Hi as <-. congruence. }
    split; [split; [intros _; exists inArgs, outArgs, pCube; repeat split; auto
                   | reflexivity] |].
    intros _. cbn. rewrite Hp, Hw, Hq. auto.
Qed.

(* ================================================================= *)
(** ** The progress percentage *)

Lemma percentDone_range row rows :
  0 <= row < rows -> rows < 4294967296 ->
  0 <= to_uint (row * 100) / rows <= 99.
Proof.
  intros Hr Hrows. unfold to_uint.
  assert (Hx : 0 <= (row * 100) mod 4294967296 <= row * 100).
  { split; [apply Z.mod_pos_bound; lia | apply Z.mod_le; lia]. }
  split; [apply Z.div_pos; lia |].
  assert ((row * 100) mod 4294967296 / rows < 100); [|lia].
  apply Z.div_lt_upper_bound; lia.
Qed.

(** X11.  The first event of a row, when a reporter is supplied, is the report
    "Calculating result" with a percentage between 0 and 99, whatever the
    size of the raster; for a raster of at most 42,949,672 rows it is
    [row * 100 / rowCount] exactly, and it never decreases from one row to
    a later one. *)
Theorem progress_percentage fpcast h pCube todo row st :
  0 <= row < rowsOf pCube -> rowsOf pCube < 4294967296 ->
  let p := percentDone row (rowsOf pCube) in
  hd_error (snd (fst (rowLoop fpcast h true pCube (S todo) row st)))
  = Some (EvProgress "Calculating result" p NORMAL)
  /\ 0 <= p <= 99
  /\ (rowsOf pCube * 100 <= 4294967296 ->
        p = row * 100 / rowsOf pCube
        /\ forall row', row <= row' < rowsOf pCube ->
             p <= percentDone row' (rowsOf pCube)).
Proof.
  intros Hr Hrows. cbn zeta.
  assert (Hval : forall r, 0 <= r < rowsOf pCube ->
            percentDone r (rowsOf pCube) = to_uint (r * 100) / rowsOf pCube).
  { intros r Hrr. unfold percentDone. apply to_int_small.
    pose proof (percentDone_range r _ Hrr Hrows). unfold INT_MAX. lia. }
  split; [|split].
  - cbn [rowLoop updateProgress].
    change (to_int (to_uint (row * 100) / getRowCount (getDataDescriptor pCube)))
      with (percentDone row (rowsOf pCube)).
    destruct (isAborted h row); [reflexivity |].
    destruct (negb _); [reflexivity |].
    destruct (columnLoop _ _ _ _ _ _) as [t1 st1].
    destruct (rowLoop _ _ _ _ _ _ _) as [[o t2] st3]. reflexivity.
  - rewrite (Hval row Hr). now apply percentDone_range.
  - intros Hsmall.
    assert (Hexact : forall r, 0 <= r < rowsOf pCube ->
              percentDone r (rowsOf pCube) = r * 100 / rowsOf pCube).
    { intros r Hrr. rewrite (Hval r Hrr). now rewrite to_uint_small by lia. }
    split; [now apply Hexact |].
    intros row' Hr'. rewrite !Hexact by lia.
    apply Z.div_le_mono; lia.
Qed.

(** X12.  In a raster of more than 42,949,673 rows the product [row * 100] of
    line 159 overflows [unsigned int] at row 42,949,673: the percentage
    reported for that row is 0, after a percentage of at least 1 for the
    row before. *)
Theorem progress_wraps fpcast h pCube todo st st' :
  wrapRow < rowsOf pCube <= INT_MAX ->
  hd_error (snd (fst (rowLoop fpcast h true pCube (S todo) wrapRow st)))
  = Some (EvProgress "Calculating result" 0 NORMAL)
  /\ exists p,
       1 <= p
       /\ hd_error (snd (fst (rowLoop fpcast h true pCube (S todo) (wrapRow - 1) st')))
          = Some (EvProgress "Calculating result" p NORMAL).
Proof.
  unfold wrapRow, INT_MAX. intros Hrows.
  assert (Hhd : forall r s,
            hd_error (snd (fst (rowLoop fpcast h true pCube (S todo) r s)))
            = Some (EvProgress "Calculating result" (percentDone r (rowsOf pCube)) NORMAL)).
  { intros r s. cbn [rowLoop updateProgress].
    change (to_int (to_uint (r * 100) / getRowCount (getDataDescriptor pCube)))
      with (percentDone r (rowsOf pCube)).
    destruct (isAborted h r); [reflexivity |].
    destruct (negb _); [reflexivity |].
    destruct (columnLoop _ _ _ _ _ _) as [t1 st1].
    destruct (rowLoop _ _ _ _ _ _ _) as [[o t2] st3]. reflexivity. }
  split.
  - rewrite Hhd. do 2 f_equal. unfold percentDone.
    change (to_uint (42949673 * 100)) with 4.
    rewrite Z.div_small by lia. reflexivity.
  - exists (percentDone (42949673 - 1) (rowsOf pCube)). split; [|apply Hhd].
    unfold percentDone. change (to_uint ((42949673 - 1) * 100)) with 4294967200.
    assert (1 <= 4294967200 / rowsOf pCube) by (apply Z.div_le_lower_bound; lia).
    assert (4294967200 / rowsOf pCube < 100) by (apply Z.div_lt_upper_bound; lia).
    rewrite to_int_small by (unfold INT_MAX; lia). lia.
Qed.

(* ================================================================= *)
(** ** What the kernel guards against *)

Lemma isValid_iff d a :
  Accessor.isValid d a = true
  <-> 0 <= acc_row a < getRowCount d /\ 0 <= acc_col a < getColumnCount d.
Proof.
  unfold Accessor.isValid. rewrite !andb_true_iff, !Z.leb_le, !Z.ltb_lt. lia.
Qed.

(** X13.  Whatever its arguments, wrapped or not, the kernel delivers a value
    only when the pixel and the three neighbour positions it computed all
    lie inside the raster, and the value is then the cast magnitude of the
    four samples read there; for a pixel outside the raster it delivers
    nothing. *)
Theorem kernel_guard fpcast T src a row col rowSize colSize :
  let nc := Z.min (int_add col 1) (int_sub colSize 1) in
  let nr := Z.min (int_add row 1) (int_sub rowSize 1) in
  let r := edgeDetection fpcast T src a row col rowSize colSize in
  (forall v, snd r = Some v ->
     inBounds src (row, col) /\ inBounds src (row, nc)
     /\ inBounds src (nr, col) /\ inBounds src (nr, nc)
     /\ v = static_cast fpcast T
              (magnitude (cells src row col) (cells src row nc)
                 (cells src nr col) (cells src nr nc)))
  /\ (~ inBounds src (row, col) -> snd r = None).
Proof.
  cbn zeta. unfold edgeDetection, edgeDetection_body, inBounds, rowsOf, columnsOf.
  cbn [fst snd].
  set (nc := Z.min (int_add col 1) (int_sub colSize 1)).
  set (nr := Z.min (int_add row 1) (int_sub rowSize 1)).
  destruct (Accessor.isValid _ (Accessor.toPixel row nc a)) eqn:V1; cbn [negb].
  2:{ split; [intros v H; discriminate H | reflexivity]. }
  destruct (Accessor.isValid _ (Accessor.toPixel nr col _)) eqn:V2; cbn [negb].
  2:{ split; [intros v H; discriminate H | reflexivity]. }
  destruct (Accessor.isValid _ (Accessor.toPixel nr nc _)) eqn:V3; cbn [negb].
  2:{ split; [intros v H; discriminate H | reflexivity]. }
  destruct (Accessor.isValid _ (Accessor.toPixel row col _)) eqn:V4; cbn [negb].
  2:{ split; [intros v H; discriminate H | reflexivity]. }
  apply isValid_iff in V1, V2, V3, V4. cbn [Accessor.toPixel acc_row acc_col] in *.
  split.
  - intros v H. cbn [snd] in H. injection H as <-.
    repeat split; try lia.
  - intros Hout. exfalso. apply Hout. lia.
Qed.

(* ================================================================= *)
(** ** The sign of the result *)

Lemma truncated_sqrt_nonneg x z :
  Double.truncate (PrimFloat.sqrt x) = Some z -> 0 <= z.
Proof.
  unfold Double.truncate. rewrite sqrt_spec.
  unfold SF64sqrt, SFsqrt.
  destruct (Prim2SF x) as [s | s | | s m e].
  - intros H. injection H as <-. lia.
  - destruct s; discriminate.
  - discriminate.
  - destruct s; [discriminate |].
    destruct (SFsqrt_core_binary prec emax (Z.pos m) e) as [[mz ez] lz].
    unfold binary_round_aux.
    destruct (shr_fexp prec emax mz ez lz) as [mrs' e'].
    destruct (shr_fexp prec emax _ e' loc_Exact) as [mrs'' e''].
    destruct (shr_m mrs'') as [|p|p]; try discriminate.
    + intros H. injection H as <-. lia.
    + destruct (e'' <=? emax - prec); [|discriminate].
      intros H. injection H as <-. cbn [cond_Zopp].
      apply Z.shiftl_nonneg. lia.
Qed.

(** X14.  For an integer sample type the kernel never stores a negative value
    of its own: the stored integer is the truncated magnitude, which is
    not negative, or the platform's result of an unrepresentable
    conversion. *)
Theorem stored_sample_not_negative fpcast T center right down lowerRight z :
  is_integer_type T = true ->
  static_cast fpcast T (magnitude center right down lowerRight) = IntSample z ->
  (0 <= z <= int_max T
   /\ Double.truncate (magnitude center right down lowerRight) = Some z)
  \/ z = fpcast T (magnitude center right down lowerRight).
Proof.
  intros Hint. unfold static_cast.
  destruct (Double.truncate (magnitude center right down lowerRight)) as [t|] eqn:Ht.
  - pose proof (truncated_sqrt_nonneg _ _ Ht) as Hnn.
    destruct ((int_min T <=? t) && (t <=? int_max T)) eqn:Hr;
      destruct T; try discriminate Hint; intros H; injection H as <-; auto;
      left; apply andb_prop in Hr; destruct Hr as [_ Hr]; apply Z.leb_le in Hr; auto.
  - destruct T; try discriminate Hint; intros H; injection H as <-; auto.
Qed.

(* ================================================================= *)
(** ** What a run writes *)

Lemma zseq_NoDup n : forall lo, NoDup (zseq lo n).
Proof.
  induction n as [|n IH]; intros lo; [constructor |].
  cbn [zseq]. constructor; [|apply IH].
  rewrite zseq_In. lia.
Qed.

Lemma cellsOfRows_NoDup cols n : forall lo, NoDup (cellsOfRows cols lo n).
Proof.
  induction n as [|n IH]; intros lo; [constructor |].
  unfold cellsOfRows in *. cbn [zseq flat_map].
  apply NoDup_app.
  - apply NoDup_map_NoDup_ForallPairs; [|apply zseq_NoDup].
    intros x y _ _ H. now injection H.
  - apply IH.
  - intros [r c] Hin Hin'. apply in_map_iff in Hin. destruct Hin as (c' & Heq & _).
    injection Heq as <- <-.
    apply (cellsOfRows_In cols (lo + 1) n) in Hin'. lia.
Qed.

(** X15.  Whatever its outcome, a run on an addressable raster stores into
    cells inside the raster only, never twice into the same cell, and what
    it has stored into is a number of whole rows from row 0 on. *)
Theorem run_writes_whole_rows fpcast h inArgs pOut pCube :
  getRasterElement DataElementArg inArgs = Some pCube ->
  addressable pCube ->
  let written := cellsWritten (trace (execute fpcast h (Some inArgs) pOut)) in
  Forall (inBounds pCube) written
  /\ NoDup written
  /\ exists k, (k <= Z.to_nat (rowsOf pCube))%nat
               /\ written = cellsOfRows (columnsOf pCube) 0 k.
Proof.
  intros Hin Ha. cbn zeta.
  assert (Hk : exists k, (k <= Z.to_nat (rowsOf pCube))%nat
             /\ cellsWritten (trace (execute fpcast h (Some inArgs) pOut))
                = cellsOfRows (columnsOf pCube) 0 k).
  { destruct pOut as [outArgs|]; [|exists O; split; [lia | reflexivity]].
    destruct (is_complex (encodingOf pCube)) eqn:Hc.
    { exists O. split; [lia |].
      unfold execute. unfold encodingOf in Hc. rewrite Hin, Hc. cbn [trace app cellsWritten].
      now destruct (updateProgress_silent (getProgress ProgressArg inArgs)
                      "Edge detection cannot be performed on complex types." 0 ERRORS)
        as (_ & -> & _). }
    destruct (elementCreated h) eqn:Hcr.
    2:{ exists O. split; [lia |].
        unfold execute, createRasterElement. unfold encodingOf in Hc. rewrite Hin, Hc, Hcr.
        cbn [trace app cellsWritten].
        now destruct (updateProgress_silent (getProgress ProgressArg inArgs)
                        "A raster cube could not be created." 0 ERRORS) as (_ & -> & _). }
    rewrite (execute_scanned fpcast h inArgs outArgs pCube Hin Hc Hcr).
    destruct (conclude_quiet h (getProgress ProgressArg inArgs) outArgs (creationTrace h pCube)
                (scanOf fpcast h inArgs pCube)) as [_ ->].
    cbn [creationTrace cellsWritten app].
    destruct (supported_dispatched _ Hc) as [T HT].
    destruct (Z_lt_le_dec 0 (columnsOf pCube)) as [Hpos|Hzero].
    - destruct (scanOf_spec fpcast h inArgs pCube T Hin HT Ha Hpos) as (_ & -> & _).
      exists (rowsDone h 0 (Z.to_nat (rowsOf pCube))).
      split; [apply rowsDone_le |].
      rewrite cellsWritten_app, cellsWritten_rows.
      destruct (_ <? _)%nat; [|now rewrite app_nil_r].
      destruct (abortTrace_quiet (getProgress ProgressArg inArgs) pCube
                  (Z.of_nat (rowsDone h 0 (Z.to_nat (rowsOf pCube))))) as [-> _].
      now rewrite app_nil_r.
    - exists O. split; [lia |]. unfold scanOf.
      now destruct (rowLoop_no_column fpcast h (getProgress ProgressArg inArgs) pCube
                      (Z.to_nat (rowsOf pCube)) 0 (initialState (freshElement h pCube)) Hzero)
        as (_ & -> & _). }
  destruct Hk as (k & Hle & Hw). rewrite Hw.
  split; [|split; [apply cellsOfRows_NoDup | exists k; auto]].
  apply Forall_forall. intros [r c] Hin'.
  apply cellsOfRows_In in Hin'. unfold inBounds. cbn [fst snd].
  destruct Ha as [Ar _]. unfold fits_int in Ar. lia.
Qed.

(* ================================================================= *)
(** ** Rasters without an edge *)

(** X16.  On a completed run over an addressable raster whose cells all hold
    the same finite sample, every cell of the result is zero. *)
Theorem flat_raster_gives_zero fpcast h inArgs pOut pCube T s row col :
  getRasterElement DataElementArg inArgs = Some pCube ->
  switchOnEncoding (encodingOf pCube) = Some T ->
  addressable pCube ->
  (forall r c, 0 <= r < rowsOf pCube -> 0 <= c < columnsOf pCube -> cells pCube r c = s) ->
  finite_sample s = true ->
  outcome (execute fpcast h (Some inArgs) pOut) = Completed ->
  0 <= row < rowsOf pCube -> 0 <= col < columnsOf pCube ->
  option_map (fun out => cells out row col)
    (resultElement (execute fpcast h (Some inArgs) pOut))
  = Some (zeroSample T).
Proof.
  intros Hin HT Ha Hflat Hfin Ho Hr Hc.
  destruct (execute_Completed_inv fpcast h _ _ Ho)
    as (ia & oa & pc & _ & _ & _ & _ & _ & _ & Hres & _).
  rewrite Hres. cbn [option_map]. f_equal.
  rewrite (completed_cells fpcast h inArgs pCube T Hin HT Ha pOut _ row col Ho Hres Hr Hc).
  unfold kernelAt.
  pose proof (nextIndex_bounds row (rowsOf pCube) Hr) as Br.
  pose proof (nextIndex_bounds col (columnsOf pCube) Hc) as Bc.
  rewrite !Hflat by lia.
  rewrite (magnitude_flat s Hfin). apply static_cast_zero.
Qed.

(* ================================================================= *)
(** ** Overflow of 8-bit samples *)

(** The truncated magnitude of four 8-bit samples. *)
Lemma byte_magnitude_truncated T center right down lowerRight :
  T = signed_char \/ T = unsigned_char ->
  has_type T (IntSample center) -> has_type T (IntSample right) ->
  has_type T (IntSample down) -> has_type T (IntSample lowerRight) ->
  Double.truncate (magnitude (IntSample center) (IntSample right) (IntSample down)
                     (IntSample lowerRight))
  = Some (Z.sqrt ((center - lowerRight) * (center - lowerRight)
                  + (right - down) * (right - down))).
Proof.
  intros HT Ha Hb Hc Hd.
  assert (Hr : forall x, has_type T (IntSample x) -> -128 <= x < -128 + Z.of_nat 384).
  { intros x Hx. destruct HT as [-> | ->]; cbn in Hx; lia. }
  apply Hr in Ha, Hb, Hc, Hd.
  pose proof diff_checks as Hdiff. pose proof square_checks as Hsq.
  pose proof norm_checks as Hn.
  rewrite forallb_forall in Hdiff, Hsq, Hn.
  assert (Dx : forall x y,
            -128 <= x < -128 + Z.of_nat 384 -> -128 <= y < -128 + Z.of_nat 384 ->
            (1.0 * Double.of_Z x + -1.0 * Double.of_Z y)%float = Double.of_Z (x - y)).
  { intros x y Hx Hy. specialize (Hdiff x (proj2 (zseq_In _ _ _) Hx)).
    rewrite forallb_forall in Hdiff. specialize (Hdiff y (proj2 (zseq_In _ _ _) Hy)).
    now apply FloatAxioms.Leibniz.eqb_spec in Hdiff. }
  assert (Sx : forall g, -383 <= g <= 383 ->
            (Double.of_Z g * Double.of_Z g)%float = Double.of_Z (g * g)).
  { intros g Hg. specialize (Hsq g (proj2 (zseq_In (-383) 767 g) ltac:(lia))).
    now apply FloatAxioms.Leibniz.eqb_spec in Hsq. }
  assert (Qx : forall g, -383 <= g <= 383 -> In (g * g) (squares 384)).
  { intros g Hg. unfold squares. apply in_map_iff. exists (Z.abs g).
    split; [apply Z.abs_square |]. apply (zseq_In 0 384). lia. }
  unfold magnitude, to_double.
  rewrite (Dx center lowerRight Ha Hd), (Dx right down Hb Hc).
  rewrite !Sx by lia.
  specialize (Hn _ (Qx (center - lowerRight) ltac:(lia))). rewrite forallb_forall in Hn.
  specialize (Hn _ (Qx (right - down) ltac:(lia))). unfold norm_exact in Hn.
  destruct (Double.truncate _) as [z|]; [|discriminate Hn].
  apply Z.eqb_eq in Hn. now subst z.
Qed.

(** X17.  For [signed char] and [unsigned char] samples the kernel overflows
    the sample type as soon as [gx^2 + gy^2] reaches [(max + 1)^2]: the
    conversion of line 63 is then an unrepresentable one, and what is
    stored is whatever the platform makes of it. *)
Theorem byte_kernel_overflow fpcast T center right down lowerRight :
  T = signed_char \/ T = unsigned_char ->
  has_type T (IntSample center) -> has_type T (IntSample right) ->
  has_type T (IntSample down) -> has_type T (IntSample lowerRight) ->
  let gx := center - lowerRight in
  let gy := right - down in
  let m := magnitude (IntSample center) (IntSample right) (IntSample down)
             (IntSample lowerRight) in
  (int_max T + 1) * (int_max T + 1) <= gx * gx + gy * gy ->
  static_cast fpcast T m = IntSample (fpcast T m).
Proof.
  intros HT Ha Hb Hc Hd gx gy m Hbig.
  pose proof (byte_magnitude_truncated T center right down lowerRight HT Ha Hb Hc Hd) as Ht.
  fold gx gy m in Ht.
  assert (Hs : int_max T + 1 <= Z.sqrt (gx * gx + gy * gy)).
  { apply Z.sqrt_le_square; [nia | destruct HT as [-> | ->]; cbn; lia | exact Hbig]. }
  unfold static_cast. rewrite Ht.
  destruct HT as [-> | ->]; cbn [int_min int_max] in *;
    (replace ((_ <=? _) && (_ <=? _)) with false; [reflexivity |];
     symmetry; apply andb_false_intro2; apply Z.leb_gt; lia).
Qed.

(* ================================================================= *)
(** ** The progress reporter *)

Lemma filter_all {A} (f : A -> bool) (l : list A) :
  Forall (fun x => f x = true) l -> filter f l = l.
Proof.
  induction 1 as [|x l Hx _ IH]; [reflexivity |].
  cbn [filter]. now rewrite Hx, IH.
Qed.

Lemma updateProgress_dropped p msg pct lvl :
  filter not_progress (updateProgress p msg pct lvl) = [].
Proof. destruct p; reflexivity. Qed.

Lemma pixel_not_progress l :
  Forall (fun ev => pixel_event ev = true) l -> filter not_progress l = l.
Proof.
  intros H. apply filter_all. eapply Forall_impl; [|exact H].
  intros ev Hev. destruct ev; try discriminate Hev; reflexivity.
Qed.

Section Reporter.

Variable fpcast : CType -> float -> Z.
Variable h : Host.
Variable pProgress : bool.
Variable pCube : RasterElement.

(** The row loop without a reporter does what the row loop with one
    does, less the reports. *)
Lemma rowLoop_reporter todo : forall row st,
  let r := rowLoop fpcast h pProgress pCube todo row st in
  let r' := rowLoop fpcast h false pCube todo row st in
  fst (fst r') = fst (fst r) /\ snd r' = snd r
  /\ snd (fst r') = filter not_progress (snd (fst r)).
Proof.
  induction todo as [|n IH]; intros row st; cbn zeta; cbn [rowLoop].
  - cbn. auto.
  - cbn [updateProgress app].
    destruct (isAborted h row).
    + cbn [fst snd]. rewrite !filter_app, !updateProgress_dropped.
      cbn [app filter not_progress is_progress negb].
      rewrite updateProgress_dropped. auto.
    + destruct (negb _).
      * cbn [fst snd]. rewrite !filter_app, !updateProgress_dropped.
        cbn [app filter not_progress is_progress negb].
        rewrite updateProgress_dropped. auto.
      * pose proof (columnLoop_events fpcast pCube row
                      (Z.to_nat (getColumnCount (getDataDescriptor pCube))) 0 st) as Hc.
        destruct (columnLoop _ _ _ _ _ _) as [t1 st1]. cbn [fst] in Hc.
        match goal with |- context [rowLoop _ _ false _ n ?r ?s] => specialize (IH r s) end.
        cbn zeta in IH.
        destruct (rowLoop _ _ false _ _ _ _) as [[o' t2'] st3'].
        destruct (rowLoop _ _ pProgress _ _ _ _) as [[o t2] st3].
        cbn [fst snd] in *. destruct IH as (-> & -> & ->).
        rewrite filter_app, updateProgress_dropped.
        cbn [app filter not_progress is_progress negb].
        rewrite filter_app, (pixel_not_progress _ Hc).
        cbn [app filter not_progress is_progress negb]. auto.
Qed.

Lemma conclude_reporter outArgs tc scan scan' :
  fst (fst scan') = fst (fst scan) -> snd scan' = snd scan ->
  snd (fst scan') = filter not_progress (snd (fst scan)) ->
  let r := conclude h pProgress outArgs tc scan in
  let r' := conclude h false outArgs (filter not_progress tc) scan' in
  trace r' = filter not_progress (trace r)
  /\ returned r' = returned r /\ outcome r' = outcome r
  /\ outArgList r' = outArgList r /\ resultElement r' = resultElement r.
Proof.
  destruct scan as [[o ts] st], scan' as [[o' ts'] st']. cbn [fst snd].
  intros -> -> ->. cbn zeta. unfold conclude.
  destruct o; cbn [trace returned outcome outArgList resultElement];
    try (rewrite !filter_app; auto).
  destruct (negb (isBatch h) && negb (viewCreated h)).
  - cbn [trace returned outcome outArgList resultElement updateProgress].
    rewrite !filter_app, updateProgress_dropped.
    destruct (isBatch h), (viewCreated h); cbn; rewrite ?app_nil_r; auto.
  - destruct (setPlugInArgValue _ _ _) as [stored outArgs'].
    cbn [trace returned outcome outArgList resultElement updateProgress].
    rewrite !filter_app, updateProgress_dropped.
    destruct (isBatch h), (viewCreated h); cbn; rewrite ?app_nil_r; auto.
Qed.

End Reporter.

(** X18.  Supplying a progress reporter changes nothing but the reports: a run
    without one leaves the trace of the run with one less its progress
    reports, and returns the same value, outcome, output argument list and
    result element. *)
Theorem reporter_only_adds_reports fpcast h inArgs inArgs' pOut :
  getRasterElement DataElementArg inArgs' = getRasterElement DataElementArg inArgs ->
  getProgress ProgressArg inArgs' = false ->
  let r := execute fpcast h (Some inArgs) pOut in
  let r' := execute fpcast h (Some inArgs') pOut in
  trace r' = filter not_progress (trace r)
  /\ returned r' = returned r /\ outcome r' = outcome r
  /\ outArgList r' = outArgList r /\ resultElement r' = resultElement r.
Proof.
  intros Hsame Hnone. cbn zeta.
  destruct pOut as [outArgs|]; [|cbn; auto].
  unfold execute. rewrite Hsame, Hnone.
  destruct (getRasterElement DataElementArg inArgs) as [pCube|].
  2:{ cbn [trace returned outcome outArgList resultElement updateProgress].
      rewrite filter_app, updateProgress_dropped. auto. }
  destruct (is_complex _).
  { cbn [trace returned outcome outArgList resultElement updateProgress].
    rewrite filter_app, updateProgress_dropped. auto. }
  destruct (createRasterElement _ _ _ _ _) as [cube|].
  2:{ cbn [trace returned outcome outArgList resultElement updateProgress].
      rewrite !filter_app, updateProgress_dropped. auto. }
  destruct (rowLoop_reporter fpcast h (getProgress ProgressArg inArgs) pCube
              (Z.to_nat (getRowCount (getDataDescriptor pCube))) 0 (initialState cube))
    as (Ho & Hst & Ht).
  exact (conclude_reporter h (getProgress ProgressArg inArgs) outArgs
           [EvCreateRasterElement (resultName pCube) (getRowCount (getDataDescriptor pCube))
              (getColumnCount (getDataDescriptor pCube)) (getDataType (getDataDescriptor pCube))
              (elementCreated h)] _ _ Ho Hst Ht).
Qed.

Lemma progress_columns fpcast T src row n : forall lo,
  filter is_progress (columnsTrace fpcast T src row lo n) = [].
Proof.
  induction n as [|n IH]; intros lo; [reflexivity |].
  unfold columnsTrace in *. cbn [zseq flat_map].
  rewrite filter_app, IH. reflexivity.
Qed.

Lemma progress_rows fpcast p T src n : forall lo,
  filter is_progress (rowsTrace fpcast p T src lo n)
  = if p then map (fun r => EvProgress "Calculating result" (percentDone r (rowsOf src)) NORMAL)
                (zseq lo n)
    else [].
Proof.
  induction n as [|n IH]; intros lo; [now destruct p |].
  unfold rowsTrace in *. cbn [zseq flat_map map].
  rewrite filter_app, IH. unfold rowTrace. rewrite !filter_app, progress_columns.
  destruct p; reflexivity.
Qed.

(** X19.  The progress reports of a completed run with a reporter: one
    "Calculating result" per row, in row order, with the percentage of
    that row, then "Edge Detection is complete." at 100; a raster without
    a row gets the last report only. *)
Theorem completed_run_reports fpcast h inArgs pOut pCube :
  getRasterElement DataElementArg inArgs = Some pCube ->
  getProgress ProgressArg inArgs = true ->
  addressable pCube ->
  outcome (execute fpcast h (Some inArgs) pOut) = Completed ->
  filter is_progress (trace (execute fpcast h (Some inArgs) pOut))
  = map (fun r => EvProgress "Calculating result" (percentDone r (rowsOf pCube)) NORMAL)
      (zseq 0 (Z.to_nat (rowsOf pCube)))
    ++ [EvProgress "Edge Detection is complete." 100 NORMAL].
Proof.
  intros Hin Hp Ha Ho.
  destruct (execute_Completed_inv fpcast h _ _ Ho)
    as (ia & outArgs & pc & Hi & -> & Hin' & Hc & Hcr & Hs & _).
  injection Hi as <-. rewrite Hin in Hin'. injection Hin' as <-.
  assert (Hts : filter is_progress (snd (fst (scanOf fpcast h inArgs pCube)))
                = map (fun r => EvProgress "Calculating result"
                                  (percentDone r (rowsOf pCube)) NORMAL)
                    (zseq 0 (Z.to_nat (rowsOf pCube)))).
  { destruct (supported_dispatched _ Hc) as [T HT].
    destruct (Z_lt_le_dec 0 (columnsOf pCube)) as [Hpos|Hzero].
    - destruct (scanOf_spec fpcast h inArgs pCube T Hin HT Ha Hpos) as (Hout & -> & _).
      rewrite Hs in Hout.
      pose proof (rowsDone_le h 0 (Z.to_nat (rowsOf pCube))) as Hle.
      destruct (Nat.ltb_spec (rowsDone h 0 (Z.to_nat (rowsOf pCube)))
                  (Z.to_nat (rowsOf pCube))) as [Hlt|Hge]; [discriminate Hout |].
      rewrite app_nil_r, progress_rows, Hp.
      replace (rowsDone h 0 (Z.to_nat (rowsOf pCube))) with (Z.to_nat (rowsOf pCube)) by lia.
      reflexivity.
    - unfold scanOf in *.
      destruct (rowLoop_no_column fpcast h (getProgress ProgressArg inArgs) pCube
                  (Z.to_nat (rowsOf pCube)) 0 (initialState (freshElement h pCube)) Hzero)
        as (_ & _ & Hnone).
      rewrite (Hnone Hs). reflexivity. }
  rewrite (execute_scanned fpcast h inArgs outArgs pCube Hin Hc Hcr) in Ho |- *.
  destruct (scanOf fpcast h inArgs pCube) as [[o ts] st]. cbn [fst snd] in *. subst o.
  rewrite conclude_outcome in Ho. unfold conclude.
  destruct (negb (isBatch h) && negb (viewCreated h)); [discriminate Ho |].
  destruct (setPlugInArgValue _ _ _) as [stored outArgs'].
  cbn [trace]. rewrite !filter_app, Hts, Hp.
  destruct (isBatch h), (viewCreated h); reflexivity.
Qed.

(* ================================================================= *)
(** ** The declared inputs *)

(** X20.  The two inputs [execute] reads are the two [getInputSpecification]
    declares: an element and a reporter stored under the declared names
    are the ones [execute] finds, so that the run gets past the check of
    line 113, while on the list as declared, with nothing stored, it
    fails there. *)
Theorem declared_inputs_are_read fpcast h withProgress r outArgs :
  getRasterElement DataElementArg (suppliedArgs withProgress r) = Some r
  /\ getProgress ProgressArg (suppliedArgs withProgress r) = withProgress
  /\ outcome (execute fpcast h (Some (suppliedArgs withProgress r)) (Some outArgs))
     <> Failed InvalidInput
  /\ outcome (execute fpcast h (Some getInputSpecification) (Some outArgs))
     = Failed InvalidInput
  /\ trace (execute fpcast h (Some getInputSpecification) (Some outArgs))
     = [EvFinalize Failure "A raster cube must be specified."].
Proof.
  assert (Hget : getRasterElement DataElementArg (suppliedArgs withProgress r) = Some r)
    by (destruct withProgress; reflexivity).
  split; [exact Hget |].
  split; [destruct withProgress; reflexivity |].
  split; [|split; reflexivity].
  unfold execute. rewrite Hget.
  destruct (is_complex _); [discriminate |].
  destruct (createRasterElement _ _ _ _ _) as [cube|]; [|discriminate].
  match goal with |- context [conclude _ _ _ _ ?s] =>
    destruct s as [[o ts] st] eqn:Hs end.
  rewrite conclude_outcome.
  match type of Hs with ?l = _ =>
    assert (Ho : fst (fst l) = o) by (rewrite Hs; reflexivity) end.
  match type of Ho with fst (fst (rowLoop _ _ ?p ?c ?n ?row ?s)) = _ =>
    pose proof (rowLoop_outcome fpcast h p c n row s) as Hcases end.
  cbn zeta in Hcases. rewrite Ho in Hcases.
  destruct Hcases as [-> | [-> | ->]]; try discriminate.
  destruct (negb (isBatch h) && negb (viewCreated h)); discriminate.
Qed.

(** X21.  The magnitude of line 61 is never below zero, whatever the four
    samples: it is not negative, or it is NaN. *)
Theorem magnitude_not_negative center right down lowerRight :
  (magnitude center right down lowerRight <? 0)%float = false.
Proof.
  unfold magnitude. rewrite ltb_spec, sqrt_spec.
  change (Prim2SF 0) with (S754_zero false).
  unfold SF64sqrt, SFsqrt.
  destruct (Prim2SF _) as [s | s | | s m e]; try reflexivity.
  - destruct s; reflexivity.
  - destruct s; [reflexivity |].
    destruct (SFsqrt_core_binary prec emax (Z.pos m) e) as [[mz ez] lz].
    unfold binary_round_aux.
    destruct (shr_fexp prec emax mz ez lz) as [mrs' e'].
    destruct (shr_fexp prec emax _ e' loc_Exact) as [mrs'' e''].
    destruct (shr_m mrs'') as [|p|p]; try reflexivity.
    destruct (e'' <=? emax - prec); reflexivity.
Qed.

(* ================================================================= *)
(** ** Further instances *)

Lemma desktop_only_after_scan_witness :
  filter is_desktop
    (trace (execute examplePlatform (interactiveHost true)
              (Some (exampleArgs (exampleRaster INT4SBYTES))) (Some getOutputSpecification)))
  = [EvCreateWindow "scene_Edge_Detection_Result" true;
     EvSetPrimaryRasterElement "scene_Edge_Detection_Result";
     EvCreateLayer "scene_Edge_Detection_Result"].
Proof.
  exact (desktop_only_after_scan examplePlatform (interactiveHost true)
           (exampleArgs (exampleRaster INT4SBYTES)) (Some getOutputSpecification)
           (exampleRaster INT4SBYTES) eq_refl).
Defined.

Lemma outcome_of_run_witness :
  outcome (exampleRun (abortingHost 1) (exampleRaster INT4SBYTES)) = Aborted
  <-> exists k, 0 <= k < rowsOf (exampleRaster INT4SBYTES)
                /\ isAborted (abortingHost 1) k = true
                /\ (0 < columnsOf (exampleRaster INT4SBYTES) \/ k = 0).
Proof.
  exact (proj1 (outcome_of_run examplePlatform (abortingHost 1)
                  (exampleArgs (exampleRaster INT4SBYTES)) getOutputSpecification
                  (exampleRaster INT4SBYTES) eq_refl eq_refl eq_refl
                  (exampleRaster_addressable INT4SBYTES))).
Defined.

Lemma progress_percentage_witness :
  0 <= percentDone 1 (rowsOf (exampleRaster INT4SBYTES)) <= 99.
Proof.
  refine (proj1 (proj2 (progress_percentage examplePlatform quietHost
                          (exampleRaster INT4SBYTES) 0 1
                          (initialState (exampleRaster INT4SBYTES)) _ _))).
  - cbn. lia.
  - cbn. lia.
Defined.

Lemma progress_wraps_witness :
  hd_error (snd (fst (rowLoop examplePlatform quietHost true
                        (flatRaster INT1UBYTE 50000000 1 (IntSample 0)) 1 wrapRow
                        (initialState (flatRaster INT1UBYTE 50000000 1 (IntSample 0))))))
  = Some (EvProgress "Calculating result" 0 NORMAL).
Proof.
  refine (proj1 (progress_wraps examplePlatform quietHost
                   (flatRaster INT1UBYTE 50000000 1 (IntSample 0)) 0
                   (initialState (flatRaster INT1UBYTE 50000000 1 (IntSample 0)))
                   (initialState (flatRaster INT1UBYTE 50000000 1 (IntSample 0))) _)).
  unfold wrapRow, INT_MAX. cbn. lia.
Defined.

Lemma stored_sample_not_negative_witness :
  (0 <= 31 <= int_max signed_int
   /\ Double.truncate (magnitude (IntSample 10) (IntSample 20) (IntSample 30) (IntSample 40))
      = Some 31)
  \/ 31 = examplePlatform signed_int
            (magnitude (IntSample 10) (IntSample 20) (IntSample 30) (IntSample 40)).
Proof.
  refine (stored_sample_not_negative examplePlatform signed_int (IntSample 10) (IntSample 20)
            (IntSample 30) (IntSample 40) 31 eq_refl _).
  vm_compute. reflexivity.
Defined.

Lemma run_writes_whole_rows_witness :
  NoDup (cellsWritten (trace (exampleRun (abortingHost 1) (exampleRaster INT4SBYTES)))).
Proof.
  exact (proj1 (proj2 (run_writes_whole_rows examplePlatform (abortingHost 1)
                         (exampleArgs (exampleRaster INT4SBYTES))
                         (Some getOutputSpecification) (exampleRaster INT4SBYTES) eq_refl
                         (exampleRaster_addressable INT4SBYTES)))).
Defined.

Lemma flat_raster_gives_zero_witness :
  option_map (fun out => cells out 0 1)
    (resultElement (exampleRun quietHost (flatRaster INT4SBYTES 2 2 (IntSample 7))))
  = Some (zeroSample signed_int).
Proof.
  refine (flat_raster_gives_zero examplePlatform quietHost
            (exampleArgs (flatRaster INT4SBYTES 2 2 (IntSample 7)))
            (Some getOutputSpecification) (flatRaster INT4SBYTES 2 2 (IntSample 7))
            signed_int (IntSample 7) 0 1 eq_refl eq_refl _ _ _ _ _ _).
  - unfold addressable, fits_int, INT_MAX. cbn. lia.
  - intros r c _ _. reflexivity.
  - vm_compute. reflexivity.
  - vm_compute. reflexivity.
  - cbn. lia.
  - cbn. lia.
Defined.

Lemma byte_kernel_overflow_witness :
  static_cast examplePlatform unsigned_char
    (magnitude (IntSample 255) (IntSample 255) (IntSample 0) (IntSample 0))
  = IntSample (examplePlatform unsigned_char
                 (magnitude (IntSample 255) (IntSample 255) (IntSample 0) (IntSample 0))).
Proof.
  refine (byte_kernel_overflow examplePlatform unsigned_char 255 255 0 0
            (or_intror eq_refl) _ _ _ _ _); cbn; lia.
Defined.

Lemma reporter_only_adds_reports_witness :
  outcome (execute examplePlatform quietHost
             (Some (suppliedArgs false (exampleRaster INT4SBYTES)))
             (Some getOutputSpecification))
  = outcome (exampleRun quietHost (exampleRaster INT4SBYTES)).
Proof.
  exact (proj1 (proj2 (proj2 (reporter_only_adds_reports examplePlatform quietHost
                                (exampleArgs (exampleRaster INT4SBYTES))
                                (suppliedArgs false (exampleRaster INT4SBYTES))
                                (Some getOutputSpecification) eq_refl eq_refl)))).
Defined.

Lemma completed_run_reports_witness :
  filter is_progress (trace (exampleRun quietHost (exampleRaster INT4SBYTES)))
  = [EvProgress "Calculating result" 0 NORMAL; EvProgress "Calculating result" 50 NORMAL;
     EvProgress "Edge Detection is complete." 100 NORMAL].
Proof.
  refine (completed_run_reports examplePlatform quietHost
            (exampleArgs (exampleRaster INT4SBYTES)) (Some getOutputSpecification)
            (exampleRaster INT4SBYTES) eq_refl eq_refl
            (exampleRaster_addressable INT4SBYTES) _).
  vm_compute. reflexivity.
Defined.

Lemma failure_leaves_nothing_witness :
  returned (exampleRun (abortingHost 0) (exampleRaster INT4SBYTES)) = false
  /\ resultElement (exampleRun (abortingHost 0) (exampleRaster INT4SBYTES)) = None
  /\ outArgList (exampleRun (abortingHost 0) (exampleRaster INT4SBYTES))
     = Some getOutputSpecification.
Proof.
  refine (proj1 (failure_leaves_nothing examplePlatform (abortingHost 0)
                   (Some (exampleArgs (exampleRaster INT4SBYTES)))
                   (Some getOutputSpecification)) _).
  vm_compute. discriminate.
Defined.

Lemma early_exits_witness :
  filter is_poll (trace (exampleRun quietHost (exampleRaster FLT8COMPLEX))) = []
  /\ positionsRead (trace (exampleRun quietHost (exampleRaster FLT8COMPLEX))) = []
  /\ cellsWritten (trace (exampleRun quietHost (exampleRaster FLT8COMPLEX))) = [].
Proof.
  refine (proj2 (proj2 (proj2 (early_exits examplePlatform quietHost
                                 (Some (exampleArgs (exampleRaster FLT8COMPLEX)))
                                 (Some getOutputSpecification)))) _).
  right. right. left. reflexivity.
Defined.

Lemma kernel_guard_witness :
  IntSample 31
  = static_cast examplePlatform signed_int
      (magnitude (IntSample 10) (IntSample 20) (IntSample 30) (IntSample 40)).
Proof.
  refine (proj2 (proj2 (proj2 (proj2
            (proj1 (kernel_guard examplePlatform signed_int (exampleRaster INT4SBYTES)
                      Accessor.getDataAccessor 0 0 2 2) (IntSample 31) _))))).
  vm_compute. reflexivity.
Defined.
